(** * Schedule evaluator: constraint engine

    A shallow embedding of the constraint evaluation engine of the schedule
    evaluator ([hard_constraints.py], [soft_constraints.py],
    [section_builder.py], the reference dictionaries of [data_loader.py],
    the weights of [config_loader.py] and the result of [evaluator.main]),
    followed by the properties established about it.

    Conventions of the embedding:
    - Python integers are [Z]; minutes from midnight are plain integers.
    - A Python [dict] is an association list in insertion order, because the
      checkers iterate over [.items()] and the order of the emitted
      violations depends on it.
    - A [frozenset] of batch ids is a [gset Z].
    - A function that can raise returns a [result].
    - Display-only fields of a violation (['details'], formatted times) are
      left out; penalties, which are floating-point powers, are kept as
      unevaluated terms. *)

From Stdlib Require Import ZArith QArith Lia Ascii String.
From stdpp Require Import base decidable option list strings numbers gmap pretty sorting.

#[local] Set Warnings "-clear-no-such-hyp".

Open Scope Z_scope.

(** ** Exceptions *)

Inductive exn :=
| AttributeError (attr : string)
| TypeError
| OverflowError.

Inductive result (A : Type) :=
| Ok (a : A)
| Raise (e : exn).
Arguments Ok {A} a.
Arguments Raise {A} e.

Global Instance result_ret : MRet result := fun _ a => Ok a.
Global Instance result_bind : MBind result := fun _ _ k m =>
  match m with
  | Ok a => k a
  | Raise e => Raise e
  end.
Global Instance result_fmap : FMap result := fun _ _ f m =>
  match m with
  | Ok a => Ok (f a)
  | Raise e => Raise e
  end.

(** ** Insertion-ordered dictionaries *)

Section dict.
Context {K V : Type} `{EqDecision K}.

(** [d.get(k)] *)
Fixpoint dict_get (d : list (K * V)) (k : K) : option V :=
  match d with
  | [] => None
  | (k', v) :: d' => if decide (k = k') then Some v else dict_get d' k
  end.

(** [d[k] = f(d.get(k))]: an existing key keeps its position, a new key
    goes last.  With [f] an append this is [defaultdict(list)], with [f]
    an addition it is [defaultdict(int)]. *)
Fixpoint dict_upd (f : option V -> V) (k : K) (d : list (K * V)) : list (K * V) :=
  match d with
  | [] => [(k, f None)]
  | (k', v) :: d' =>
      if decide (k = k') then (k', f (Some v)) :: d'
      else (k', v) :: dict_upd f k d'
  end.

Definition dict_keys (d : list (K * V)) : list K := d.*1.
End dict.

(** [d[k].append(x)] on a [defaultdict(list)] *)
Definition append_to {A : Type} (x : A) (o : option (list A)) : list A :=
  default [] o ++ [x].

(** [d[k] += n] on a [defaultdict(int)] *)
Definition add_to (n : Z) (o : option Z) : Z := default 0 o + n.

(** ** Strings *)

Definition ascii_upper (c : ascii) : ascii :=
  let n := nat_of_ascii c in
  if bool_decide (97 <= n <= 122)%nat then ascii_of_nat (n - 32) else c.

(** [s.upper()], on ASCII letters *)
Fixpoint upper (s : string) : string :=
  match s with
  | EmptyString => EmptyString
  | String c s' => String (ascii_upper c) (upper s')
  end.

(** [s.replace('_', '')] *)
Fixpoint remove_char (x : ascii) (s : string) : string :=
  match s with
  | EmptyString => EmptyString
  | String c s' => if decide (c = x) then remove_char x s' else String c (remove_char x s')
  end.

Definition string_rev (s : string) : string :=
  string_of_list_ascii (rev (list_ascii_of_string s)).

Fixpoint lstrip_chars (cs : list ascii) (s : string) : string :=
  match s with
  | EmptyString => EmptyString
  | String c s' => if bool_decide (c ∈ cs) then lstrip_chars cs s' else s
  end.

(** [s.rstrip(chars)]: drops the trailing characters that occur in [chars] *)
Definition rstrip (cs : string) (s : string) : string :=
  string_rev (lstrip_chars (list_ascii_of_string cs) (string_rev s)).

(** [s.endswith(suffix)] *)
Definition endswith (s suffix : string) : bool :=
  String.prefix (string_rev suffix) (string_rev s).

(** ** Interval algebra ([hard_constraints.py]) *)

Definition check_overlap (start1 end1 start2 end2 : Z) : bool :=
  bool_decide (start1 < end2) && bool_decide (start2 < end1).

Definition calculate_overlap_duration (start1 end1 start2 end2 : Z) : Z :=
  let overlap_start := Z.max start1 start2 in
  let overlap_end := Z.min end1 end2 in
  Z.max 0 (overlap_end - overlap_start).

(** ** Schedule rows

    One unified meeting, as [ScheduleLoader._map_row] and
    [ScheduleLoader._merge_meeting_rows] build it.  A key that a row does
    not carry ([all_faculty_ids] and [all_room_ids] on a row that was not
    merged) reads as [None], as [row.get] does. *)

Record row := {
  subject_id : option Z;
  subject_name : string;
  faculty_id : option Z;
  faculty_name : option string;
  all_faculty_ids : option (list Z);
  all_faculty_names : option (list string);
  room_id : option Z;
  room_name : option string;
  room_capacity : option Z;
  all_room_ids : option (list Z);
  batch_id : option Z;
  all_batch_ids : option (list Z);
  day : string;
  start_minutes : Z;
  end_minutes : Z
}.

(** ** Reference data ([data_loader.ReferenceData])

    Each record lists the keys of the dictionary literal that the loader
    stores per entity. *)

Record faculty_data := {
  fd_faculty_id : Z;
  fd_faculty_name : string;
  fd_min_load : Q;
  fd_max_load : Q;
  fd_max_subjects : Z;
  fd_preferred_subjects : list Z;
  fd_qualified_subjects : list Z
}.

Record subject_data := {
  sd_subject_id : Z;
  sd_subject_name : string;
  sd_linked_subject_id : option Z
}.

Record room_data := {
  rd_room_id : Z;
  rd_room_name : string;
  rd_capacity : Z
}.

Record batch_data := {
  bd_batch_id : Z;
  bd_batch_name : string;
  bd_population : Z
}.

Record banned_time := {
  bt_faculty_name : string;
  bt_day : string;
  bt_start_minutes : Z;
  bt_end_minutes : Z
}.

Record external_meeting := {
  em_faculty_name : string;
  em_day : string;
  em_start_minutes : Z;
  em_end_minutes : Z
}.

(** [external_meetings] is [None] when the attribute is absent, which is
    how [ReferenceData.__init__] leaves it. *)
Record ReferenceData := {
  faculty_by_id : list (Z * faculty_data);
  subjects_by_id : list (Z * subject_data);
  rooms_by_id : list (Z * room_data);
  batches_by_id : list (Z * batch_data);
  banned_times : list banned_time;
  external_meetings : option (list external_meeting)
}.

(** The values a faculty dictionary holds, for a lookup by key string. *)
Inductive faculty_value :=
| FInt (n : Z)
| FFloat (q : Q)
| FStr (s : string)
| FInts (l : list Z).

(** [data = {...}] in [ReferenceData._load_faculty] *)
Definition faculty_dict (d : faculty_data) : list (string * faculty_value) :=
  [ ("faculty_id", FInt (fd_faculty_id d));
    ("faculty_name", FStr (fd_faculty_name d));
    ("min_load", FFloat (fd_min_load d));
    ("max_load", FFloat (fd_max_load d));
    ("max_subjects", FInt (fd_max_subjects d));
    ("preferred_subjects", FInts (fd_preferred_subjects d));
    ("qualified_subjects", FInts (fd_qualified_subjects d)) ]%string.

Inductive room_value :=
| RInt (n : Z)
| RStr (s : string).

(** [data = {...}] in [ReferenceData._load_rooms] *)
Definition room_dict (d : room_data) : list (string * room_value) :=
  [ ("room_id", RInt (rd_room_id d));
    ("room_name", RStr (rd_room_name d));
    ("capacity", RInt (rd_capacity d)) ]%string.

(** [reference_data.faculty_by_id.get(id, {}).get(key)]: the empty
    dictionary of the default holds no key. *)
Definition faculty_get (ref : ReferenceData) (id : Z) (key : string) : option faculty_value :=
  d ← dict_get (faculty_by_id ref) id; dict_get (faculty_dict d) key.

Definition room_get (ref : ReferenceData) (id : Z) (key : string) : option room_value :=
  d ← dict_get (rooms_by_id ref) id; dict_get (room_dict d) key.

(** [faculty_data.get('faculty_name', str(faculty_id))] *)
Definition faculty_name_of (ref : ReferenceData) (id : Z) : string :=
  match dict_get (faculty_by_id ref) id with
  | Some d => fd_faculty_name d
  | None => pretty id
  end.

Definition batch_name_of (ref : ReferenceData) (id : Z) : string :=
  match dict_get (batches_by_id ref) id with
  | Some d => bd_batch_name d
  | None => pretty id
  end.

Definition room_name_of (ref : ReferenceData) (id : Z) : string :=
  match dict_get (rooms_by_id ref) id with
  | Some d => rd_room_name d
  | None => pretty id
  end.

Definition subject_name_of (ref : ReferenceData) (id : Z) : string :=
  match dict_get (subjects_by_id ref) id with
  | Some d => sd_subject_name d
  | None => pretty id
  end.

(** [faculty_data.get('preferred_subjects', [])] *)
Definition preferred_subjects_of (ref : ReferenceData) (id : Z) : list Z :=
  match dict_get (faculty_by_id ref) id with
  | Some d => fd_preferred_subjects d
  | None => []
  end.

(** [batch_data.get('population', 0)] *)
Definition population_of (ref : ReferenceData) (id : Z) : Z :=
  match dict_get (batches_by_id ref) id with
  | Some d => bd_population d
  | None => 0
  end.

(** ** Configuration ([config_loader.Config])

    The attributes that [Config._initialize] sets and the checkers read.
    Thresholds are already minutes.  The two faculty-load weights are
    stored under the names [FACULTY_OVERLOAD_PER_LOAD] and
    [FACULTY_UNDERFILL_PER_LOAD]. *)

(** A number of [config.json] is a Python [int] or a [float]; a float is
    kept by its exact value, infinities and NaN left aside.  The
    configurations of the model are those whose exponent and weights are
    numbers and whose [FRIDAY_END_MINUTES] and [MAX_SUBJECTS_PER_FACULTY]
    are [int]s; [_initialize] does not check what [json.load] returns. *)
Inductive number :=
| PyInt (n : Z)
| PyFloat (q : Q).

Record Config := {
  PENALTY_EXPONENT : number;
  MAX_CONTINUOUS_CLASS_MINUTES : Z;
  MIN_CONTINUOUS_CLASS_MINUTES : Z;
  MIN_GAP_MINUTES : Z;
  EXCESS_GAP_MINUTES : Z;
  FRIDAY_LATE_MINUTES : Z;
  MAX_SUBJECTS_PER_FACULTY : Z;
  FACULTY_OVERLOAD_PER_LOAD : number;
  FACULTY_UNDERFILL_PER_LOAD : number;
  SECTION_OVERFILL_PER_STUDENT : number;
  SECTION_UNDERFILL_PER_STUDENT : number;
  MIN_CONTINUOUS_PENALTY_PER_MINUTE : number;
  EXCESS_GAP_PENALTY_PER_MINUTE : number;
  NON_PREFERRED_SUBJECT_PENALTY : number;
  FRIDAY_LATE_PENALTY_PER_MINUTE : number;
  EXCESS_SUBJECTS_PENALTY_PER_SUBJECT : number;
  EXTERNAL_MEETING_CONFLICT_PENALTY_PER_MINUTE : number
}.

(** A penalty is a number that the source computes with floating-point
    arithmetic; it is kept as the term that computes it.  What is modelled
    of the arithmetic is when it raises [OverflowError]. *)
Inductive penalty_term :=
| PenaltyZero
| PenaltyPow (raw_count : Z) (exponent weight : number)  (* raw_count ** exponent * weight *)
| PenaltyTimes (weight : number) (count : Z).            (* weight * count *)

(** A float is below [2 ** 1024], and an integer from
    [2 ** 1024 - 2 ** 970] on rounds up to it: [float(n)] raises
    ["int too large to convert to float"]. *)
Definition float_bound : Z := 2 ^ 1024 - 2 ^ 970.

Definition int_too_large (n : Z) : bool := bool_decide (float_bound <= Z.abs n).

(** Whether the float power [x ** e] of an integer [x > 0] is out of the
    range of a float, [(34, 'Numerical result out of range')].  The power
    is compared with the bound as a real number: for [e = p / q] with
    [p, q > 0], [x ** e >= b] is [x ** p >= b ** q], and for [e <= 0] the
    power is at most [1].  The rounding of the interpreter's [pow] in the
    last digit before the bound is not modelled. *)
Definition pow_out_of_range (x : Z) (e : Q) : bool :=
  match Qnum e with
  | Zpos p => bool_decide (float_bound ^ Zpos (Qden e) <= x ^ Zpos p)
  | _ => false
  end.

(** What [raw_count ** exponent] is for a positive [raw_count]: an [int]
    when the exponent is a non-negative [int], a [float], kept aside,
    otherwise. *)
Inductive scaled_value :=
| ScaledInt (n : Z)
| ScaledFloat.

(** [raw_count ** self.PENALTY_EXPONENT].  An [int] to a non-negative
    [int] is exact; every other power converts both operands to [float]
    first. *)
Definition power (raw_count : Z) (exponent : number) : result scaled_value :=
  match exponent with
  | PyInt n =>
      if bool_decide (0 <= n) then Ok (ScaledInt (raw_count ^ n))
      else if int_too_large raw_count || int_too_large n then Raise OverflowError
      else Ok ScaledFloat
  | PyFloat e =>
      if int_too_large raw_count || pow_out_of_range raw_count e then Raise OverflowError
      else Ok ScaledFloat
  end.

(** [scaled * penalty_weight]: an [int] times an [int] is exact, a [float]
    times a [float] never raises, and an [int] next to a [float] is
    converted to [float] first. *)
Definition times_weight (scaled : scaled_value) (penalty_weight : number) : result unit :=
  match scaled, penalty_weight with
  | ScaledInt n, PyFloat _ => if int_too_large n then Raise OverflowError else Ok tt
  | ScaledFloat, PyInt w => if int_too_large w then Raise OverflowError else Ok tt
  | _, _ => Ok tt
  end.

(** [Config.apply_penalty] *)
Definition apply_penalty (config : Config) (raw_count : Z) (penalty_weight : number)
    : result penalty_term :=
  if bool_decide (raw_count <= 0) then Ok PenaltyZero
  else
    scaled ← power raw_count (PENALTY_EXPONENT config);
    _ ← times_weight scaled penalty_weight;
    Ok (PenaltyPow raw_count (PENALTY_EXPONENT config) penalty_weight).

(** ** Violations *)

Record violation := {
  vtype : string;
  entity_type : string;
  entity_name : string;
  vday : option string;
  magnitude : Z;
  penalty : option penalty_term
}.

Definition hard_violation (ty ety name : string) (d : option string) (m : Z) : violation :=
  {| vtype := ty; entity_type := ety; entity_name := name; vday := d;
     magnitude := m; penalty := None |}.

Definition soft_violation (ty ety name : string) (d : option string) (m : Z)
    (p : penalty_term) : violation :=
  {| vtype := ty; entity_type := ety; entity_name := name; vday := d;
     magnitude := m; penalty := Some p |}.

(** ** Sections and lecture-lab pairs ([section_builder.py]) *)

Record Section := {
  sec_subject_id : Z;
  sec_subject_name : string;
  sec_section_index : nat;
  sec_section_id : string;
  sec_faculty_id : option Z;
  sec_faculty_name : option string;
  sec_batch_ids : gset Z;
  sec_batch_names : gset string;
  sec_total_students : Z;
  sec_room_ids : gset Z;
  sec_room_names : gset (option string);
  sec_room_capacity : option Z;
  sec_room_id : option Z;
  sec_room_name : option string;
  sec_meetings : list row
}.

Record LectureLabPair := {
  lecture_section : Section;
  lab_section : Section;
  is_valid : bool;
  error : option string
}.

(** ** Grouping and sorting shared by the per-entity checks *)

(** The [entity_type] argument of the helpers; the three time-conflict
    checks are the same code for faculty, batch and room. *)
Inductive entity_kind := Faculty | Batch | Room.

(** [row.get(f'{entity_type}_id')] *)
Definition id_field (k : entity_kind) (r : row) : option Z :=
  match k with
  | Faculty => faculty_id r
  | Batch => batch_id r
  | Room => room_id r
  end.

(** [row.get(f'all_{entity_type}_ids')] *)
Definition all_ids_field (k : entity_kind) (r : row) : option (list Z) :=
  match k with
  | Faculty => all_faculty_ids r
  | Batch => all_batch_ids r
  | Room => all_room_ids r
  end.

(** [entity_type.capitalize()] *)
Definition capitalize (k : entity_kind) : string :=
  match k with
  | Faculty => "Faculty"
  | Batch => "Batch"
  | Room => "Room"
  end.

Definition entity_name_of (ref : ReferenceData) (k : entity_kind) (id : Z) : string :=
  match k with
  | Faculty => faculty_name_of ref id
  | Batch => batch_name_of ref id
  | Room => room_name_of ref id
  end.

(** The grouping loop of the hard checker: a row with a non-empty
    [all_..._ids] list is appended under every id of the list, any other
    row under its single id when it has one. *)
Definition group_rows_step (k : entity_kind) (by_entity : list (Z * list row)) (r : row)
    : list (Z * list row) :=
  match all_ids_field k r with
  | Some (id0 :: ids) =>
      foldl (fun d id => dict_upd (append_to r) id d) by_entity (id0 :: ids)
  | _ =>
      match id_field k r with
      | Some id => dict_upd (append_to r) id by_entity
      | None => by_entity
      end
  end.

Definition group_by_entity_merged (k : entity_kind) (schedule_rows : list row)
    : list (Z * list row) :=
  foldl (group_rows_step k) [] schedule_rows.

(** The grouping loop of the soft checker: only [row.get(id_field)]. *)
Definition group_by_entity_single (k : entity_kind) (schedule_rows : list row)
    : list (Z * list row) :=
  foldl (fun by_entity r =>
           match id_field k r with
           | Some id => dict_upd (append_to r) id by_entity
           | None => by_entity
           end) [] schedule_rows.

(** [by_day[m['day']].append(m)] *)
Definition group_by_day (meetings : list row) : list (string * list row) :=
  foldl (fun by_day m => dict_upd (append_to m) (day m) by_day) [] meetings.

(** [day_meetings.sort(key=lambda x: x['start_minutes'])]: a stable sort,
    written as the insertion sort that keeps equal keys in input order. *)
Fixpoint insert_by_start (m : row) (l : list row) : list row :=
  match l with
  | [] => [m]
  | x :: l' =>
      if bool_decide (start_minutes m <= start_minutes x) then m :: l
      else x :: insert_by_start m l'
  end.

Definition sort_by_start (l : list row) : list row := foldr insert_by_start [] l.

(** ** Hard constraints ([hard_constraints.py]) *)

(** The double loop [for i in range(len(dm)): for j in range(i + 1, len(dm))]. *)
Definition conflict_pairs (ty ety name d : string) (day_meetings : list row) : list violation :=
  flat_map (fun i =>
    flat_map (fun j =>
      match day_meetings !! i, day_meetings !! j with
      | Some m1, Some m2 =>
          if check_overlap (start_minutes m1) (end_minutes m1)
                           (start_minutes m2) (end_minutes m2)
          then [hard_violation ty ety name (Some d)
                  (calculate_overlap_duration (start_minutes m1) (end_minutes m1)
                                              (start_minutes m2) (end_minutes m2))]
          else []
      | _, _ => []
      end) (seq (S i) (length day_meetings - S i)))
    (seq 0 (length day_meetings)).

Definition time_conflicts (k : entity_kind) (ty : string)
    (schedule_rows : list row) (ref : ReferenceData) : list violation :=
  flat_map (fun '(id, meetings) =>
    let name := entity_name_of ref k id in
    flat_map (fun '(d, day_meetings) =>
      conflict_pairs ty (capitalize k) name d (sort_by_start day_meetings))
      (group_by_day meetings))
    (group_by_entity_merged k schedule_rows).

Definition check_faculty_time_conflicts := time_conflicts Faculty "Faculty Time Conflict".
Definition check_batch_time_conflicts := time_conflicts Batch "Batch Time Conflict".
Definition check_room_time_conflicts := time_conflicts Room "Room Time Conflict".

Definition check_room_capacity (sections : list Section) (ref : ReferenceData) : list violation :=
  flat_map (fun section =>
    match sec_room_id section, sec_room_capacity section with
    | Some _, Some capacity =>
        if bool_decide (sec_total_students section > capacity) then
          [hard_violation "Room Capacity Exceeded" "Section" (sec_section_id section) None
             (sec_total_students section - capacity)]
        else []
    | _, _ => []
    end) sections.

(** One turn of [for i in range(len(day_meetings))] in
    [_check_continuous_for_entity_type].  The state is
    [(block_start, block_end)] and what was emitted so far; [emit] is what
    the code does with a finished block. *)
Definition continuous_step {A : Type} (emit : Z -> Z -> list A) (day_meetings : list row)
    (st : Z * Z * list A) (i : nat) : Z * Z * list A :=
  let '(block_start, block_end, out) := st in
  match day_meetings !! i with
  | None => st
  | Some cur =>
      let current_end := end_minutes cur in
      if bool_decide (i < length day_meetings - 1)%nat then
        match day_meetings !! (S i) with
        | None => st
        | Some next =>
            let next_start := start_minutes next in
            if bool_decide (current_end = next_start)
            then (block_start, end_minutes next, out)
            else (next_start, end_minutes next, out ++ emit block_start block_end)
        end
      else (block_start, block_end, out ++ emit block_start current_end)
  end.

Definition continuous_scan {A : Type} (emit : Z -> Z -> list A) (day_meetings : list row)
    : list A :=
  match day_meetings with
  | [] => []
  | m0 :: _ =>
      (foldl (continuous_step emit day_meetings)
             (start_minutes m0, end_minutes m0, [])
             (seq 0 (length day_meetings))).2
  end.

(** The check applied to a finished block by the hard checker. *)
Definition max_block_check (ety name d : string) (max_minutes : Z)
    (block_start block_end : Z) : list violation :=
  let block_duration := block_end - block_start in
  if bool_decide (block_duration > max_minutes) then
    [hard_violation "Max Continuous Class Exceeded" ety name (Some d)
       (block_duration - max_minutes)]
  else [].

Definition _check_continuous_for_entity_type (schedule_rows : list row) (ref : ReferenceData)
    (k : entity_kind) (max_minutes : Z) : list violation :=
  flat_map (fun '(id, meetings) =>
    let name := entity_name_of ref k id in
    flat_map (fun '(d, day_meetings) =>
      continuous_scan (max_block_check (capitalize k) name d max_minutes)
        (sort_by_start day_meetings))
      (group_by_day meetings))
    (group_by_entity_merged k schedule_rows).

Definition check_max_continuous_class (schedule_rows : list row) (ref : ReferenceData)
    (config : Config) : list violation :=
  let max_minutes := MAX_CONTINUOUS_CLASS_MINUTES config in
  _check_continuous_for_entity_type schedule_rows ref Faculty max_minutes ++
  _check_continuous_for_entity_type schedule_rows ref Batch max_minutes.

(** The loop [for i in range(len(day_meetings) - 1)] over the gap
    [day_meetings[i + 1]['start_minutes'] - day_meetings[i]['end_minutes']];
    [emit] is the body applied to the gap. *)
Definition gap_scan {A : Type} (emit : Z -> list A) (day_meetings : list row) : list A :=
  flat_map (fun i =>
    match day_meetings !! i, day_meetings !! (S i) with
    | Some cur, Some next => emit (start_minutes next - end_minutes cur)
    | _, _ => []
    end) (seq 0 (length day_meetings - 1)).

Definition min_gap_check (ety name d : string) (min_gap_minutes : Z) (gap : Z)
    : list violation :=
  if bool_decide (gap > 0) && bool_decide (gap < min_gap_minutes) then
    [hard_violation "Min Gap Violation" ety name (Some d) (min_gap_minutes - gap)]
  else [].

Definition _check_gap_for_entity_type (schedule_rows : list row) (ref : ReferenceData)
    (k : entity_kind) (min_gap_minutes : Z) : list violation :=
  flat_map (fun '(id, meetings) =>
    let name := entity_name_of ref k id in
    flat_map (fun '(d, day_meetings) =>
      gap_scan (min_gap_check (capitalize k) name d min_gap_minutes)
        (sort_by_start day_meetings))
      (group_by_day meetings))
    (group_by_entity_merged k schedule_rows).

Definition check_min_gap (schedule_rows : list row) (ref : ReferenceData) (config : Config)
    : list violation :=
  let min_gap_minutes := MIN_GAP_MINUTES config in
  _check_gap_for_entity_type schedule_rows ref Faculty min_gap_minutes ++
  _check_gap_for_entity_type schedule_rows ref Batch min_gap_minutes.

(** The names a faculty-specific banned slot is compared with. *)
Definition faculty_names_to_check (meeting : row) : list string :=
  match all_faculty_names meeting with
  | Some (n :: ns) => n :: ns
  | _ =>
      match faculty_name meeting with
      | Some n => if bool_decide (n = ""%string) then [] else [n]
      | None => []
      end
  end.

Definition check_banned_times (schedule_rows : list row) (ref : ReferenceData) : list violation :=
  flat_map (fun banned =>
    let banned_faculty := bt_faculty_name banned in
    flat_map (fun meeting =>
      if bool_decide (day meeting ≠ bt_day banned) then []
      else if bool_decide (banned_faculty ≠ ""%string)
              && bool_decide (banned_faculty ∉ faculty_names_to_check meeting) then []
      else if check_overlap (start_minutes meeting) (end_minutes meeting)
                            (bt_start_minutes banned) (bt_end_minutes banned)
      then [hard_violation "Banned Time Violation" "Meeting" (subject_name meeting)
              (Some (bt_day banned))
              (calculate_overlap_duration (start_minutes meeting) (end_minutes meeting)
                                          (bt_start_minutes banned) (bt_end_minutes banned))]
      else []) schedule_rows)
    (banned_times ref).

(** [is_back_to_back] of [check_lecture_lab_separation] *)
Definition is_back_to_back (lec_m lab_m : row) : bool :=
  bool_decide (end_minutes lec_m = start_minutes lab_m)
  || bool_decide (end_minutes lab_m = start_minutes lec_m).

(** [same_room = (lec_room_id == lab_room_id) and lec_room_id is not None] *)
Definition same_room (lec_m lab_m : row) : bool :=
  bool_decide (room_id lec_m = room_id lab_m) && bool_decide (room_id lec_m ≠ None).

(** The body of the innermost loop, for one lecture meeting and one lab
    meeting of the same day. *)
Definition separation_check (name d : string) (lec_m lab_m : row) : list violation :=
  if negb (is_back_to_back lec_m lab_m) then
    [hard_violation "Lecture-Lab Separation" "Section" name (Some d) 1]
  else if negb (same_room lec_m lab_m) then
    [hard_violation "Lecture-Lab Separation" "Section" name (Some d) 1]
  else [].

(** [set(lecture_by_day.keys()) & set(lab_by_day.keys())].  Python walks
    this set in hash order; the days are listed here in the order of the
    lecture meetings. *)
Definition common_days (lecture_by_day lab_by_day : list (string * list row)) : list string :=
  filter (fun d => d ∈ dict_keys lab_by_day) (dict_keys lecture_by_day).

Definition pair_separation (pair : LectureLabPair) : list violation :=
  let lecture_by_day := group_by_day (sec_meetings (lecture_section pair)) in
  let lab_by_day := group_by_day (sec_meetings (lab_section pair)) in
  let name := (sec_section_id (lecture_section pair) +:+ " + "
               +:+ sec_section_id (lab_section pair))%string in
  flat_map (fun d =>
    let lec_meetings := default [] (dict_get lecture_by_day d) in
    let lab_meetings := default [] (dict_get lab_by_day d) in
    flat_map (fun lec_m =>
      flat_map (fun lab_m => separation_check name d lec_m lab_m) lab_meetings)
      lec_meetings)
    (common_days lecture_by_day lab_by_day).

Definition check_lecture_lab_separation (valid_pairs : list LectureLabPair)
    (ref : ReferenceData) : list violation :=
  flat_map pair_separation valid_pairs.

Definition check_all_hard_constraints (schedule_rows : list row) (sections : list Section)
    (ref : ReferenceData) (config : Config)
    (valid_lecture_lab_pairs : option (list LectureLabPair)) : list violation :=
  check_faculty_time_conflicts schedule_rows ref ++
  check_batch_time_conflicts schedule_rows ref ++
  check_room_time_conflicts schedule_rows ref ++
  check_room_capacity sections ref ++
  check_max_continuous_class schedule_rows ref config ++
  check_min_gap schedule_rows ref config ++
  check_banned_times schedule_rows ref ++
  match valid_lecture_lab_pairs with
  | Some pairs => check_lecture_lab_separation pairs ref
  | None => []
  end.

(** ** Section building ([section_builder.build_sections]) *)

(** The batch ids of a meeting: [all_batch_ids] when it is a non-empty
    list, else the single [batch_id] when there is one. *)
Definition row_batch_ids (meeting : row) : list Z :=
  let batch_ids := default [] (all_batch_ids meeting) in
  match batch_ids, batch_id meeting with
  | [], Some b => [b]
  | _, _ => batch_ids
  end.

Definition section_key : Type := Z * option Z * gset Z.

(** The first loop: the meetings of each [(subject_id, faculty_id,
    frozenset(batch_ids))] key. *)
Definition meeting_groups_step (groups : list (section_key * list row)) (meeting : row)
    : list (section_key * list row) :=
  match subject_id meeting with
  | None => groups
  | Some sid =>
      let batch_ids := row_batch_ids meeting in
      if bool_decide (faculty_id meeting = None) && bool_decide (batch_ids = []) then groups
      else dict_upd (append_to meeting) (sid, faculty_id meeting, list_to_set batch_ids) groups
  end.

Definition meeting_groups (schedule_rows : list row) : list (section_key * list row) :=
  foldl meeting_groups_step [] schedule_rows.

(** [Section.__init__] *)
Definition new_section (sid : Z) (name : string) (index : nat) : Section :=
  {| sec_subject_id := sid; sec_subject_name := name; sec_section_index := index;
     sec_section_id := (name +:+ "-" +:+ pretty index)%string;
     sec_faculty_id := None; sec_faculty_name := None;
     sec_batch_ids := ∅; sec_batch_names := ∅; sec_total_students := 0;
     sec_room_ids := ∅; sec_room_names := ∅; sec_room_capacity := None;
     sec_room_id := None; sec_room_name := None; sec_meetings := [] |}.

Definition set_faculty (s : Section) (fid : Z) (name : string) : Section :=
  {| sec_subject_id := sec_subject_id s; sec_subject_name := sec_subject_name s;
     sec_section_index := sec_section_index s; sec_section_id := sec_section_id s;
     sec_faculty_id := Some fid; sec_faculty_name := Some name;
     sec_batch_ids := sec_batch_ids s; sec_batch_names := sec_batch_names s;
     sec_total_students := sec_total_students s;
     sec_room_ids := sec_room_ids s; sec_room_names := sec_room_names s;
     sec_room_capacity := sec_room_capacity s;
     sec_room_id := sec_room_id s; sec_room_name := sec_room_name s;
     sec_meetings := sec_meetings s |}.

Definition add_batch (s : Section) (bid : Z) (name : string) (population : Z) : Section :=
  if bool_decide (bid ∈ sec_batch_ids s) then s
  else
  {| sec_subject_id := sec_subject_id s; sec_subject_name := sec_subject_name s;
     sec_section_index := sec_section_index s; sec_section_id := sec_section_id s;
     sec_faculty_id := sec_faculty_id s; sec_faculty_name := sec_faculty_name s;
     sec_batch_ids := {[bid]} ∪ sec_batch_ids s;
     sec_batch_names := {[name]} ∪ sec_batch_names s;
     sec_total_students := sec_total_students s + population;
     sec_room_ids := sec_room_ids s; sec_room_names := sec_room_names s;
     sec_room_capacity := sec_room_capacity s;
     sec_room_id := sec_room_id s; sec_room_name := sec_room_name s;
     sec_meetings := sec_meetings s |}.

(** [Section.add_room], called with a [room_id] that is not [None] *)
Definition add_room (s : Section) (rid : Z) (name : option string) (capacity : option Z)
    : Section :=
  let first := bool_decide (sec_room_id s = None) in
  {| sec_subject_id := sec_subject_id s; sec_subject_name := sec_subject_name s;
     sec_section_index := sec_section_index s; sec_section_id := sec_section_id s;
     sec_faculty_id := sec_faculty_id s; sec_faculty_name := sec_faculty_name s;
     sec_batch_ids := sec_batch_ids s; sec_batch_names := sec_batch_names s;
     sec_total_students := sec_total_students s;
     sec_room_ids := {[rid]} ∪ sec_room_ids s;
     sec_room_names := {[name]} ∪ sec_room_names s;
     sec_room_capacity := if first then capacity else sec_room_capacity s;
     sec_room_id := if first then Some rid else sec_room_id s;
     sec_room_name := if first then name else sec_room_name s;
     sec_meetings := sec_meetings s |}.

Definition add_meeting (s : Section) (meeting : row) : Section :=
  {| sec_subject_id := sec_subject_id s; sec_subject_name := sec_subject_name s;
     sec_section_index := sec_section_index s; sec_section_id := sec_section_id s;
     sec_faculty_id := sec_faculty_id s; sec_faculty_name := sec_faculty_name s;
     sec_batch_ids := sec_batch_ids s; sec_batch_names := sec_batch_names s;
     sec_total_students := sec_total_students s;
     sec_room_ids := sec_room_ids s; sec_room_names := sec_room_names s;
     sec_room_capacity := sec_room_capacity s;
     sec_room_id := sec_room_id s; sec_room_name := sec_room_name s;
     sec_meetings := sec_meetings s ++ [meeting] |}.

(** The body of the second loop, for one group. *)
Definition make_section (ref : ReferenceData) (key : section_key) (meetings : list row)
    (section_index : nat) : Section :=
  let '(sid, fid, batch_ids_frozenset) := key in
  let section := new_section sid (subject_name_of ref sid) section_index in
  let section :=
    match fid with
    | Some f => set_faculty section f (faculty_name_of ref f)
    | None => section
    end in
  let section :=
    foldl (fun s b => add_batch s b (batch_name_of ref b) (population_of ref b))
          section (elements batch_ids_frozenset) in
  foldl (fun s meeting =>
           let s := add_meeting s meeting in
           match room_id meeting with
           | Some r => add_room s r (room_name meeting) (room_capacity meeting)
           | None => s
           end) section meetings.

(** The second loop; the state is [section_index_by_subject] and the
    sections built so far. *)
Definition build_sections_step (ref : ReferenceData)
    (st : list (Z * nat) * list Section) (group : section_key * list row)
    : list (Z * nat) * list Section :=
  let '(section_index_by_subject, sections) := st in
  let '(key, meetings) := group in
  let sid := key.1.1 in
  let section_index := default 0%nat (dict_get section_index_by_subject sid) in
  (dict_upd (fun o => S (default 0%nat o)) sid section_index_by_subject,
   sections ++ [make_section ref key meetings section_index]).

Definition build_sections (schedule_rows : list row) (ref : ReferenceData) : list Section :=
  (foldl (build_sections_step ref) ([], []) (meeting_groups schedule_rows)).2.

(** ** Lecture-lab pairing ([section_builder.find_lecture_lab_pairs]) *)

(** [linked_id = subject_data.get('linked_subject_id')] passed through the
    truth test [if linked_id:], which also rejects the id [0]. *)
Definition truthy_linked_id (d : subject_data) : option Z :=
  match sd_linked_subject_id d with
  | Some l => if bool_decide (l = 0) then None else Some l
  | None => None
  end.

Definition lab_to_lecture (ref : ReferenceData) : list (Z * Z) :=
  foldl (fun d '(sid, sdata) =>
           match truthy_linked_id sdata with
           | Some linked_id => dict_upd (fun _ => linked_id) sid d
           | None => d
           end) [] (subjects_by_id ref).

Definition sections_by_subject (sections : list Section) : list (Z * list Section) :=
  foldl (fun d s => dict_upd (append_to s) (sec_subject_id s) d) [] sections.

(** The pairs built for one lab section, each tagged valid or not. *)
Definition pairs_of_lab (ref : ReferenceData) (sections : list Section) (lab : Section)
    : list LectureLabPair :=
  match dict_get (lab_to_lecture ref) (sec_subject_id lab) with
  | None => []
  | Some lecture_subject_id =>
      flat_map (fun lecture =>
        if bool_decide (sec_batch_ids lab ≠ sec_batch_ids lecture) then []
        else if bool_decide (sec_faculty_id lab ≠ sec_faculty_id lecture) then
          [{| lecture_section := lecture; lab_section := lab; is_valid := false;
              error := Some ("Different faculty: Lecture="
                             +:+ default "None" (sec_faculty_name lecture)
                             +:+ ", Lab=" +:+ default "None" (sec_faculty_name lab))%string |}]
        else
          [{| lecture_section := lecture; lab_section := lab; is_valid := true;
              error := None |}])
        (default [] (dict_get (sections_by_subject sections) lecture_subject_id))
  end.

(** Returns [(valid_pairs, error_pairs)]. *)
Definition find_lecture_lab_pairs (sections : list Section) (ref : ReferenceData)
    : list LectureLabPair * list LectureLabPair :=
  let pairs := flat_map (pairs_of_lab ref sections) sections in
  (filter (fun p => is_valid p = true) pairs, filter (fun p => is_valid p = false) pairs).

(** ** Soft constraints ([soft_constraints.py]) *)

(** [faculty_minutes[row['faculty_id']] += duration] over the rows *)
Definition faculty_minutes (schedule_rows : list row) : list (Z * Z) :=
  foldl (fun d r =>
           match faculty_id r with
           | Some f => dict_upd (add_to (end_minutes r - start_minutes r)) f d
           | None => d
           end) [] schedule_rows.

Definition Qlt_bool (x y : Q) : bool := negb (Qle_bool y x).

(** [limit = hours * 60] followed by [limit > 0 and total_minutes > limit].
    A string or a list times 60 is again a string or a list, and comparing
    it with [0] raises. *)
Definition over_limit (hours : faculty_value) (total_minutes : Z) : result bool :=
  match hours with
  | FInt h => Ok (bool_decide (h * 60 > 0) && bool_decide (total_minutes > h * 60))
  | FFloat q =>
      Ok (Qlt_bool 0 (q * inject_Z 60) && Qlt_bool (q * inject_Z 60) (inject_Z total_minutes))
  | FStr _ | FInts _ => Raise TypeError
  end.

(** [limit > 0 and total_minutes < limit] *)
Definition under_limit (hours : faculty_value) (total_minutes : Z) : result bool :=
  match hours with
  | FInt h => Ok (bool_decide (h * 60 > 0) && bool_decide (total_minutes < h * 60))
  | FFloat q =>
      Ok (Qlt_bool 0 (q * inject_Z 60) && Qlt_bool (inject_Z total_minutes) (q * inject_Z 60))
  | FStr _ | FInts _ => Raise TypeError
  end.

(** The loop of [check_faculty_overload] over [faculty_minutes.items()].
    When the test succeeds the code evaluates the arguments of
    [config.apply_penalty], and reading [config.FACULTY_OVERLOAD_PER_MINUTE]
    raises, since [Config] has no attribute of that name; nothing is
    appended before that. *)
Fixpoint overload_loop (ref : ReferenceData) (items : list (Z * Z)) : result (list violation) :=
  match items with
  | [] => Ok []
  | (fid, total_minutes) :: rest =>
      let hours := default (FInt 0) (faculty_get ref fid "max_hours_per_week") in
      exceeded ← over_limit hours total_minutes;
      if exceeded : bool then Raise (AttributeError "FACULTY_OVERLOAD_PER_MINUTE")
      else overload_loop ref rest
  end.

Definition check_faculty_overload (schedule_rows : list row) (ref : ReferenceData)
    (config : Config) : result (list violation) :=
  overload_loop ref (faculty_minutes schedule_rows).

(** The loop of [check_faculty_underfill] over
    [reference_data.faculty_by_id.items()]. *)
Fixpoint underfill_loop (minutes : list (Z * Z)) (items : list (Z * faculty_data))
    : result (list violation) :=
  match items with
  | [] => Ok []
  | (fid, fdata) :: rest =>
      let hours := default (FInt 0) (dict_get (faculty_dict fdata) "min_hours_per_week"%string) in
      let total_minutes := default 0 (dict_get minutes fid) in
      below ← under_limit hours total_minutes;
      if below : bool then Raise (AttributeError "FACULTY_UNDERFILL_PER_MINUTE")
      else underfill_loop minutes rest
  end.

Definition check_faculty_underfill (schedule_rows : list row) (ref : ReferenceData)
    (config : Config) : result (list violation) :=
  underfill_loop (faculty_minutes schedule_rows) (faculty_by_id ref).

(** [room_data.get('optimal_capacity', room_data.get('capacity', 0))] *)
Definition optimal_capacity_of (ref : ReferenceData) (rid : Z) : room_value :=
  match room_get ref rid "optimal_capacity" with
  | Some v => v
  | None => default (RInt 0) (room_get ref rid "capacity")
  end.

(** [room_data.get('min_capacity', 0)] *)
Definition min_capacity_of (ref : ReferenceData) (rid : Z) : room_value :=
  default (RInt 0) (room_get ref rid "min_capacity").

Definition section_overfill (ref : ReferenceData) (config : Config) (section : Section)
    : result (list violation) :=
  match sec_room_id section with
  | None => Ok []
  | Some rid =>
      match optimal_capacity_of ref rid with
      | RInt optimal_capacity =>
          if bool_decide (optimal_capacity ≠ 0)
             && bool_decide (sec_total_students section > optimal_capacity) then
            let over_by := sec_total_students section - optimal_capacity in
            penalty ← apply_penalty config over_by (SECTION_OVERFILL_PER_STUDENT config);
            Ok [soft_violation "Section Overfill" "Section" (sec_section_id section) None
                  over_by penalty]
          else Ok []
      | RStr s => if bool_decide (s = ""%string) then Ok [] else Raise TypeError
      end
  end.

Definition section_underfill (ref : ReferenceData) (config : Config) (section : Section)
    : result (list violation) :=
  match sec_room_id section with
  | None => Ok []
  | Some rid =>
      match min_capacity_of ref rid with
      | RInt min_capacity =>
          if bool_decide (min_capacity ≠ 0)
             && bool_decide (sec_total_students section < min_capacity) then
            let under_by := min_capacity - sec_total_students section in
            penalty ← apply_penalty config under_by (SECTION_UNDERFILL_PER_STUDENT config);
            Ok [soft_violation "Section Underfill" "Section" (sec_section_id section) None
                  under_by penalty]
          else Ok []
      | RStr s => if bool_decide (s = ""%string) then Ok [] else Raise TypeError
      end
  end.

(** A loop that appends what its body returns and stops at the first
    exception. *)
Fixpoint collect {A B : Type} (body : A -> result (list B)) (l : list A) : result (list B) :=
  match l with
  | [] => Ok []
  | x :: l' => vs ← body x; ws ← collect body l'; Ok (vs ++ ws)
  end.

Definition check_section_overfill (sections : list Section) (ref : ReferenceData)
    (config : Config) : result (list violation) :=
  collect (section_overfill ref config) sections.

Definition check_section_underfill (sections : list Section) (ref : ReferenceData)
    (config : Config) : result (list violation) :=
  collect (section_underfill ref config) sections.

(** One turn of [for i in range(1, len(day_meetings))] in
    [_check_min_continuous_for_entity]; the state is
    [(blocks, block_start, block_end)]. *)
Definition blocks_step (day_meetings : list row) (st : list (Z * Z) * Z * Z) (i : nat)
    : list (Z * Z) * Z * Z :=
  let '(blocks, block_start, block_end) := st in
  match day_meetings !! i with
  | None => st
  | Some current =>
      if bool_decide (start_minutes current = block_end)
      then (blocks, block_start, end_minutes current)
      else (blocks ++ [(block_start, block_end)], start_minutes current, end_minutes current)
  end.

(** The list [blocks] once the last block is appended. *)
Definition continuous_blocks (day_meetings : list row) : list (Z * Z) :=
  match day_meetings with
  | [] => []
  | m0 :: _ =>
      let '(blocks, block_start, block_end) :=
        foldl (blocks_step day_meetings) ([], start_minutes m0, end_minutes m0)
              (seq 1 (length day_meetings - 1)) in
      blocks ++ [(block_start, block_end)]
  end.

Definition min_block_check (config : Config) (ety name d : string) (min_minutes : Z)
    (block : Z * Z) : result (list violation) :=
  let '(block_start, block_end) := block in
  let block_duration := block_end - block_start in
  if bool_decide (block_duration > 0) && bool_decide (block_duration < min_minutes) then
    let under_by := min_minutes - block_duration in
    penalty ← apply_penalty config under_by (MIN_CONTINUOUS_PENALTY_PER_MINUTE config);
    Ok [soft_violation "Min Continuous Class" ety name (Some d) under_by penalty]
  else Ok [].

Definition _check_min_continuous_for_entity (schedule_rows : list row) (ref : ReferenceData)
    (config : Config) (k : entity_kind) (min_minutes : Z) : result (list violation) :=
  collect (fun '(id, meetings) =>
    let name := entity_name_of ref k id in
    collect (fun '(d, day_meetings) =>
      collect (min_block_check config (capitalize k) name d min_minutes)
        (continuous_blocks (sort_by_start day_meetings)))
      (group_by_day meetings))
    (group_by_entity_single k schedule_rows).

Definition check_min_continuous_class (schedule_rows : list row) (ref : ReferenceData)
    (config : Config) : result (list violation) :=
  let min_minutes := MIN_CONTINUOUS_CLASS_MINUTES config in
  faculty ← _check_min_continuous_for_entity schedule_rows ref config Faculty min_minutes;
  batch ← _check_min_continuous_for_entity schedule_rows ref config Batch min_minutes;
  Ok (faculty ++ batch).

(** The loop [for i in range(len(day_meetings) - 1)] of the soft checker,
    whose body can raise. *)
Definition gap_loop {A : Type} (body : Z -> result (list A)) (day_meetings : list row)
    : result (list A) :=
  collect (fun i =>
    match day_meetings !! i, day_meetings !! (S i) with
    | Some cur, Some next => body (start_minutes next - end_minutes cur)
    | _, _ => Ok []
    end) (seq 0 (length day_meetings - 1)).

Definition excess_gap_check (config : Config) (ety name d : string) (excess_threshold : Z)
    (gap : Z) : result (list violation) :=
  if bool_decide (gap > excess_threshold) then
    let excess := gap - excess_threshold in
    penalty ← apply_penalty config excess (EXCESS_GAP_PENALTY_PER_MINUTE config);
    Ok [soft_violation "Excess Gap" ety name (Some d) excess penalty]
  else Ok [].

Definition _check_excess_gap_for_entity (schedule_rows : list row) (ref : ReferenceData)
    (config : Config) (k : entity_kind) (excess_threshold : Z) : result (list violation) :=
  collect (fun '(id, meetings) =>
    let name := entity_name_of ref k id in
    collect (fun '(d, day_meetings) =>
      gap_loop (excess_gap_check config (capitalize k) name d excess_threshold)
        (sort_by_start day_meetings))
      (group_by_day meetings))
    (group_by_entity_single k schedule_rows).

Definition check_excess_gap (schedule_rows : list row) (ref : ReferenceData)
    (config : Config) : result (list violation) :=
  let excess_threshold := EXCESS_GAP_MINUTES config in
  faculty ← _check_excess_gap_for_entity schedule_rows ref config Faculty excess_threshold;
  batch ← _check_excess_gap_for_entity schedule_rows ref config Batch excess_threshold;
  Ok (faculty ++ batch).

(** The first loop of [check_non_preferred_subject]: the rows of each
    [(faculty_id, subject_id)] pair whose subject is outside a non-empty
    preferred list. *)
Definition faculty_subject_sections (schedule_rows : list row) (ref : ReferenceData)
    : list (Z * Z * list row) :=
  foldl (fun d r =>
           match faculty_id r, subject_id r with
           | Some fid, Some sid =>
               let preferred_subjects := preferred_subjects_of ref fid in
               if bool_decide (preferred_subjects ≠ [])
                  && bool_decide (sid ∉ preferred_subjects)
               then dict_upd (append_to r) (fid, sid) d
               else d
           | _, _ => d
           end) [] schedule_rows.

Definition check_non_preferred_subject (schedule_rows : list row) (ref : ReferenceData)
    (config : Config) : list violation :=
  map (fun '((fid, sid), sections) =>
         let num_sections := Z.of_nat (length sections) in
         soft_violation "Non-Preferred Subject" "Faculty" (faculty_name_of ref fid) None
           num_sections (PenaltyTimes (NON_PREFERRED_SUBJECT_PENALTY config) num_sections))
      (faculty_subject_sections schedule_rows ref).

Definition check_friday_late_classes (schedule_rows : list row) (ref : ReferenceData)
    (config : Config) : result (list violation) :=
  let late_threshold := FRIDAY_LATE_MINUTES config in
  collect (fun r =>
    if bool_decide (upper (day r) = "FRIDAY"%string) || bool_decide (upper (day r) = "FRI"%string)
    then
      if bool_decide (end_minutes r > late_threshold) then
        let over_by := end_minutes r - late_threshold in
        penalty ← apply_penalty config over_by (FRIDAY_LATE_PENALTY_PER_MINUTE config);
        Ok [soft_violation "Friday Late Class" "Meeting" (subject_name r) (Some (day r))
              over_by penalty]
      else Ok []
    else Ok []) schedule_rows.

Definition get_base_subject_name (name : string) (ref : ReferenceData) (sid : option Z)
    : string :=
  match sid with
  | None =>
      let up := remove_char "_"%char (upper name) in
      if endswith up "L" || endswith up "LAB" then rstrip "AB" (rstrip "L" up)
      else name
  | Some id =>
      match dict_get (subjects_by_id ref) id with
      | None => name
      | Some sdata =>
          match truthy_linked_id sdata with
          | Some linked_id =>
              match dict_get (subjects_by_id ref) linked_id with
              | Some lecture_data => sd_subject_name lecture_data
              | None => name
              end
          | None => name
          end
      end
  end.

(** [faculty_subjects[faculty_id].add(base_name)] over the rows *)
Definition faculty_subjects (schedule_rows : list row) (ref : ReferenceData)
    : list (Z * gset string) :=
  foldl (fun d r =>
           match faculty_id r with
           | Some fid =>
               let base_name := get_base_subject_name (subject_name r) ref (subject_id r) in
               dict_upd (fun o => {[base_name]} ∪ default ∅ o) fid d
           | None => d
           end) [] schedule_rows.

Definition check_excess_subjects (schedule_rows : list row) (ref : ReferenceData)
    (config : Config) : result (list violation) :=
  let max_subjects := MAX_SUBJECTS_PER_FACULTY config in
  collect (fun '(fid, base_subjects) =>
    let count := Z.of_nat (size (base_subjects : gset string)) in
    if bool_decide (count > max_subjects) then
      let excess := count - max_subjects in
      penalty ← apply_penalty config excess (EXCESS_SUBJECTS_PENALTY_PER_SUBJECT config);
      Ok [soft_violation "Excess Subjects" "Faculty" (faculty_name_of ref fid) None excess
            penalty]
    else Ok []) (faculty_subjects schedule_rows ref).

Definition check_external_meeting_conflicts (schedule_rows : list row) (ref : ReferenceData)
    (config : Config) : result (list violation) :=
  match external_meetings ref with
  | None => Ok []
  | Some exts =>
      collect (fun ext =>
        collect (fun meeting =>
          if bool_decide (faculty_name meeting ≠ Some (em_faculty_name ext)) then Ok []
          else if bool_decide (day meeting ≠ em_day ext) then Ok []
          else if bool_decide (start_minutes meeting < em_end_minutes ext)
                  && bool_decide (em_start_minutes ext < end_minutes meeting) then
            let overlap_start := Z.max (start_minutes meeting) (em_start_minutes ext) in
            let overlap_end := Z.min (end_minutes meeting) (em_end_minutes ext) in
            let overlap := overlap_end - overlap_start in
            penalty ← apply_penalty config overlap
                        (EXTERNAL_MEETING_CONFLICT_PENALTY_PER_MINUTE config);
            Ok [soft_violation "External Meeting Conflict" "Faculty" (em_faculty_name ext)
                  (Some (em_day ext)) overlap penalty]
          else Ok []) schedule_rows) exts
  end.

Definition check_all_soft_constraints (schedule_rows : list row) (sections : list Section)
    (ref : ReferenceData) (config : Config) : result (list violation) :=
  overload ← check_faculty_overload schedule_rows ref config;
  underfill ← check_faculty_underfill schedule_rows ref config;
  overfill ← check_section_overfill sections ref config;
  sec_underfill ← check_section_underfill sections ref config;
  min_continuous ← check_min_continuous_class schedule_rows ref config;
  excess_gap ← check_excess_gap schedule_rows ref config;
  let non_preferred := check_non_preferred_subject schedule_rows ref config in
  friday_late ← check_friday_late_classes schedule_rows ref config;
  excess_subjects ← check_excess_subjects schedule_rows ref config;
  external ← check_external_meeting_conflicts schedule_rows ref config;
  Ok (overload ++ underfill ++ overfill ++ sec_underfill ++ min_continuous ++ excess_gap ++
      non_preferred ++ friday_late ++ excess_subjects ++ external).

(** ** The evaluation ([evaluator.main])

    The part of [main] after the files are read: it takes the loaded
    configuration, reference data and unified schedule rows.  [None] is the
    early [return] on an empty schedule.

    Between the checks and the [return], [main] calls [generate_reports]
    and [print_quick_summary] of [reporter.py].  They format the
    violations, rows and sections, write the report files and print; they
    return nothing that [main] uses, and they can raise (a [TypeError] on
    a row whose ['all_batch_names'] is [None], an [OverflowError] on a
    penalty too large to format, an error of the file system).  What they
    do is not modelled: the two calls are parameters of [main], functions
    of the values they are called with that return or raise. *)

Record evaluation := {
  hard_violations : list violation;
  soft_violations : list violation;
  ev_schedule_rows : list row;
  ev_sections : list Section;
  valid_lecture_lab_pairs : list LectureLabPair;
  error_lecture_lab_pairs : list LectureLabPair;
  feasible : bool
}.

Section evaluator.

Variable generate_reports :
  list violation -> list violation -> Config -> list row -> ReferenceData ->
  list Section -> list LectureLabPair -> list LectureLabPair -> result unit.

Variable print_quick_summary : list violation -> list violation -> result unit.

Definition main (schedule_rows : list row) (ref : ReferenceData) (config : Config)
    : result (option evaluation) :=
  match schedule_rows with
  | [] => Ok None
  | _ :: _ =>
      let sections := build_sections schedule_rows ref in
      let '(valid_pairs, error_pairs) := find_lecture_lab_pairs sections ref in
      let hard := check_all_hard_constraints schedule_rows sections ref config
                    (Some valid_pairs) in
      soft ← check_all_soft_constraints schedule_rows sections ref config;
      _ ← generate_reports hard soft config schedule_rows ref sections valid_pairs
            error_pairs;
      _ ← print_quick_summary hard soft;
      Ok (Some {| hard_violations := hard; soft_violations := soft;
                  ev_schedule_rows := schedule_rows; ev_sections := sections;
                  valid_lecture_lab_pairs := valid_pairs;
                  error_lecture_lab_pairs := error_pairs;
                  feasible := bool_decide (length hard = 0%nat) |})
  end.

End evaluator.

(** ** Sample data used by the examples *)

(** A row of a meeting that was not merged: one faculty, one batch, one room,
    each possibly absent. *)
Definition plain_row (sid : option Z) (name : string) (fid : option Z) (fname : option string)
    (bid : option Z) (rid : option Z) (d : string) (s e : Z) : row :=
  {| subject_id := sid; subject_name := name;
     faculty_id := fid; faculty_name := fname;
     all_faculty_ids := None; all_faculty_names := None;
     room_id := rid; room_name := None; room_capacity := None; all_room_ids := None;
     batch_id := bid; all_batch_ids := None;
     day := d; start_minutes := s; end_minutes := e |}.

Definition empty_reference : ReferenceData :=
  {| faculty_by_id := []; subjects_by_id := []; rooms_by_id := []; batches_by_id := [];
     banned_times := []; external_meetings := None |}.

(** The values of [get_default_config]. *)
Definition default_config : Config :=
  {| PENALTY_EXPONENT := PyFloat 1;
     MAX_CONTINUOUS_CLASS_MINUTES := 180;
     MIN_CONTINUOUS_CLASS_MINUTES := 90;
     MIN_GAP_MINUTES := 30;
     EXCESS_GAP_MINUTES := 30;
     FRIDAY_LATE_MINUTES := 750;
     MAX_SUBJECTS_PER_FACULTY := 5;
     FACULTY_OVERLOAD_PER_LOAD := PyInt 1;
     FACULTY_UNDERFILL_PER_LOAD := PyInt 1;
     SECTION_OVERFILL_PER_STUDENT := PyInt 1;
     SECTION_UNDERFILL_PER_STUDENT := PyInt 1;
     MIN_CONTINUOUS_PENALTY_PER_MINUTE := PyInt 0;
     EXCESS_GAP_PENALTY_PER_MINUTE := PyInt 0;
     NON_PREFERRED_SUBJECT_PENALTY := PyInt 1;
     FRIDAY_LATE_PENALTY_PER_MINUTE := PyInt 1;
     EXCESS_SUBJECTS_PENALTY_PER_SUBJECT := PyInt 1;
     EXTERNAL_MEETING_CONFLICT_PENALTY_PER_MINUTE := PyInt 1 |}.

(** A meeting merged from two rows that name two faculty members: the first
    one is the canonical [faculty_id], both are in [all_faculty_ids]. *)
Definition merged_row (sid : option Z) (name : string) (fids : list Z) (fnames : list string)
    (d : string) (s e : Z) : row :=
  {| subject_id := sid; subject_name := name;
     faculty_id := head fids; faculty_name := head fnames;
     all_faculty_ids := Some fids; all_faculty_names := Some fnames;
     room_id := None; room_name := None; room_capacity := None; all_room_ids := Some [];
     batch_id := None; all_batch_ids := Some [];
     day := d; start_minutes := s; end_minutes := e |}.

(** Two faculty members as [_load_faculty] stores them: Cruz prefers
    subject 7 only and has a maximum load of 1, Reyes has a minimum load
    of 6. *)
Definition sample_reference : ReferenceData :=
  {| faculty_by_id :=
       [ (1, {| fd_faculty_id := 1; fd_faculty_name := "Cruz"; fd_min_load := 0;
                fd_max_load := 1; fd_max_subjects := 3; fd_preferred_subjects := [7];
                fd_qualified_subjects := [7; 9] |});
         (2, {| fd_faculty_id := 2; fd_faculty_name := "Reyes"; fd_min_load := 6;
                fd_max_load := 8; fd_max_subjects := 3; fd_preferred_subjects := [];
                fd_qualified_subjects := [] |}) ];
     subjects_by_id := []; rooms_by_id := []; batches_by_id := [];
     banned_times := []; external_meetings := None |}.

(** Cruz teaches from 08:00 to 20:00 on five days: 3600 minutes. *)
Definition full_week : list row :=
  map (fun d => plain_row (Some 7) "ICS 101" (Some 1) (Some "Cruz") (Some 5) None d 480 1200)
      ["MONDAY"; "TUESDAY"; "WEDNESDAY"; "THURSDAY"; "FRIDAY"]%string.

(** One section of subject 9, taught by Cruz to batch 5, that meets three
    times a week. *)
Definition one_section_three_meetings : list row :=
  map (fun d => plain_row (Some 9) "ICS 103" (Some 1) (Some "Cruz") (Some 5) None d 480 540)
      ["MONDAY"; "WEDNESDAY"; "FRIDAY"]%string.

(** A merged meeting of faculty 1 and 2 at 08:00-09:00, and a meeting of
    faculty 2 alone later the same day. *)
Definition merged_then_alone (s e : Z) : list row :=
  [ merged_row (Some 9) "ICS 103" [1; 2] ["Cruz"; "Reyes"]%string "MONDAY" 480 540;
    plain_row (Some 7) "ICS 101" (Some 2) (Some "Reyes") None None "MONDAY" s e ].

(** The merged meeting of faculty 1 and 2 on MONDAY 08:00-09:00, a meeting
    of faculty 2 alone on MONDAY 09:20-10:00 and one on TUESDAY
    09:10-10:00. *)
Definition merged_then_two_days : list row :=
  [ merged_row (Some 9) "ICS 103" [1; 2] ["Cruz"; "Reyes"]%string "MONDAY" 480 540;
    plain_row (Some 7) "ICS 101" (Some 2) (Some "Reyes") None None "MONDAY" 560 600;
    plain_row (Some 7) "ICS 101" (Some 2) (Some "Reyes") None None "TUESDAY" 550 600 ].

(** A catalog with a room of 30 seats and three batches of 20, 16 and 4
    students. *)
Definition sample_campus : ReferenceData :=
  {| faculty_by_id := faculty_by_id sample_reference;
     subjects_by_id := [];
     rooms_by_id := [ (11, {| rd_room_id := 11; rd_room_name := "R1"; rd_capacity := 30 |}) ];
     batches_by_id :=
       [ (5, {| bd_batch_id := 5; bd_batch_name := "A"; bd_population := 20 |});
         (6, {| bd_batch_id := 6; bd_batch_name := "B"; bd_population := 16 |});
         (7, {| bd_batch_id := 7; bd_batch_name := "C"; bd_population := 4 |}) ];
     banned_times := []; external_meetings := None |}.

(** A line of the schedule file with several batches, as [_map_row] returns
    it: subject 9 taught by Cruz in room 11. *)
Definition shared_row (bids : list Z) (d : string) (s e : Z) : row :=
  {| subject_id := Some 9; subject_name := "ICS 103";
     faculty_id := Some 1; faculty_name := Some "Cruz";
     all_faculty_ids := None; all_faculty_names := None;
     room_id := Some 11; room_name := Some "R1"; room_capacity := Some 30;
     all_room_ids := None;
     batch_id := head bids; all_batch_ids := Some bids;
     day := d; start_minutes := s; end_minutes := e |}.

(** One class shared by batches 5 and 6 that meets twice a week; the
    first line names batch 5 twice. *)
Definition shared_class : list row :=
  [ shared_row [5; 6; 5] "MONDAY" 480 540; shared_row [6; 5] "WEDNESDAY" 480 540 ].

(** One class of an hour for batches 6 and 7, which fit the room. *)
Definition small_class : list row := [ shared_row [6; 7] "MONDAY" 480 540 ].

(** A run in which the reports are written and the summary is printed
    without an exception. *)
Definition reports_written (hard soft : list violation) (config : Config)
    (schedule_rows : list row) (ref : ReferenceData) (sections : list Section)
    (valid_pairs error_pairs : list LectureLabPair) : result unit := Ok tt.

Definition summary_printed (hard soft : list violation) : result unit := Ok tt.

(** The overlap rules: their magnitude is the length of the overlap of
    two intervals. *)
Definition measures_overlap (v : violation) : bool :=
  bool_decide (vtype v ∈ ["Faculty Time Conflict"; "Batch Time Conflict";
                          "Room Time Conflict"; "Banned Time Violation";
                          "External Meeting Conflict"]%string).


(** Two meetings of Cruz with batch 5 on MONDAY, an hour apart. *)
Definition an_hour_apart : list row :=
  [ plain_row (Some 9) "ICS 103" (Some 1) (Some "Cruz") (Some 5) None "MONDAY" 480 540;
    plain_row (Some 7) "ICS 101" (Some 1) (Some "Cruz") (Some 5) None "MONDAY" 600 660 ].

(** The default configuration with the [int] exponent [2]. *)
Definition squared_config : Config :=
  {| PENALTY_EXPONENT := PyInt 2;
     MAX_CONTINUOUS_CLASS_MINUTES := 180;
     MIN_CONTINUOUS_CLASS_MINUTES := 90;
     MIN_GAP_MINUTES := 30;
     EXCESS_GAP_MINUTES := 30;
     FRIDAY_LATE_MINUTES := 750;
     MAX_SUBJECTS_PER_FACULTY := 5;
     FACULTY_OVERLOAD_PER_LOAD := PyInt 1;
     FACULTY_UNDERFILL_PER_LOAD := PyInt 1;
     SECTION_OVERFILL_PER_STUDENT := PyInt 1;
     SECTION_UNDERFILL_PER_STUDENT := PyInt 1;
     MIN_CONTINUOUS_PENALTY_PER_MINUTE := PyInt 0;
     EXCESS_GAP_PENALTY_PER_MINUTE := PyInt 0;
     NON_PREFERRED_SUBJECT_PENALTY := PyInt 1;
     FRIDAY_LATE_PENALTY_PER_MINUTE := PyInt 1;
     EXCESS_SUBJECTS_PENALTY_PER_SUBJECT := PyInt 1;
     EXTERNAL_MEETING_CONFLICT_PENALTY_PER_MINUTE := PyInt 1 |}.

(** A meeting entered with its end before its start, inside another
    meeting of the same faculty. *)
Definition inverted_inside : list row :=
  [ plain_row (Some 9) "ICS 103" (Some 1) (Some "Cruz") None None "MONDAY" 600 540;
    plain_row (Some 7) "ICS 101" (Some 1) (Some "Cruz") None None "MONDAY" 480 660 ].

(** ** Loader helpers ([data_loader.py]) *)

(** [normalize_subject_name]: [str(name).replace(" ", "").replace(".", "").upper()];
    the empty name gives the empty string either way. *)
Definition normalize_subject_name (name : string) : string :=
  upper (remove_char "."%char (remove_char " "%char name)).


(** A character that [normalize_subject_name] leaves as it is. *)
Definition normalized_char (c : ascii) : Prop :=
  c <> " "%char /\ c <> "."%char /\ ascii_upper c = c.

(** [f"{n:02d}"]: at least two characters, padded with a zero; the sign
    of a negative number takes one of the two places. *)
Definition format_02d (n : Z) : string :=
  if bool_decide (0 <= n < 10) then ("0" +:+ pretty n)%string else pretty n.

(** [minutes_to_time_str], on an integer *)
Definition minutes_to_time_str (minutes : Z) : string :=
  let hours := minutes `div` 60 in
  let mins := minutes `mod` 60 in
  (format_02d hours +:+ ":" +:+ format_02d mins)%string.

Definition is_digit (c : ascii) : bool :=
  bool_decide (48 <= nat_of_ascii c <= 57)%nat.

Definition digit_value (c : ascii) : Z := Z.of_nat (nat_of_ascii c) - 48.

(** The characters [str.strip()] removes, among the ASCII ones. *)
Definition is_space (c : ascii) : bool :=
  let n := nat_of_ascii c in
  bool_decide (9 <= n <= 13)%nat || bool_decide (28 <= n <= 32)%nat.

Fixpoint lstrip_spaces (s : list ascii) : list ascii :=
  match s with
  | c :: s' => if is_space c then lstrip_spaces s' else s
  | [] => []
  end.

Definition strip (s : list ascii) : list ascii :=
  rev (lstrip_spaces (rev (lstrip_spaces s))).

(** [datetime.strptime(s, "%H:%M")] matches [s] against the regular
    expression [(2[0-3]|[0-1]\d|\d):([0-5]\d|\d)], trying the alternatives
    in this order, and raises when the match fails or leaves characters
    unread.  The three functions list the ways each piece can match at the
    start of a string, in the order the matcher tries them, with the
    unread rest.  A digit is one of the ten ASCII digits. *)
Definition hour_matches (s : list ascii) : list (Z * list ascii) :=
  match s with
  | d1 :: d2 :: r =>
      (if bool_decide (d1 = "2"%char) && is_digit d2 && bool_decide (digit_value d2 <= 3)
       then [(20 + digit_value d2, r)] else []) ++
      (if (bool_decide (d1 = "0"%char) || bool_decide (d1 = "1"%char)) && is_digit d2
       then [(10 * digit_value d1 + digit_value d2, r)] else [])
  | _ => []
  end ++
  match s with
  | d1 :: r => if is_digit d1 then [(digit_value d1, r)] else []
  | [] => []
  end.

Definition colon_matches (s : list ascii) : list (list ascii) :=
  match s with
  | c :: r => if bool_decide (c = ":"%char) then [r] else []
  | [] => []
  end.

Definition minute_matches (s : list ascii) : list (Z * list ascii) :=
  match s with
  | d1 :: d2 :: r =>
      if is_digit d1 && bool_decide (digit_value d1 <= 5) && is_digit d2
      then [(10 * digit_value d1 + digit_value d2, r)] else []
  | _ => []
  end ++
  match s with
  | d1 :: r => if is_digit d1 then [(digit_value d1, r)] else []
  | [] => []
  end.

(** The hour and the minute of the first match, when it reads the whole
    string. *)
Definition strptime_HM (s : list ascii) : option (Z * Z) :=
  let found :=
    flat_map (fun '(h, r1) =>
      flat_map (fun r2 =>
        map (fun '(m, r3) => (h, m, r3)) (minute_matches r2))
        (colon_matches r1))
      (hour_matches s) in
  match found with
  | (h, m, []) :: _ => Some (h, m)
  | _ => None
  end.

(** [time_to_minutes], on a string: a parse failure gives [0]. *)
Definition time_to_minutes (time_str : string) : Z :=
  match strptime_HM (strip (list_ascii_of_string time_str)) with
  | Some (hour, minute) => hour * 60 + minute
  | None => 0
  end.

(** ** Structural forms used in the proofs *)

(** The pairs [(l[i], l[i + 1])]. *)
Definition consecutive {A : Type} (l : list A) : list (A * A) := zip l (tail l).

(** Grouping by an optional key: the shape shared by the grouping loops
    that file a row under at most one key. *)
Definition group_by {A K : Type} `{EqDecision K} (key : A -> option K) (l : list A)
    : list (K * list A) :=
  foldl (fun d x =>
           match key x with
           | Some k => dict_upd (append_to x) k d
           | None => d
           end) [] l.

(** The key under which [build_sections] files a meeting, [None] when the
    meeting is skipped. *)
Definition section_key_of (meeting : row) : option section_key :=
  match subject_id meeting with
  | None => None
  | Some sid =>
      let batch_ids := row_batch_ids meeting in
      if bool_decide (faculty_id meeting = None) && bool_decide (batch_ids = []) then None
      else Some (sid, faculty_id meeting, list_to_set batch_ids)
  end.

(** A meeting, a banned slot or an external meeting that starts before it
    ends. *)
Definition well_timed (r : row) : Prop := start_minutes r < end_minutes r.
Definition well_timed_ban (b : banned_time) : Prop := bt_start_minutes b < bt_end_minutes b.
Definition well_timed_ext (e : external_meeting) : Prop :=
  em_start_minutes e < em_end_minutes e.

Definition positive (v : violation) : Prop := 0 < magnitude v.

(** The key under which [check_non_preferred_subject] files a row, [None]
    when the row is skipped. *)
Definition non_preferred_key (ref : ReferenceData) (r : row) : option (Z * Z) :=
  match faculty_id r, subject_id r with
  | Some fid, Some sid =>
      let preferred_subjects := preferred_subjects_of ref fid in
      if bool_decide (preferred_subjects ≠ []) && bool_decide (sid ∉ preferred_subjects)
      then Some (fid, sid)
      else None
  | _, _ => None
  end.

(** The row [r] is in the group filed under [id]. *)
Definition in_group (d : list (Z * list row)) (id : Z) (r : row) : Prop :=
  exists g, dict_get d id = Some g /\ r ∈ g.


(** The magnitudes the Min Gap rule gives for one gap. *)
Definition shortfall (min_gap_minutes gap : Z) : list Z :=
  if bool_decide (0 < gap < min_gap_minutes) then [min_gap_minutes - gap] else [].

(** The loop of the hard checker as a recursion on the rest of the day:
    [cur] is [day_meetings[i]] and [(block_start, block_end)] the running
    block. *)
Fixpoint hard_blocks_from {A : Type} (emit : Z -> Z -> list A)
    (block_start block_end : Z) (cur : row) (rest : list row) : list A :=
  match rest with
  | [] => emit block_start (end_minutes cur)
  | next :: rest' =>
      if bool_decide (end_minutes cur = start_minutes next)
      then hard_blocks_from emit block_start (end_minutes next) next rest'
      else emit block_start block_end ++
           hard_blocks_from emit (start_minutes next) (end_minutes next) next rest'
  end.

(** The loop of the soft checker as a recursion on the rest of the day. *)
Fixpoint soft_blocks_from (block_start block_end : Z) (rest : list row) : list (Z * Z) :=
  match rest with
  | [] => [(block_start, block_end)]
  | current :: rest' =>
      if bool_decide (start_minutes current = block_end)
      then soft_blocks_from block_start (end_minutes current) rest'
      else (block_start, block_end) ::
           soft_blocks_from (start_minutes current) (end_minutes current) rest'
  end.

(** The grouping triple of a section. *)
Definition section_triple (s : Section) : section_key :=
  (sec_subject_id s, sec_faculty_id s, sec_batch_ids s).

Definition Zsum (l : list Z) : Z := foldr Z.add 0 l.

(** The bodies of the two inner loops of [build_sections], and the section
    they start from. *)
Definition add_batch_step (ref : ReferenceData) (s : Section) (b : Z) : Section :=
  add_batch s b (batch_name_of ref b) (population_of ref b).

Definition add_meeting_step (s : Section) (meeting : row) : Section :=
  let s := add_meeting s meeting in
  match room_id meeting with
  | Some r => add_room s r (room_name meeting) (room_capacity meeting)
  | None => s
  end.

Definition section_start (ref : ReferenceData) (sid : Z) (fid : option Z) (index : nat)
    : Section :=
  match fid with
  | Some f => set_faculty (new_section sid (subject_name_of ref sid) index) f
                (faculty_name_of ref f)
  | None => new_section sid (subject_name_of ref sid) index
  end.

(** A meeting that [build_sections] files in a section. *)
Definition classified (m : row) : Prop :=
  subject_id m <> None /\ (faculty_id m <> None \/ row_batch_ids m <> []).

Global Instance classified_dec (m : row) : Decision (classified m).
Proof. unfold classified. apply _. Defined.

(** The couples [(l[i], l[j])] with [i < j], in the order of the double
    loop of the time-conflict checks. *)
Fixpoint ordered_pairs {A : Type} (l : list A) : list (A * A) :=
  match l with
  | [] => []
  | x :: l' => map (pair x) l' ++ ordered_pairs l'
  end.

(** What a time-conflict check emits for one couple of meetings. *)
Definition conflict_of (ty ety name d : string) (m1 m2 : row) : list violation :=
  if check_overlap (start_minutes m1) (end_minutes m1) (start_minutes m2) (end_minutes m2)
  then [hard_violation ty ety name (Some d)
          (calculate_overlap_duration (start_minutes m1) (end_minutes m1)
                                      (start_minutes m2) (end_minutes m2))]
  else [].

(** A catalog with a lecture subject and the lab subject linked to it, and
    one meeting of each for the same faculty and batch. *)
Definition linked_reference : ReferenceData :=
  {| faculty_by_id := []; rooms_by_id := []; batches_by_id := [];
     banned_times := []; external_meetings := None;
     subjects_by_id :=
       [ (1, {| sd_subject_id := 1; sd_subject_name := "ICS 103";
                sd_linked_subject_id := None |});
         (2, {| sd_subject_id := 2; sd_subject_name := "ICS 103 Lab";
                sd_linked_subject_id := Some 1 |}) ] |}.

Definition lecture_and_lab : list row :=
  [ plain_row (Some 1) "ICS 103" (Some 1) (Some "Cruz") (Some 5) (Some 11) "MONDAY" 480 540;
    plain_row (Some 2) "ICS 103 Lab" (Some 1) (Some "Cruz") (Some 5) (Some 12) "MONDAY" 540 630 ].

Definition non_negative (v : violation) : Prop := 0 <= magnitude v.

(** The magnitudes a rule of the form [if x > limit: magnitude = x - limit]
    gives for one measured value. *)
Definition excess_over (limit x : Z) : list Z :=
  if bool_decide (x > limit) then [x - limit] else [].

(** Two consecutive meetings that do not touch. *)
Definition is_break (p : row * row) : Prop := end_minutes p.1 <> start_minutes p.2.

Global Instance is_break_dec (p : row * row) : Decision (is_break p).
Proof. unfold is_break. apply _. Defined.

(** The first meeting of a list that has a room. *)
Fixpoint first_roomed (meetings : list row) : option row :=
  match meetings with
  | [] => None
  | m :: rest => if room_id m is Some _ then Some m else first_roomed rest
  end.

(** ** Meeting unification ([data_loader.ScheduleLoader])

    [_map_row] turns a line of the schedule file into a dictionary with
    the keys of [mapped_row]; [_unify_meetings] leaves a line that is alone
    under its meeting key as it is and replaces several lines of one key by
    the dictionary of [merged_meeting]. *)

(** A cell of the [meeting_id] column as [_map_row] keeps it: a number (an
    [int], or a [float] when the column has empty cells) or a string.  The
    default [idx + 1] of an empty cell is an [int]. *)
Inductive id_cell :=
| IdNumber (x : number)
| IdText (s : string).

Record mapped_row := {
  mr_row_index : Z;
  mr_meeting_id : id_cell;
  mr_subject_id : option Z;
  mr_subject_name : string;
  mr_original_event_name : string;
  mr_faculty_id : option Z;
  mr_faculty_name : option string;
  mr_room_id : option Z;
  mr_room_name : option string;
  mr_room_capacity : option Z;
  mr_batch_id : option Z;
  mr_batch_name : option string;
  mr_batch_population : Z;
  mr_all_batch_ids : option (list Z);
  mr_all_batch_names : option (list string);
  mr_day : string;
  mr_start_time : string;
  mr_end_time : string;
  mr_start_minutes : Z;
  mr_end_minutes : Z;
  mr_duration_minutes : Z
}.

Record merged_meeting := {
  mg_row_index : Z;
  mg_meeting_id : list id_cell;
  mg_merged_from_rows : list id_cell;
  mg_subject_id : option Z;
  mg_subject_name : string;
  mg_original_event_name : string;
  mg_faculty_id : option Z;
  mg_faculty_name : option string;
  mg_all_faculty_ids : list Z;
  mg_all_faculty_names : list string;
  mg_room_id : option Z;
  mg_room_name : option string;
  mg_room_capacity : option Z;
  mg_all_room_ids : list Z;
  mg_all_room_names : list string;
  mg_batch_id : option Z;
  mg_batch_name : option string;
  mg_batch_population : Z;
  mg_all_batch_ids : list Z;
  mg_all_batch_names : list string;
  mg_day : string;
  mg_start_time : string;
  mg_end_time : string;
  mg_start_minutes : Z;
  mg_end_minutes : Z;
  mg_duration_minutes : Z
}.

Inductive unified_meeting :=
| Unmerged (r : mapped_row)
| Merged (m : merged_meeting).

(** An entry of [self.data_conflicts]; [dc_names] is the ['faculty'] or the
    ['rooms'] list. *)
Record data_conflict := {
  dc_type : string;
  dc_meeting : string;
  dc_row_ids : list id_cell;
  dc_names : list string;
  dc_details : string
}.

(** The meeting key: [(subject_name, day, start_time, end_time)], with the
    times as the strings of the file. *)
Definition meeting_key : Type := string * string * string * string.

Definition key_of (r : mapped_row) : meeting_key :=
  (mr_subject_name r, mr_day r, mr_start_time r, mr_end_time r).

(** A Python [set] is kept as the sequence of its [add] calls.  The order
    in which [list(s)] and [join] enumerate it is the interpreter's: it is a
    parameter, a function of that sequence. *)
Record set_iteration := {
  list_ids : list Z -> list Z;
  list_names : list string -> list string
}.

(** [len(s)] *)
Definition set_len {A : Type} `{EqDecision A} (adds : list A) : Z :=
  Z.of_nat (length (remove_dups adds)).

(** [list(s)[0] if s else None] *)
Definition first_of {A : Type} (adds : list A) (listed : list A) : option A :=
  match adds with
  | [] => None
  | _ :: _ => head listed
  end.

(** The value of a number, by which [int]s and [float]s are compared. *)
Definition number_value (x : number) : Q :=
  match x with
  | PyInt n => inject_Z n
  | PyFloat q => q
  end.

Definition number_le (x y : number) : bool := Qle_bool (number_value x) (number_value y).

Definition as_number (c : id_cell) : option number :=
  match c with
  | IdNumber x => Some x
  | IdText _ => None
  end.

Definition as_text (c : id_cell) : option string :=
  match c with
  | IdNumber _ => None
  | IdText s => Some s
  end.



(** A stable sort: an element goes in front of the later elements that are
    not below it. *)
Fixpoint insert_by {A : Type} (le : A -> A -> bool) (x : A) (l : list A) : list A :=
  match l with
  | [] => [x]
  | y :: rest => if le x y then x :: y :: rest else y :: insert_by le x rest
  end.

Definition sort_by {A : Type} (le : A -> A -> bool) (l : list A) : list A :=
  foldr (insert_by le) [] l.

(** [sorted(meeting_ids)]: numbers are ordered by value and strings by
    their characters; a list with a number and a string has a comparison
    of the two, which raises [TypeError]: [None]. *)
Definition sorted (meeting_ids : list id_cell) : option (list id_cell) :=
  match mapM as_number meeting_ids, mapM as_text meeting_ids with
  | Some numbers, _ => Some (IdNumber <$> sort_by number_le numbers)
  | None, Some texts => Some (IdText <$> sort_by String.leb texts)
  | None, None => None
  end.

(** [_merge_meeting_rows]; [None] is an exception: the [TypeError] of
    [sorted], or the [IndexError] of [rows[0]] on an empty list.  The
    ['meeting_id'] of the merged meeting is the [str] of the sorted ids
    joined by ["/"]; the model keeps the sorted ids.  A name is added
    next to an id: [_map_row] gives a row that
    has a faculty, batch or room id the name as well, and a row where it
    did not would add [None] to the set of names, which this model leaves
    out.  The second component is what the call appends to
    [self.data_conflicts]. *)
Definition _merge_meeting_rows (o : set_iteration) (ref : ReferenceData)
    (rows : list mapped_row) (key : meeting_key)
    : option (merged_meeting * list data_conflict) :=
  let '(subject_name, day, start_time, end_time) := key in
  let meeting_ids := map mr_meeting_id rows in
  let subject_id := last (omap mr_subject_id rows) in
  let original_event_name :=
    last (filter (fun n => n <> ""%string) (map mr_original_event_name rows)) in
  let faculty_ids := omap mr_faculty_id rows in
  let faculty_names := omap (fun r => _ ← mr_faculty_id r; mr_faculty_name r) rows in
  let batch_ids := omap mr_batch_id rows in
  let batch_names := omap (fun r => _ ← mr_batch_id r; mr_batch_name r) rows in
  let room_ids := omap mr_room_id rows in
  let room_names := omap (fun r => _ ← mr_room_id r; mr_room_name r) rows in
  let room_capacities := omap (fun r => _ ← mr_room_id r; mr_room_capacity r) rows in
  let meeting :=
    (subject_name +:+ " on " +:+ day +:+ " " +:+ start_time +:+ "-" +:+ end_time)%string in
  let faculty_conflict :=
    if bool_decide (set_len faculty_ids > 1) then
      [{| dc_type := "Multiple Faculty Conflict"; dc_meeting := meeting;
          dc_row_ids := meeting_ids; dc_names := list_names o faculty_names;
          dc_details := ("Same meeting assigned to " +:+ pretty (set_len faculty_ids) +:+
                         " different faculty: " +:+
                         String.concat ", " (list_names o faculty_names))%string |}]
    else [] in
  let room_conflict :=
    if bool_decide (set_len room_ids > 1) then
      [{| dc_type := "Multiple Room Conflict"; dc_meeting := meeting;
          dc_row_ids := meeting_ids; dc_names := list_names o room_names;
          dc_details := ("Same meeting assigned to " +:+ pretty (set_len room_ids) +:+
                         " different rooms: " +:+
                         String.concat ", " (list_names o room_names))%string |}]
    else [] in
  first ← head rows;
  sorted_ids ← sorted meeting_ids;
  Some ({| mg_row_index := mr_row_index first;
           mg_meeting_id := sorted_ids;
           mg_merged_from_rows := meeting_ids;
           mg_subject_id := subject_id;
           mg_subject_name := subject_name;
           mg_original_event_name := default subject_name original_event_name;
           mg_faculty_id := first_of faculty_ids (list_ids o faculty_ids);
           mg_faculty_name := first_of faculty_names (list_names o faculty_names);
           mg_all_faculty_ids := list_ids o faculty_ids;
           mg_all_faculty_names := list_names o faculty_names;
           mg_room_id := first_of room_ids (list_ids o room_ids);
           mg_room_name := first_of room_names (list_names o room_names);
           mg_room_capacity := first_of room_capacities (list_ids o room_capacities);
           mg_all_room_ids := list_ids o room_ids;
           mg_all_room_names := list_names o room_names;
           mg_batch_id := first_of batch_ids (list_ids o batch_ids);
           mg_batch_name := first_of batch_names (list_names o batch_names);
           mg_batch_population := Zsum (map (population_of ref) (list_ids o batch_ids));
           mg_all_batch_ids := list_ids o batch_ids;
           mg_all_batch_names := list_names o batch_names;
           mg_day := day;
           mg_start_time := start_time;
           mg_end_time := end_time;
           mg_start_minutes := mr_start_minutes first;
           mg_end_minutes := mr_end_minutes first;
           mg_duration_minutes := mr_duration_minutes first |},
        faculty_conflict ++ room_conflict).

(** [meeting_groups[key].append(row)] over the rows *)
Definition meeting_groups_by_key (unmerged_rows : list mapped_row)
    : list (meeting_key * list mapped_row) :=
  foldl (fun d r => dict_upd (append_to r) (key_of r) d) [] unmerged_rows.

(** The body of the loop over the groups: the meeting it appends to
    [unified_meetings] and the conflicts it records. *)
Definition unify_group (o : set_iteration) (ref : ReferenceData)
    (group : meeting_key * list mapped_row) : option (unified_meeting * list data_conflict) :=
  let '(key, rows) := group in
  match rows with
  | [r] => Some (Unmerged r, [])
  | _ => '(unified, conflicts) ← _merge_meeting_rows o ref rows key;
         Some (Merged unified, conflicts)
  end.

(** [_unify_meetings]: the unified meetings, and the conflicts appended to
    [self.data_conflicts] on the way. *)
Definition _unify_meetings (o : set_iteration) (ref : ReferenceData)
    (unmerged_rows : list mapped_row) : option (list unified_meeting * list data_conflict) :=
  results ← mapM (unify_group o ref) (meeting_groups_by_key unmerged_rows);
  Some (results.*1, concat results.*2).

(** The keys of a unified meeting that the checkers read. *)
Definition schedule_row (u : unified_meeting) : row :=
  match u with
  | Unmerged r =>
      {| subject_id := mr_subject_id r; subject_name := mr_subject_name r;
         faculty_id := mr_faculty_id r; faculty_name := mr_faculty_name r;
         all_faculty_ids := None; all_faculty_names := None;
         room_id := mr_room_id r; room_name := mr_room_name r;
         room_capacity := mr_room_capacity r; all_room_ids := None;
         batch_id := mr_batch_id r; all_batch_ids := mr_all_batch_ids r;
         day := mr_day r; start_minutes := mr_start_minutes r;
         end_minutes := mr_end_minutes r |}
  | Merged m =>
      {| subject_id := mg_subject_id m; subject_name := mg_subject_name m;
         faculty_id := mg_faculty_id m; faculty_name := mg_faculty_name m;
         all_faculty_ids := Some (mg_all_faculty_ids m);
         all_faculty_names := Some (mg_all_faculty_names m);
         room_id := mg_room_id m; room_name := mg_room_name m;
         room_capacity := mg_room_capacity m; all_room_ids := Some (mg_all_room_ids m);
         batch_id := mg_batch_id m; all_batch_ids := Some (mg_all_batch_ids m);
         day := mg_day m; start_minutes := mg_start_minutes m;
         end_minutes := mg_end_minutes m |}
  end.

Definition unified_key (u : unified_meeting) : meeting_key :=
  match u with
  | Unmerged r => key_of r
  | Merged m => (mg_subject_name m, mg_day m, mg_start_time m, mg_end_time m)
  end.

(** What the interpreter guarantees of the enumeration of a set: every
    element once. *)
Definition enumerates {A : Type} (listing : list A -> list A) : Prop :=
  forall adds, NoDup (listing adds) /\ forall x, x ∈ listing adds <-> x ∈ adds.

Definition faithful_iteration (o : set_iteration) : Prop :=
  enumerates (list_ids o) /\ enumerates (list_names o).

(** An enumeration: in order of first insertion. *)
Definition insertion_order : set_iteration :=
  {| list_ids := fun adds => reverse (remove_dups (reverse adds));
     list_names := fun adds => reverse (remove_dups (reverse adds)) |}.

(** A line of the schedule file with a resolved subject, faculty and
    batch, without a room. *)
Definition sample_mapped (idx : Z) (sid : Z) (name : string) (fid : Z) (fname : string)
    (bid : Z) (bname : string) (bids : option (list Z)) (d st et : string) : mapped_row :=
  {| mr_row_index := idx; mr_meeting_id := IdNumber (PyInt (idx + 1));
     mr_subject_id := Some sid; mr_subject_name := name; mr_original_event_name := name;
     mr_faculty_id := Some fid; mr_faculty_name := Some fname;
     mr_room_id := None; mr_room_name := None; mr_room_capacity := None;
     mr_batch_id := Some bid; mr_batch_name := Some bname; mr_batch_population := 0;
     mr_all_batch_ids := bids; mr_all_batch_names := None;
     mr_day := d; mr_start_time := st; mr_end_time := et;
     mr_start_minutes := time_to_minutes st; mr_end_minutes := time_to_minutes et;
     mr_duration_minutes := time_to_minutes et - time_to_minutes st |}.



(** The ids under which the grouping loop of the hard checker files a
    row. *)
Definition files_under (k : entity_kind) (r : row) (id : Z) : Prop :=
  match all_ids_field k r with
  | Some (id0 :: ids) => id ∈ id0 :: ids
  | _ => id_field k r = Some id
  end.

(** The id of a line of the schedule file, and all the ids of the line:
    only batches can be several. *)
Definition primary_id (k : entity_kind) (r : mapped_row) : option Z :=
  match k with
  | Faculty => mr_faculty_id r
  | Batch => mr_batch_id r
  | Room => mr_room_id r
  end.

Definition mapped_ids (k : entity_kind) (r : mapped_row) : list Z :=
  match k, mr_all_batch_ids r with
  | Batch, Some (b :: bs) => b :: bs
  | _, _ => option_list (primary_id k r)
  end.

(** A configuration whose penalties are computed in exact integer
    arithmetic: the exponent is a non-negative [int] and the weights that
    [apply_penalty] is called with are [int]s. *)
Definition is_int (w : number) : Prop :=
  match w with
  | PyInt _ => True
  | PyFloat _ => False
  end.

Definition exact_penalties (config : Config) : Prop :=
  (exists n, PENALTY_EXPONENT config = PyInt n /\ 0 <= n) /\
  is_int (SECTION_OVERFILL_PER_STUDENT config) /\
  is_int (MIN_CONTINUOUS_PENALTY_PER_MINUTE config) /\
  is_int (EXCESS_GAP_PENALTY_PER_MINUTE config) /\
  is_int (FRIDAY_LATE_PENALTY_PER_MINUTE config) /\
  is_int (EXCESS_SUBJECTS_PENALTY_PER_SUBJECT config) /\
  is_int (EXTERNAL_MEETING_CONFLICT_PENALTY_PER_MINUTE config).

(** ** What the per-entity checks are compared with

    The grouping loops of the checkers are compared with plain list
    functions: the entities and days in order of first occurrence, and
    the meetings of an entity on a day picked from the schedule by a
    filter. *)

(** The loop that files a row under every key of a list. *)
Definition group_by_keys {K A : Type} `{EqDecision K} (keys : A -> list K) (l : list A)
    : list (K * list A) :=
  foldl (fun d x => foldl (fun d k => dict_upd (append_to x) k d) d (keys x)) [] l.

(** The elements of a list, each once, in order of first occurrence: the
    keys of a dictionary filled in the order of the list. *)
Definition distinct {A : Type} `{EqDecision A} (l : list A) : list A :=
  foldl (fun seen x => if bool_decide (x ∈ seen) then seen else seen ++ [x]) [] l.

(** The ids under which the hard checker files a row: every id of a
    non-empty [all_faculty_ids] (batch, room) list, else the single
    [faculty_id] (batch, room) of the row when it has one. *)
Definition filed_ids (k : entity_kind) (r : row) : list Z :=
  match k with
  | Faculty =>
      match all_faculty_ids r with
      | Some (i :: l) => i :: l
      | _ => option_list (faculty_id r)
      end
  | Batch =>
      match all_batch_ids r with
      | Some (i :: l) => i :: l
      | _ => option_list (batch_id r)
      end
  | Room =>
      match all_room_ids r with
      | Some (i :: l) => i :: l
      | _ => option_list (room_id r)
      end
  end.

(** The single id of a row. *)
Definition single_id (k : entity_kind) (r : row) : option Z :=
  match k with
  | Faculty => faculty_id r
  | Batch => batch_id r
  | Room => room_id r
  end.

(** The rows filed under an id, in schedule order: by the hard checker, a
    row once for each time its ids name [id]; by the soft checker, the
    rows whose single id is [id]. *)
Definition meetings_of (k : entity_kind) (id : Z) (schedule_rows : list row) : list row :=
  flat_map (fun r => flat_map (fun i => if bool_decide (i = id) then [r] else [])
                              (filed_ids k r)) schedule_rows.

Definition meetings_of_single (k : entity_kind) (id : Z) (schedule_rows : list row)
    : list row :=
  filter (fun r => single_id k r = Some id) schedule_rows.

Definition on_day (d : string) (meetings : list row) : list row :=
  filter (fun m => day m = d) meetings.

Definition days_of (meetings : list row) : list string := distinct (map day meetings).

(** A body run on the day list, sorted by start, of every entity and every
    day on which the entity has a meeting. *)
Definition per_entity_per_day {A : Type} (entities : list Z) (meetings : Z -> list row)
    (body : list row -> list A) : list A :=
  flat_map (fun id =>
    flat_map (fun d => body (sort_by_start (on_day d (meetings id))))
             (days_of (meetings id)))
    entities.

(** * Properties *)

(** ** Dictionaries *)

Section dict_facts.
Context {K V : Type} `{EqDecision K}.
Implicit Types (d : list (K * V)) (k : K).

Lemma dict_get_upd f k k' d :
  dict_get (dict_upd f k d) k' =
  if decide (k' = k) then Some (f (dict_get d k)) else dict_get d k'.
Proof.
  induction d as [|[k0 v0] d IH]; simpl.
  - destruct (decide (k' = k)); done.
  - destruct (decide (k = k0)) as [->|Hne]; simpl.
    + destruct (decide (k' = k0)); done.
    + destruct (decide (k' = k0)) as [->|].
      * by rewrite decide_False by done.
      * apply IH.
Qed.

Lemma dict_keys_upd f k d :
  dict_keys (dict_upd f k d) =
  if bool_decide (k ∈ dict_keys d) then dict_keys d else dict_keys d ++ [k].
Proof.
  unfold dict_keys. induction d as [|[k0 v0] d IH]; [done|].
  cbn [dict_upd]. destruct (decide (k = k0)) as [->|Hne]; rewrite !fmap_cons; cbn [fst].
  - rewrite bool_decide_eq_true_2; [done|left].
  - rewrite IH. destruct (bool_decide (k ∈ d.*1)) eqn:E.
    + apply bool_decide_eq_true in E. rewrite bool_decide_eq_true_2; [done|by right].
    + apply bool_decide_eq_false in E. rewrite bool_decide_eq_false_2; [done|].
      rewrite elem_of_cons. naive_solver.
Qed.

Lemma dict_keys_upd_NoDup f k d :
  NoDup (dict_keys d) -> NoDup (dict_keys (dict_upd f k d)).
Proof.
  intros Hd. rewrite dict_keys_upd. case_bool_decide; [done|].
  apply NoDup_app. split_and!; [done| |apply NoDup_singleton].
  intros x Hx ->%list_elem_of_singleton. done.
Qed.

Lemma dict_get_Some_elem d k v : dict_get d k = Some v -> (k, v) ∈ d.
Proof.
  induction d as [|[k0 v0] d IH]; simpl; [done|].
  destruct (decide (k = k0)) as [->|]; [intros [= ->]; left|right; auto].
Qed.

Lemma dict_get_None d k : dict_get d k = None <-> k ∉ dict_keys d.
Proof.
  unfold dict_keys. induction d as [|[k0 v0] d IH]; simpl.
  - split; [intros _; apply not_elem_of_nil|done].
  - rewrite not_elem_of_cons. destruct (decide (k = k0)) as [->|]; naive_solver.
Qed.

Lemma dict_elem_get d k v : NoDup (dict_keys d) -> (k, v) ∈ d -> dict_get d k = Some v.
Proof.
  unfold dict_keys. induction d as [|[k0 v0] d IH]; simpl.
  - intros _ []%elem_of_nil.
  - intros [Hnot Hd]%NoDup_cons [[= -> ->]|Hin]%elem_of_cons.
    + by rewrite decide_True.
    + destruct (decide (k = k0)) as [->|]; [|auto].
      exfalso. apply Hnot. apply list_elem_of_fmap. by exists (k0, v).
Qed.

Lemma flat_map_lookup_items {B : Type} (F : K -> option V -> list B) d (l : list (K * V)) :
  (forall kv, kv ∈ l -> dict_get d kv.1 = Some kv.2) ->
  flat_map (fun k => F k (dict_get d k)) (l.*1) =
  flat_map (fun kv => F kv.1 (Some kv.2)) l.
Proof.
  induction l as [|kv l IH]; intros Hl; [done|].
  rewrite fmap_cons. cbn [flat_map]. rewrite Hl by apply list_elem_of_here.
  f_equal. apply IH. intros ? ?. apply Hl. by apply list_elem_of_further.
Qed.

(** Walking the keys and looking each one up is walking the items. *)
Lemma flat_map_keys_items {B : Type} (F : K -> option V -> list B) d :
  NoDup (dict_keys d) ->
  flat_map (fun k => F k (dict_get d k)) (dict_keys d) =
  flat_map (fun kv => F kv.1 (Some kv.2)) d.
Proof.
  intros Hd. apply flat_map_lookup_items.
  intros [k v] Hin. by apply dict_elem_get.
Qed.
End dict_facts.

Section dict_list_facts.
Context {K A : Type} `{EqDecision K}.
Implicit Types (d : list (K * list A)) (k : K).

Lemma flat_map_snd_upd_append (x : A) k d :
  flat_map snd (dict_upd (append_to x) k d) ≡ₚ flat_map snd d ++ [x].
Proof.
  induction d as [|[k0 v0] d IH]; simpl; [done|].
  destruct (decide (k = k0)) as [->|]; simpl.
  - unfold append_to; simpl. rewrite <-!(assoc_L (++)).
    f_equiv. apply Permutation_app_comm.
  - rewrite IH. by rewrite (assoc_L (++)).
Qed.

Lemma Forall_groups_upd_append (P : K -> A -> Prop) (x : A) k d :
  Forall (fun kg => Forall (P kg.1) kg.2) d -> P k x ->
  Forall (fun kg => Forall (P kg.1) kg.2) (dict_upd (append_to x) k d).
Proof.
  intros Hd Hx. induction d as [|[k0 v0] d IH]; simpl.
  - repeat constructor. done.
  - apply Forall_cons in Hd as [H0 Hd]. destruct (decide (k = k0)) as [->|].
    + constructor; [|done]. simpl in *. apply Forall_app. split; [done|by constructor].
    + constructor; [done|auto].
Qed.

Lemma group_by_snoc (key : A -> option K) (l : list A) (x : A) :
  group_by key (l ++ [x]) =
  match key x with
  | Some k => dict_upd (append_to x) k (group_by key l)
  | None => group_by key l
  end.
Proof. unfold group_by. by rewrite foldl_app. Qed.

Lemma group_by_NoDup (key : A -> option K) (l : list A) :
  NoDup (dict_keys (group_by key l)).
Proof.
  induction l as [|x l IH] using rev_ind; [constructor|].
  rewrite group_by_snoc. destruct (key x); [|done]. by apply dict_keys_upd_NoDup.
Qed.

Lemma group_by_Permutation (key : A -> option K) (l : list A) :
  flat_map snd (group_by key l) ≡ₚ filter (fun x => is_Some (key x)) l.
Proof.
  induction l as [|x l IH] using rev_ind; [done|].
  rewrite group_by_snoc, filter_app. destruct (key x) as [k|] eqn:E.
  - rewrite flat_map_snd_upd_append, IH. f_equiv.
    rewrite filter_cons_True by (by rewrite E). done.
  - rewrite IH. rewrite filter_cons_False by (rewrite E; by intros []).
    by rewrite filter_nil, app_nil_r.
Qed.

(** Every row of a group carries the key of the group. *)
Lemma group_by_keys_agree (key : A -> option K) (l : list A) :
  Forall (fun kg => Forall (fun x => key x = Some kg.1) kg.2) (group_by key l).
Proof.
  induction l as [|x l IH] using rev_ind; [constructor|].
  rewrite group_by_snoc. destruct (key x) as [k|] eqn:E; [|done].
  by apply (Forall_groups_upd_append (fun k x => key x = Some k)).
Qed.

(** The group of a key is the sub-list of the rows with that key, in
    input order. *)
Lemma group_by_get (key : A -> option K) (l : list A) k :
  default [] (dict_get (group_by key l) k) = filter (fun x => key x = Some k) l.
Proof.
  induction l as [|x l IH] using rev_ind; [done|].
  rewrite group_by_snoc, filter_app. destruct (key x) as [k0|] eqn:E.
  - rewrite dict_get_upd. destruct (decide (k = k0)) as [->|Hne].
    + rewrite filter_cons_True by done. simpl. unfold append_to. by rewrite IH.
    + rewrite IH, filter_cons_False by congruence. by rewrite filter_nil, app_nil_r.
  - rewrite IH, filter_cons_False by congruence. by rewrite filter_nil, app_nil_r.
Qed.
End dict_list_facts.

(** ** Index loops as recursions on the list *)

Lemma lookup_after_prefix {A : Type} (pre : list A) (x y : A) (rest : list A) :
  (pre ++ x :: y :: rest) !! S (length pre) = Some y.
Proof.
  rewrite (cons_middle x), (assoc_L (++)).
  apply list_lookup_middle. rewrite length_app. simpl. lia.
Qed.

Lemma gap_scan_from {A : Type} (g : row -> row -> list A) (pre suf : list row) :
  flat_map (fun i =>
    match (pre ++ suf) !! i, (pre ++ suf) !! (S i) with
    | Some cur, Some next => g cur next
    | _, _ => []
    end) (seq (length pre) (length suf - 1)) =
  flat_map (fun p => g p.1 p.2) (consecutive suf).
Proof.
  revert pre. induction suf as [|x suf IH]; intros pre; [done|].
  destruct suf as [|y suf]; [done|].
  replace (length (x :: y :: suf) - 1)%nat with (S (length (y :: suf) - 1)) by (simpl; lia).
  cbn [seq flat_map]. rewrite list_lookup_middle by done. rewrite lookup_after_prefix.
  unfold consecutive. cbn [tail zip zip_with flat_map fst snd]. f_equal.
  specialize (IH (pre ++ [x])). rewrite <-(assoc_L (++)) in IH. simpl in IH.
  rewrite length_app in IH. simpl in IH.
  replace (length pre + 1)%nat with (S (length pre)) in IH by lia. exact IH.
Qed.

Lemma gap_scan_consecutive {A : Type} (emit : Z -> list A) (day_meetings : list row) :
  gap_scan emit day_meetings =
  flat_map (fun p => emit (start_minutes p.2 - end_minutes p.1)) (consecutive day_meetings).
Proof.
  unfold gap_scan.
  exact (gap_scan_from (fun cur next => emit (start_minutes next - end_minutes cur))
           [] day_meetings).
Qed.

Lemma continuous_scan_from {A : Type} (emit : Z -> Z -> list A) (pre : list row) (cur : row)
    (rest : list row) (bs be : Z) (out : list A) :
  (foldl (continuous_step emit (pre ++ cur :: rest)) (bs, be, out)
         (seq (length pre) (length (cur :: rest)))).2 =
  out ++ hard_blocks_from emit bs be cur rest.
Proof.
  revert pre cur bs be out. induction rest as [|next rest IH]; intros pre cur bs be out.
  - simpl. unfold continuous_step. rewrite list_lookup_middle by done.
    rewrite bool_decide_eq_false_2; [done|]. rewrite length_app. simpl. lia.
  - change (seq (length pre) (length (cur :: next :: rest)))
      with (length pre :: seq (S (length pre)) (length (next :: rest))).
    cbn [foldl].
    assert (Hstep : continuous_step emit (pre ++ cur :: next :: rest) (bs, be, out) (length pre) =
      if bool_decide (end_minutes cur = start_minutes next)
      then (bs, end_minutes next, out)
      else (start_minutes next, end_minutes next, out ++ emit bs be)).
    { unfold continuous_step. rewrite list_lookup_middle by done.
      rewrite lookup_after_prefix.
      rewrite bool_decide_eq_true_2; [done|]. rewrite length_app. simpl. lia. }
    rewrite Hstep. clear Hstep.
    replace (pre ++ cur :: next :: rest) with ((pre ++ [cur]) ++ next :: rest)
      by (by rewrite <-(assoc_L (++))).
    replace (S (length pre)) with (length (pre ++ [cur]))
      by (rewrite length_app; simpl; lia).
    cbn [hard_blocks_from]. case_bool_decide.
    + apply IH.
    + rewrite IH. by rewrite (assoc_L (++)).
Qed.

Lemma continuous_scan_cons {A : Type} (emit : Z -> Z -> list A) (m0 : row) (rest : list row) :
  continuous_scan emit (m0 :: rest) =
  hard_blocks_from emit (start_minutes m0) (end_minutes m0) m0 rest.
Proof.
  unfold continuous_scan.
  exact (continuous_scan_from emit [] m0 rest (start_minutes m0) (end_minutes m0) []).
Qed.

Lemma continuous_blocks_from (pre rest : list row) (blocks : list (Z * Z)) (bs be : Z) :
  (let '(b, s, e) := foldl (blocks_step (pre ++ rest)) (blocks, bs, be)
                           (seq (length pre) (length rest)) in
   b ++ [(s, e)]) = blocks ++ soft_blocks_from bs be rest.
Proof.
  revert pre blocks bs be. induction rest as [|current rest IH]; intros pre blocks bs be.
  - done.
  - change (seq (length pre) (length (current :: rest)))
      with (length pre :: seq (S (length pre)) (length rest)).
    cbn [foldl].
    assert (Hstep : blocks_step (pre ++ current :: rest) (blocks, bs, be) (length pre) =
      if bool_decide (start_minutes current = be)
      then (blocks, bs, end_minutes current)
      else (blocks ++ [(bs, be)], start_minutes current, end_minutes current)).
    { unfold blocks_step. by rewrite list_lookup_middle. }
    rewrite Hstep. clear Hstep.
    replace (pre ++ current :: rest) with ((pre ++ [current]) ++ rest)
      by (by rewrite <-(assoc_L (++))).
    replace (S (length pre)) with (length (pre ++ [current]))
      by (rewrite length_app; simpl; lia).
    cbn [soft_blocks_from]. case_bool_decide.
    + apply IH.
    + rewrite IH. by rewrite <-(assoc_L (++)).
Qed.

Lemma continuous_blocks_cons (m0 : row) (rest : list row) :
  continuous_blocks (m0 :: rest) = soft_blocks_from (start_minutes m0) (end_minutes m0) rest.
Proof.
  unfold continuous_blocks.
  replace (length (m0 :: rest) - 1)%nat with (length rest) by (simpl; lia).
  exact (continuous_blocks_from [m0] rest [] (start_minutes m0) (end_minutes m0)).
Qed.

(** In the hard loop the running [block_end] is always the end of the
    current meeting, so its test [current_end == next_start] is the test
    [current.start == block_end] of the soft loop one step later. *)
Lemma hard_blocks_soft_blocks (bs be : Z) (cur : row) (rest : list row) :
  be = end_minutes cur ->
  hard_blocks_from (fun a b => [(a, b)]) bs be cur rest = soft_blocks_from bs be rest.
Proof.
  revert bs be cur. induction rest as [|next rest IH]; intros bs be cur ->; simpl; [done|].
  rewrite (bool_decide_ext (start_minutes next = end_minutes cur)
                           (end_minutes cur = start_minutes next)) by (split; congruence).
  case_bool_decide.
  - by apply IH.
  - f_equal. by apply IH.
Qed.

Lemma hard_blocks_emit {A : Type} (emit : Z -> Z -> list A) (bs be : Z) (cur : row)
    (rest : list row) :
  hard_blocks_from emit bs be cur rest =
  flat_map (fun b => emit b.1 b.2) (hard_blocks_from (fun a b => [(a, b)]) bs be cur rest).
Proof.
  revert bs be cur. induction rest as [|next rest IH]; intros bs be cur; simpl.
  - by rewrite app_nil_r.
  - case_bool_decide; [apply IH|]. simpl. f_equal. apply IH.
Qed.

(** ** Sorting *)

Lemma insert_by_start_Permutation (m : row) (l : list row) :
  insert_by_start m l ≡ₚ m :: l.
Proof.
  induction l as [|x l IH]; simpl; [done|].
  case_bool_decide; [done|]. rewrite IH. apply Permutation_swap.
Qed.

Lemma sort_by_start_Permutation (l : list row) : sort_by_start l ≡ₚ l.
Proof.
  induction l as [|x l IH]; simpl; [done|].
  by rewrite insert_by_start_Permutation, IH.
Qed.



(** The sort is stable: the meetings that start at the same minute keep
    their input order. *)
Lemma insert_by_start_stable (t : Z) (m : row) (l : list row) :
  filter (fun x => start_minutes x = t) (insert_by_start m l) =
  filter (fun x => start_minutes x = t) (m :: l).
Proof.
  induction l as [|x l IH]; simpl; [done|].
  case_bool_decide as Hle; [done|].
  destruct (decide (start_minutes x = t)) as [Hx|Hx].
  - rewrite (filter_cons_True _ x) by done. rewrite IH.
    rewrite !(filter_cons_False _ m) by lia.
    by rewrite (filter_cons_True _ x).
  - rewrite (filter_cons_False _ x) by done. rewrite IH.
    destruct (decide (start_minutes m = t)).
    + rewrite !(filter_cons_True _ m) by done. by rewrite (filter_cons_False _ x).
    + rewrite !(filter_cons_False _ m) by done. by rewrite (filter_cons_False _ x).
Qed.

Lemma sort_by_start_stable (t : Z) (l : list row) :
  filter (fun x => start_minutes x = t) (sort_by_start l) =
  filter (fun x => start_minutes x = t) l.
Proof.
  induction l as [|x l IH]; simpl; [done|].
  rewrite insert_by_start_stable.
  destruct (decide (start_minutes x = t)).
  - rewrite !(filter_cons_True _ x) by done. by rewrite IH.
  - rewrite !(filter_cons_False _ x) by done. by rewrite IH.
Qed.

Lemma sort_by_start_Forall (P : row -> Prop) (l : list row) :
  Forall P l -> Forall P (sort_by_start l).
Proof. intros H. by rewrite sort_by_start_Permutation. Qed.

(** ** Lists *)

Lemma map_flat_map {A B C : Type} (f : B -> C) (g : A -> list B) (l : list A) :
  map f (flat_map g l) = flat_map (fun x => map f (g x)) l.
Proof. induction l as [|x l IH]; simpl; [done|]. by rewrite map_app, IH. Qed.

Lemma flat_map_nil_ext {A B : Type} (g : A -> list B) (l : list A) :
  (forall x, g x = []) -> flat_map g l = [].
Proof. intros Hg. induction l as [|x l IH]; simpl; [done|]. by rewrite Hg, IH. Qed.

Lemma flat_map_filter_nil {A B : Type} (P : A -> Prop) `{forall x, Decision (P x)}
    (g : A -> list B) (l : list A) :
  (forall x, ~ P x -> g x = []) -> flat_map g (filter P l) = flat_map g l.
Proof.
  intros Hg. induction l as [|x l IH]; simpl; [done|].
  destruct (decide (P x)).
  - rewrite filter_cons_True by done. simpl. by rewrite IH.
  - rewrite filter_cons_False by done. by rewrite IH, Hg.
Qed.

Lemma flat_map_flat_map {A B C : Type} (f : B -> list C) (g : A -> list B) (l : list A) :
  flat_map f (flat_map g l) = flat_map (fun x => flat_map f (g x)) l.
Proof. induction l as [|x l IH]; simpl; [done|]. by rewrite flat_map_app, IH. Qed.

Lemma Forall_flat_map_intro {A B : Type} (P : B -> Prop) (g : A -> list B) (l : list A) :
  (forall x, x ∈ l -> Forall P (g x)) -> Forall P (flat_map g l).
Proof.
  intros Hg. induction l as [|x l IH]; simpl; [constructor|].
  apply Forall_app. split; [apply Hg; left|]. apply IH. intros y Hy. apply Hg. by right.
Qed.

(** ** Interval algebra *)

(** C5 (as amended).  [check_overlap] is the half-open test
    [s1 < e2 /\ s2 < e1], false for touching intervals, and
    [calculate_overlap_duration] is [max 0 (min e1 e2 - max s1 s2)]; this is
    [min e1 e2 - max s1 s2] when the intervals overlap and neither has its
    end before its start, and [0] for touching or disjoint intervals. *)
Theorem overlap_test_and_duration (s1 e1 s2 e2 : Z) :
  (check_overlap s1 e1 s2 e2 = true <-> s1 < e2 /\ s2 < e1) /\
  (s1 = e2 \/ s2 = e1 -> check_overlap s1 e1 s2 e2 = false) /\
  calculate_overlap_duration s1 e1 s2 e2 = Z.max 0 (Z.min e1 e2 - Z.max s1 s2) /\
  (s1 <= e1 -> s2 <= e2 -> check_overlap s1 e1 s2 e2 = true ->
   calculate_overlap_duration s1 e1 s2 e2 = Z.min e1 e2 - Z.max s1 s2) /\
  (s1 = e2 \/ s2 = e1 \/ e1 <= s2 \/ e2 <= s1 ->
   calculate_overlap_duration s1 e1 s2 e2 = 0).
Proof.
  unfold check_overlap, calculate_overlap_duration.
  rewrite andb_true_iff, !bool_decide_eq_true, andb_false_iff, !bool_decide_eq_false.
  split_and!; try tauto; lia.
Qed.

Lemma overlap_test_and_duration_witness :
  check_overlap 480 600 540 660 = true /\
  calculate_overlap_duration 480 600 540 660 = Z.min 600 660 - Z.max 480 540.
Proof.
  split; [reflexivity|].
  apply (overlap_test_and_duration 480 600 540 660); [lia|lia|reflexivity].
Defined.

(** C5, the claim as stated fails: a meeting that ends before it starts
    passes the overlap test with a meeting around it, and the duration is
    then [0], not [min e1 e2 - max s1 s2]. *)
Lemma overlap_duration_inverted_bounds :
  check_overlap 600 540 480 720 = true /\
  calculate_overlap_duration 600 540 480 720 = 0 /\
  calculate_overlap_duration 600 540 480 720 <> Z.min 540 720 - Z.max 600 480.
Proof. split_and!; [reflexivity|reflexivity|discriminate]. Qed.

(** ** Continuous blocks *)

(** C10.  On any day list the hard checker's loop (it compares the end of
    each meeting with the start of the next one) and the soft checker's
    loop (it compares the start of each meeting with the running block
    end) cut the day into the same list of [(block_start, block_end)]
    spans; and what the hard checker emits is its block check applied to
    those spans, in order. *)
Theorem hard_and_soft_segmentation_agree (day_meetings : list row) :
  continuous_scan (fun block_start block_end => [(block_start, block_end)]) day_meetings
  = continuous_blocks day_meetings /\
  forall (ety name d : string) (max_minutes : Z),
    continuous_scan (max_block_check ety name d max_minutes) day_meetings =
    flat_map (fun b => max_block_check ety name d max_minutes b.1 b.2)
             (continuous_blocks day_meetings).
Proof.
  destruct day_meetings as [|m0 rest]; [done|].
  rewrite !continuous_scan_cons, continuous_blocks_cons.
  split.
  - by apply hard_blocks_soft_blocks.
  - intros. rewrite continuous_scan_cons, hard_blocks_emit.
    by rewrite hard_blocks_soft_blocks.
Qed.

(** ** Min Gap *)


Lemma foldl_ext_all {A B : Type} (f g : A -> B -> A) (l : list B) (a : A) :
  (forall a x, f a x = g a x) -> foldl f a l = foldl g a l.
Proof.
  intros Hfg. revert a. induction l as [|x l IH]; intros a; simpl; [done|].
  by rewrite Hfg, IH.
Qed.

Lemma group_by_day_group_by (meetings : list row) :
  group_by_day meetings = group_by (fun m => Some (day m)) meetings.
Proof. reflexivity. Qed.

Lemma group_by_entity_single_group_by (k : entity_kind) (schedule_rows : list row) :
  group_by_entity_single k schedule_rows = group_by (id_field k) schedule_rows.
Proof. reflexivity. Qed.

(** ** The grouping loops and their reference forms *)

Section grouping_reference.
Context {K A : Type} `{EqDecision K}.

Lemma distinct_snoc (l : list K) (x : K) :
  distinct (l ++ [x]) =
  if bool_decide (x ∈ distinct l) then distinct l else distinct l ++ [x].
Proof. unfold distinct. by rewrite foldl_app. Qed.

Lemma distinct_app_fold (l l' : list K) :
  distinct (l ++ l') =
  foldl (fun seen x => if bool_decide (x ∈ seen) then seen else seen ++ [x]) (distinct l) l'.
Proof. unfold distinct. by rewrite foldl_app. Qed.

Lemma distinct_NoDup (l : list K) : NoDup (distinct l).
Proof.
  induction l as [|x l IH] using rev_ind; [constructor|].
  rewrite distinct_snoc. case_bool_decide; [done|].
  apply NoDup_app. split_and!; [done| |apply NoDup_singleton].
  intros y Hy ->%list_elem_of_singleton. done.
Qed.

Lemma distinct_elem (l : list K) (x : K) : x ∈ distinct l <-> x ∈ l.
Proof.
  induction l as [|y l IH] using rev_ind; [done|].
  rewrite distinct_snoc, elem_of_app, list_elem_of_singleton.
  case_bool_decide as Hy.
  - rewrite IH. split; [tauto|]. intros [?| ->]; [done|]. by apply IH.
  - rewrite elem_of_app, list_elem_of_singleton, IH. done.
Qed.

(** Filing [x] under each key of [ks] in turn. *)
Lemma file_keys (x : A) (ks : list K) (d : list (K * list A)) :
  dict_keys (foldl (fun d k => dict_upd (append_to x) k d) d ks) =
  foldl (fun seen k => if bool_decide (k ∈ seen) then seen else seen ++ [k]) (dict_keys d) ks.
Proof.
  revert d. induction ks as [|k ks IH]; intros d; simpl; [done|].
  by rewrite IH, dict_keys_upd.
Qed.

Lemma file_get (x : A) (ks : list K) (d : list (K * list A)) (k : K) :
  default [] (dict_get (foldl (fun d k => dict_upd (append_to x) k d) d ks) k) =
  default [] (dict_get d k) ++ flat_map (fun i => if bool_decide (i = k) then [x] else []) ks.
Proof.
  revert d. induction ks as [|k0 ks IH]; intros d; simpl; [by rewrite app_nil_r|].
  rewrite IH, dict_get_upd. destruct (decide (k = k0)) as [->|Hne].
  - rewrite bool_decide_eq_true_2 by done. simpl. unfold append_to.
    by rewrite <-(assoc_L (++)).
  - rewrite bool_decide_eq_false_2 by congruence. done.
Qed.

(** A dictionary is the list of its keys, each with its value. *)
Lemma dict_by_keys (d : list (K * list A)) :
  NoDup (dict_keys d) ->
  d = (fun k => (k, default [] (dict_get d k))) <$> dict_keys d.
Proof.
  unfold dict_keys. induction d as [|[k0 v0] d IH]; [done|].
  rewrite !fmap_cons. cbn [fst]. intros [Hfresh Hnd]%NoDup_cons.
  cbn [dict_get]. rewrite decide_True by done. simpl. f_equal.
  rewrite (IH Hnd) at 1. apply list_fmap_ext. intros i k Hk.
  destruct (decide (k = k0)) as [->|]; [|done].
  exfalso. apply Hfresh. by eapply list_elem_of_lookup_2.
Qed.

Lemma group_by_keys_keys (keys : A -> list K) (l : list A) :
  dict_keys (group_by_keys keys l) = distinct (flat_map keys l).
Proof.
  unfold group_by_keys. induction l as [|x l IH] using rev_ind; [done|].
  rewrite foldl_app, flat_map_app. simpl. rewrite app_nil_r.
  by rewrite file_keys, IH, distinct_app_fold.
Qed.

Lemma group_by_keys_get (keys : A -> list K) (l : list A) (k : K) :
  default [] (dict_get (group_by_keys keys l) k) =
  flat_map (fun x => flat_map (fun i => if bool_decide (i = k) then [x] else []) (keys x)) l.
Proof.
  unfold group_by_keys. induction l as [|x l IH] using rev_ind; [done|].
  rewrite foldl_app, flat_map_app. simpl. rewrite app_nil_r.
  by rewrite file_get, IH.
Qed.

Lemma group_by_keys_reference (keys : A -> list K) (l : list A) :
  group_by_keys keys l =
  (fun k => (k, flat_map (fun x => flat_map (fun i => if bool_decide (i = k) then [x] else [])
                                            (keys x)) l))
    <$> distinct (flat_map keys l).
Proof.
  rewrite (dict_by_keys (group_by_keys keys l)) at 1.
  - rewrite group_by_keys_keys. apply list_fmap_ext. intros i k _.
    by rewrite group_by_keys_get.
  - rewrite group_by_keys_keys. apply distinct_NoDup.
Qed.

Lemma group_by_keys_of_group_by (key : A -> option K) (l : list A) :
  group_by key l = group_by_keys (fun x => option_list (key x)) l.
Proof.
  unfold group_by, group_by_keys. apply foldl_ext_all. intros d x. by destruct (key x).
Qed.

Lemma flat_map_option_list {B : Type} (f : A -> option B) (l : list A) :
  flat_map (fun x => option_list (f x)) l = omap f l.
Proof.
  induction l as [|x l IH]; [done|]. csimpl. rewrite IH. by destruct (f x).
Qed.

(** The loop that files a row under at most one key. *)
Lemma group_by_reference (key : A -> option K) (l : list A) :
  group_by key l =
  (fun k => (k, filter (fun x => key x = Some k) l)) <$> distinct (omap key l).
Proof.
  rewrite (dict_by_keys (group_by key l)) at 1 by apply group_by_NoDup.
  assert (Hkeys : dict_keys (group_by key l) = distinct (omap key l)).
  { by rewrite group_by_keys_of_group_by, group_by_keys_keys, flat_map_option_list. }
  rewrite Hkeys. apply list_fmap_ext. intros i k _. by rewrite group_by_get.
Qed.
End grouping_reference.

Lemma flat_map_fmap {A B C : Type} (f : A -> B) (g : B -> list C) (l : list A) :
  flat_map g (f <$> l) = flat_map (fun x => g (f x)) l.
Proof.
  induction l as [|x l IH]; [done|]. rewrite fmap_cons. simpl. by rewrite IH.
Qed.

Lemma omap_Some_map {A B : Type} (f : A -> B) (l : list A) :
  omap (fun x => Some (f x)) l = map f l.
Proof. induction l as [|x l IH]; [done|]. csimpl. by rewrite IH. Qed.

Lemma group_by_day_reference (meetings : list row) :
  group_by_day meetings = (fun d => (d, on_day d meetings)) <$> days_of meetings.
Proof.
  rewrite group_by_day_group_by, group_by_reference, omap_Some_map.
  apply list_fmap_ext. intros i d _. f_equal.
  apply list_filter_iff. intros m. split; congruence.
Qed.

Lemma group_rows_step_filed_ids (k : entity_kind) (d : list (Z * list row)) (r : row) :
  group_rows_step k d r = foldl (fun d id => dict_upd (append_to r) id d) d (filed_ids k r).
Proof.
  unfold group_rows_step, filed_ids, all_ids_field, id_field.
  destruct k.
  - destruct (all_faculty_ids r) as [[|i l]|]; [|done|]; by destruct (faculty_id r).
  - destruct (all_batch_ids r) as [[|i l]|]; [|done|]; by destruct (batch_id r).
  - destruct (all_room_ids r) as [[|i l]|]; [|done|]; by destruct (room_id r).
Qed.

(** The grouping loop of the hard checker. *)
Lemma group_by_entity_merged_reference (k : entity_kind) (schedule_rows : list row) :
  group_by_entity_merged k schedule_rows =
  (fun id => (id, meetings_of k id schedule_rows))
    <$> distinct (flat_map (filed_ids k) schedule_rows).
Proof.
  transitivity (group_by_keys (filed_ids k) schedule_rows).
  - unfold group_by_entity_merged, group_by_keys. apply foldl_ext_all. intros d r.
    apply group_rows_step_filed_ids.
  - apply group_by_keys_reference.
Qed.

(** The grouping loop of the soft checker. *)
Lemma group_by_entity_single_reference (k : entity_kind) (schedule_rows : list row) :
  group_by_entity_single k schedule_rows =
  (fun id => (id, meetings_of_single k id schedule_rows))
    <$> distinct (omap (single_id k) schedule_rows).
Proof.
  rewrite group_by_entity_single_group_by.
  rewrite (group_by_reference (id_field k) schedule_rows). by destruct k.
Qed.

(** A per-entity hard check is its body run per entity and per day. *)
Lemma hard_per_entity_per_day {B : Type} (k : entity_kind) (schedule_rows : list row)
    (body : Z -> string -> list row -> list violation) (g : list row -> list B)
    (h : violation -> B) :
  (forall id d dm, map h (body id d dm) = g dm) ->
  map h (flat_map (fun '(id, meetings) =>
           flat_map (fun '(d, day_meetings) => body id d (sort_by_start day_meetings))
                    (group_by_day meetings))
           (group_by_entity_merged k schedule_rows)) =
  per_entity_per_day (distinct (flat_map (filed_ids k) schedule_rows))
    (fun id => meetings_of k id schedule_rows) g.
Proof.
  intros Hbody. unfold per_entity_per_day.
  rewrite group_by_entity_merged_reference, flat_map_fmap, map_flat_map.
  apply flat_map_ext. intros id.
  rewrite group_by_day_reference, flat_map_fmap, map_flat_map.
  apply flat_map_ext. intros d. apply Hbody.
Qed.



(** ** Lecture-lab separation *)

Lemma flat_map_ext_elem {A B : Type} (f g : A -> list B) (l : list A) :
  (forall x, x ∈ l -> f x = g x) -> flat_map f l = flat_map g l.
Proof.
  intros Hfg. induction l as [|x l IH]; simpl; [done|].
  rewrite Hfg by left. f_equal. apply IH. intros y Hy. apply Hfg. by right.
Qed.

Lemma group_by_day_get (meetings : list row) (d : string) :
  default [] (dict_get (group_by_day meetings) d) = filter (fun m => day m = d) meetings.
Proof.
  rewrite group_by_day_group_by, group_by_get.
  apply list_filter_iff. intros m. split; congruence.
Qed.

(** Running a body over every day of a section's meetings, and inside it over the
    meetings of that day, is running it once over every meeting. *)
Lemma flat_map_by_day {B : Type} (body : string -> row -> list B) (meetings : list row) :
  flat_map (fun d => flat_map (body d) (default [] (dict_get (group_by_day meetings) d)))
           (dict_keys (group_by_day meetings))
  ≡ₚ flat_map (fun m => body (day m) m) meetings.
Proof.
  rewrite (flat_map_keys_items (fun d o => flat_map (body d) (default [] o)))
    by (rewrite group_by_day_group_by; apply group_by_NoDup).
  simpl.
  rewrite (flat_map_ext_elem _ (fun kv => flat_map (fun m => body (day m) m) kv.2)).
  - rewrite <-flat_map_flat_map. apply Permutation_flat_map.
    rewrite group_by_day_group_by, group_by_Permutation.
    rewrite (list_filter_iff _ (fun _ => True)) by (intros m; split; [done|by eexists]).
    clear. induction meetings as [|m l IH]; [done|]. by rewrite filter_cons_True, IH.
  - intros [d g] Hin. simpl.
    pose proof (group_by_keys_agree (fun m => Some (day m)) meetings) as Hk.
    rewrite Forall_forall in Hk. specialize (Hk _ Hin). simpl in Hk.
    rewrite Forall_forall in Hk.
    apply flat_map_ext_elem. intros m Hm. by injection (Hk _ Hm) as ->.
Qed.

Lemma pair_separation_by_meetings (pair : LectureLabPair) :
  pair_separation pair ≡ₚ
  flat_map (fun lec_m =>
    flat_map (fun lab_m =>
      separation_check
        (sec_section_id (lecture_section pair) +:+ " + " +:+ sec_section_id (lab_section pair))
        (day lec_m) lec_m lab_m)
      (filter (fun lab_m => day lab_m = day lec_m) (sec_meetings (lab_section pair))))
    (sec_meetings (lecture_section pair)).
Proof.
  unfold pair_separation, common_days.
  rewrite flat_map_filter_nil.
  - rewrite (flat_map_ext _ (fun d =>
      flat_map (fun lec_m =>
        flat_map (fun lab_m =>
          separation_check
            (sec_section_id (lecture_section pair) +:+ " + "
             +:+ sec_section_id (lab_section pair)) d lec_m lab_m)
          (filter (fun lab_m => day lab_m = d) (sec_meetings (lab_section pair))))
        (default [] (dict_get (group_by_day (sec_meetings (lecture_section pair))) d)))).
    + apply (flat_map_by_day (fun d lec_m =>
        flat_map (fun lab_m =>
          separation_check
            (sec_section_id (lecture_section pair) +:+ " + "
             +:+ sec_section_id (lab_section pair)) d lec_m lab_m)
          (filter (fun lab_m => day lab_m = d) (sec_meetings (lab_section pair))))).
    + intros d. by rewrite group_by_day_get.
  - intros d Hd. apply dict_get_None in Hd. rewrite Hd. simpl.
    by apply flat_map_nil_ext.
Qed.

(** C4.  The violations of the valid pairs are, up to the order in which
    the days are walked, one list per lecture meeting and lab meeting of
    the same day; this list holds exactly one violation of magnitude [1]
    when the two meetings are not back-to-back, exactly one of magnitude
    [1] when they are back-to-back with two different rooms, and is empty
    when they are back-to-back in the same room.  (A meeting without a
    room is in no room: a back-to-back couple with a missing room also
    gives one violation.) *)
Theorem lecture_lab_separation_cases (valid_pairs : list LectureLabPair) (ref : ReferenceData) :
  check_lecture_lab_separation valid_pairs ref ≡ₚ
    flat_map (fun pair =>
      flat_map (fun lec_m =>
        flat_map (fun lab_m =>
          separation_check
            (sec_section_id (lecture_section pair) +:+ " + "
             +:+ sec_section_id (lab_section pair))
            (day lec_m) lec_m lab_m)
          (filter (fun lab_m => day lab_m = day lec_m) (sec_meetings (lab_section pair))))
        (sec_meetings (lecture_section pair)))
      valid_pairs /\
  forall (name d : string) (lec_m lab_m : row),
    let back_to_back := end_minutes lec_m = start_minutes lab_m \/
                        end_minutes lab_m = start_minutes lec_m in
    let one := [hard_violation "Lecture-Lab Separation" "Section" name (Some d) 1] in
    (~ back_to_back -> separation_check name d lec_m lab_m = one) /\
    (back_to_back ->
     forall r1 r2, room_id lec_m = Some r1 -> room_id lab_m = Some r2 -> r1 <> r2 ->
     separation_check name d lec_m lab_m = one) /\
    (back_to_back ->
     forall r, room_id lec_m = Some r -> room_id lab_m = Some r ->
     separation_check name d lec_m lab_m = []) /\
    (back_to_back -> room_id lec_m = None \/ room_id lab_m = None ->
     separation_check name d lec_m lab_m = one).
Proof.
  split.
  - unfold check_lecture_lab_separation.
    induction valid_pairs as [|pair pairs IH]; simpl; [done|].
    by rewrite pair_separation_by_meetings, IH.
  - intros name d lec_m lab_m back_to_back one.
    assert (Hb : is_back_to_back lec_m lab_m = true <-> back_to_back).
    { unfold is_back_to_back, back_to_back.
      by rewrite orb_true_iff, !bool_decide_eq_true. }
    unfold separation_check, same_room. split_and!.
    + intros Hn. destruct (is_back_to_back lec_m lab_m); [|done]. tauto.
    + intros Hy r1 r2 H1 H2 Hne. apply Hb in Hy. rewrite Hy, H1, H2. simpl.
      rewrite bool_decide_eq_false_2 by congruence. done.
    + intros Hy r H1 H2. apply Hb in Hy. rewrite Hy, H1, H2. simpl.
      rewrite !bool_decide_eq_true_2 by done. done.
    + intros Hy Hnone. apply Hb in Hy. rewrite Hy. simpl.
      destruct Hnone as [H1|H2].
      * rewrite H1. rewrite (bool_decide_eq_false_2 (None ≠ None)) by naive_solver.
        by rewrite andb_false_r.
      * rewrite H2. destruct (room_id lec_m) as [r|].
        -- by rewrite bool_decide_eq_false_2.
        -- rewrite (bool_decide_eq_false_2 (None ≠ None)) by naive_solver.
           by rewrite andb_false_r.
Qed.

Lemma lecture_lab_separation_cases_witness :
  (let lec := plain_row (Some 1) "ICS 103" (Some 1) None (Some 5) (Some 11) "MONDAY" 480 540 in
   let lab := plain_row (Some 2) "ICS 103 Lab" (Some 1) None (Some 5) (Some 12) "MONDAY" 540 630 in
   (end_minutes lec = start_minutes lab \/ end_minutes lab = start_minutes lec) /\
   separation_check "ICS 103-0 + ICS 103 Lab-0" "MONDAY" lec lab =
     [hard_violation "Lecture-Lab Separation" "Section" "ICS 103-0 + ICS 103 Lab-0"
        (Some "MONDAY"%string) 1]) /\
  (let lec := plain_row (Some 1) "ICS 103" (Some 1) None (Some 5) (Some 11) "MONDAY" 480 540 in
   let lab := plain_row (Some 2) "ICS 103 Lab" (Some 1) None (Some 5) (Some 11) "MONDAY" 540 630 in
   separation_check "ICS 103-0 + ICS 103 Lab-0" "MONDAY" lec lab = []).
Proof.
  split.
  - split; [by left|].
    apply (lecture_lab_separation_cases [] empty_reference) with (r1 := 11) (r2 := 12);
      [by left|reflexivity|reflexivity|lia].
  - apply (lecture_lab_separation_cases [] empty_reference) with (r := 11);
      [by left|reflexivity|reflexivity].
Defined.

(** ** Section building *)

Lemma meeting_groups_group_by (schedule_rows : list row) :
  meeting_groups schedule_rows = group_by section_key_of schedule_rows.
Proof.
  unfold meeting_groups, group_by. apply foldl_ext_all. intros groups m.
  unfold meeting_groups_step, section_key_of.
  destruct (subject_id m); [|done].
  by destruct (bool_decide (faculty_id m = None) && bool_decide (row_batch_ids m = [])).
Qed.

Lemma add_batches_meetings (ref : ReferenceData) (bs : list Z) (s : Section) :
  sec_meetings (foldl (fun s b => add_batch s b (batch_name_of ref b) (population_of ref b))
                      s bs) = sec_meetings s.
Proof.
  revert s. induction bs as [|b bs IH]; intros s; simpl; [done|].
  rewrite IH. unfold add_batch. by case_bool_decide.
Qed.

Lemma add_meetings_meetings (meetings : list row) (s : Section) :
  sec_meetings
    (foldl (fun s meeting =>
              let s := add_meeting s meeting in
              match room_id meeting with
              | Some r => add_room s r (room_name meeting) (room_capacity meeting)
              | None => s
              end) s meetings) = sec_meetings s ++ meetings.
Proof.
  revert s. induction meetings as [|m meetings IH]; intros s; simpl.
  - by rewrite app_nil_r.
  - rewrite IH. destruct (room_id m); simpl; by rewrite <-(assoc_L (++)).
Qed.

(** A section holds exactly the meetings of its group. *)
Lemma make_section_meetings (ref : ReferenceData) (key : section_key) (meetings : list row)
    (index : nat) :
  sec_meetings (make_section ref key meetings index) = meetings.
Proof.
  destruct key as [[sid fid] batch_ids]. unfold make_section.
  rewrite add_meetings_meetings, add_batches_meetings. by destruct fid.
Qed.

Lemma build_sections_meetings (schedule_rows : list row) (ref : ReferenceData) :
  map sec_meetings (build_sections schedule_rows ref) = map snd (meeting_groups schedule_rows).
Proof.
  unfold build_sections.
  assert (Hgen : forall groups st,
    map sec_meetings (foldl (build_sections_step ref) st groups).2 =
    map sec_meetings st.2 ++ map snd groups).
  { induction groups as [|[key meetings] groups IH]; intros [idx secs]; simpl.
    - by rewrite app_nil_r.
    - rewrite IH. simpl. rewrite map_app. simpl.
      rewrite make_section_meetings. by rewrite <-(assoc_L (++)). }
  by rewrite Hgen.
Qed.

Lemma row_batch_ids_nonempty (meeting : row) :
  row_batch_ids meeting <> [] <->
  (exists b bs, all_batch_ids meeting = Some (b :: bs)) \/ batch_id meeting <> None.
Proof.
  unfold row_batch_ids.
  destruct (all_batch_ids meeting) as [[|b bs]|]; simpl;
    destruct (batch_id meeting); naive_solver.
Qed.

(** C8.  A meeting is in a section built by [build_sections] exactly when
    it is a schedule row with a subject id and with a faculty or at least
    one batch; a meeting whose [subject_id] is [None] is in no section,
    whatever its faculty and batches. *)
Theorem sections_hold_classified_meetings (schedule_rows : list row) (ref : ReferenceData)
    (m : row) :
  ((exists s, s ∈ build_sections schedule_rows ref /\ m ∈ sec_meetings s) <->
   m ∈ schedule_rows /\ subject_id m <> None /\
   (faculty_id m <> None \/ row_batch_ids m <> [])) /\
  (subject_id m = None ->
   forall s, s ∈ build_sections schedule_rows ref -> m ∉ sec_meetings s).
Proof.
  assert (Hmain : (exists s, s ∈ build_sections schedule_rows ref /\ m ∈ sec_meetings s) <->
    m ∈ schedule_rows /\ subject_id m <> None /\
    (faculty_id m <> None \/ row_batch_ids m <> [])).
  { transitivity (m ∈ concat (map sec_meetings (build_sections schedule_rows ref))).
    { rewrite list_elem_of_In, <-flat_map_concat_map, in_flat_map.
      split; intros (s & Hs & Hm); exists s; by rewrite ?list_elem_of_In in *. }
    rewrite build_sections_meetings, <-flat_map_concat_map, meeting_groups_group_by.
    rewrite group_by_Permutation, list_elem_of_filter.
    unfold section_key_of.
    destruct (subject_id m) as [sid|]; simpl.
    - destruct (faculty_id m) as [f|]; simpl.
      + split; [intros [_ ?]|intros (? & _ & _)]; split_and!; eauto.
      + case_bool_decide as Hb; simpl.
        * split; [intros [[? [=]] _]|intros (_ & _ & [?|?]); done].
        * split; [intros [_ ?]|intros (? & _ & _)]; split_and!; eauto.
    - split; [intros [[? [=]] _]|intros (_ & ? & _); done]. }
  split; [exact Hmain|].
  intros Hnone s Hs Hm.
  destruct (proj1 Hmain (ex_intro _ s (conj Hs Hm))) as (_ & Hsub & _). done.
Qed.

Lemma sections_hold_classified_meetings_witness :
  let lost := plain_row None "Seminar" (Some 1) (Some "Cruz") (Some 5) None "MONDAY" 480 540 in
  let kept := plain_row (Some 9) "ICS 103" (Some 1) (Some "Cruz") (Some 5) None "MONDAY" 540 600 in
  subject_id lost = None /\
  map sec_meetings (build_sections [lost; kept] empty_reference) = [[kept]] /\
  forall s, s ∈ build_sections [lost; kept] empty_reference -> lost ∉ sec_meetings s.
Proof.
  intros lost kept. split; [reflexivity|]. split; [reflexivity|].
  apply (sections_hold_classified_meetings [lost; kept] empty_reference lost). reflexivity.
Defined.

(** ** Groups are made of schedule rows *)

Lemma group_by_Forall {A K : Type} `{EqDecision K} (P : A -> Prop) (key : A -> option K)
    (l : list A) :
  Forall P l -> Forall (fun kg => Forall P kg.2) (group_by key l).
Proof.
  induction l as [|x l IH] using rev_ind; intros Hl; [constructor|].
  apply Forall_app in Hl as [Hl Hx]. apply Forall_cons in Hx as [Hx _].
  rewrite group_by_snoc. destruct (key x); [|auto].
  apply (Forall_groups_upd_append (fun _ => P)); auto.
Qed.

Lemma group_by_nonempty {A K : Type} `{EqDecision K} (key : A -> option K) (l : list A) :
  Forall (fun kg => kg.2 <> []) (group_by key l).
Proof.
  induction l as [|x l IH] using rev_ind; [constructor|].
  rewrite group_by_snoc. destruct (key x) as [k|]; [|done].
  clear -IH. induction (group_by key l) as [|[k0 v0] d IHd]; simpl.
  - repeat constructor. done.
  - apply Forall_cons in IH as [H0 Hd]. destruct (decide (k = k0)).
    + constructor; [|done]. simpl. unfold append_to. simpl. by destruct v0.
    + constructor; auto.
Qed.

Lemma group_by_entity_merged_Forall (P : row -> Prop) (k : entity_kind)
    (schedule_rows : list row) :
  Forall P schedule_rows ->
  Forall (fun kg => Forall P kg.2) (group_by_entity_merged k schedule_rows).
Proof.
  unfold group_by_entity_merged.
  induction schedule_rows as [|r l IH] using rev_ind; intros Hl; [constructor|].
  apply Forall_app in Hl as [Hl Hr]. apply Forall_cons in Hr as [Hr _].
  rewrite foldl_app. simpl. specialize (IH Hl). revert IH.
  generalize (foldl (group_rows_step k) [] l). intros d Hd.
  assert (Hone : forall (d : list (Z * list row)) id,
            Forall (fun kg => Forall P kg.2) d ->
            Forall (fun kg => Forall P kg.2) (dict_upd (append_to r) id d)).
  { intros d' id Hd'. by apply (Forall_groups_upd_append (fun _ => P)). }
  unfold group_rows_step.
  destruct (all_ids_field k r) as [[|id0 ids]|].
  - destruct (id_field k r); auto.
  - generalize (id0 :: ids). intros l'. revert d Hd.
    induction l' as [|i l' IHl']; intros d Hd; simpl; auto.
  - destruct (id_field k r); auto.
Qed.

(** The skeleton of the per-entity checks: what holds of the body on every
    day list holds of the whole check. *)
Lemma per_entity_per_day_Forall (P : violation -> Prop) (Q : row -> Prop)
    (body : Z -> string -> list row -> list violation) (groups : list (Z * list row)) :
  Forall (fun kg => Forall Q kg.2) groups ->
  (forall id d dm, Forall Q dm -> Forall P (body id d dm)) ->
  Forall P (flat_map (fun '(id, meetings) =>
              flat_map (fun '(d, day_meetings) => body id d (sort_by_start day_meetings))
                       (group_by_day meetings)) groups).
Proof.
  intros Hgroups Hbody. apply Forall_flat_map_intro. intros [id meetings] Hin.
  rewrite Forall_forall in Hgroups. specialize (Hgroups _ Hin). simpl in Hgroups.
  apply Forall_flat_map_intro. intros [d dm] Hdm.
  apply Hbody. apply sort_by_start_Forall.
  pose proof (group_by_Forall Q (fun m => Some (day m)) meetings Hgroups) as Hday.
  rewrite Forall_forall in Hday. exact (Hday _ Hdm).
Qed.

(** ** Magnitudes *)

Lemma overlap_positive (s1 e1 s2 e2 : Z) :
  s1 < e1 -> s2 < e2 -> check_overlap s1 e1 s2 e2 = true ->
  0 < calculate_overlap_duration s1 e1 s2 e2.
Proof.
  unfold check_overlap, calculate_overlap_duration.
  rewrite andb_true_iff, !bool_decide_eq_true. lia.
Qed.

Lemma conflict_pairs_positive (ty ety name d : string) (dm : list row) :
  Forall well_timed dm -> Forall positive (conflict_pairs ty ety name d dm).
Proof.
  intros Hdm. rewrite Forall_lookup in Hdm. unfold conflict_pairs.
  apply Forall_flat_map_intro. intros i _. apply Forall_flat_map_intro. intros j _.
  destruct (dm !! i) as [m1|] eqn:E1; [|constructor].
  destruct (dm !! j) as [m2|] eqn:E2; [|constructor].
  destruct (check_overlap _ _ _ _) eqn:Ho; [|constructor].
  repeat constructor. unfold positive. simpl.
  apply overlap_positive; [exact (Hdm _ _ E1)|exact (Hdm _ _ E2)|done].
Qed.

Lemma time_conflicts_positive (k : entity_kind) (ty : string) (schedule_rows : list row)
    (ref : ReferenceData) :
  Forall well_timed schedule_rows -> Forall positive (time_conflicts k ty schedule_rows ref).
Proof.
  intros Hrows.
  apply (per_entity_per_day_Forall positive well_timed
           (fun id d dm => conflict_pairs ty (capitalize k) (entity_name_of ref k id) d dm)).
  - by apply group_by_entity_merged_Forall.
  - intros. by apply conflict_pairs_positive.
Qed.

Lemma check_room_capacity_positive (sections : list Section) (ref : ReferenceData) :
  Forall positive (check_room_capacity sections ref).
Proof.
  apply Forall_flat_map_intro. intros s _.
  destruct (sec_room_id s); [|constructor].
  destruct (sec_room_capacity s); [|constructor].
  case_bool_decide; repeat constructor. unfold positive. simpl. lia.
Qed.

Lemma hard_blocks_from_Forall {A : Type} (P : A -> Prop) (emit : Z -> Z -> list A)
    (bs be : Z) (cur : row) (rest : list row) :
  (forall a b, Forall P (emit a b)) -> Forall P (hard_blocks_from emit bs be cur rest).
Proof.
  intros Hemit. revert bs be cur.
  induction rest as [|next rest IH]; intros bs be cur; simpl; [done|].
  case_bool_decide; [done|]. apply Forall_app. auto.
Qed.

Lemma continuous_scan_Forall {A : Type} (P : A -> Prop) (emit : Z -> Z -> list A)
    (dm : list row) :
  (forall a b, Forall P (emit a b)) -> Forall P (continuous_scan emit dm).
Proof.
  intros Hemit. destruct dm as [|m0 rest]; [constructor|].
  rewrite continuous_scan_cons. by apply hard_blocks_from_Forall.
Qed.

Lemma gap_scan_Forall {A : Type} (P : A -> Prop) (emit : Z -> list A) (dm : list row) :
  (forall gap, Forall P (emit gap)) -> Forall P (gap_scan emit dm).
Proof.
  intros Hemit. rewrite gap_scan_consecutive. apply Forall_flat_map_intro. auto.
Qed.

Lemma max_block_check_positive (ety name d : string) (max_minutes bs be : Z) :
  Forall positive (max_block_check ety name d max_minutes bs be).
Proof.
  unfold max_block_check. case_bool_decide; repeat constructor.
  unfold positive. simpl. lia.
Qed.

Lemma min_gap_check_positive (ety name d : string) (min_gap_minutes gap : Z) :
  Forall positive (min_gap_check ety name d min_gap_minutes gap).
Proof.
  unfold min_gap_check.
  destruct (bool_decide (gap > 0)) eqn:E1; [|constructor].
  destruct (bool_decide (gap < min_gap_minutes)) eqn:E2; [|constructor].
  apply bool_decide_eq_true in E1, E2. repeat constructor. unfold positive. simpl. lia.
Qed.

Lemma check_continuous_positive (schedule_rows : list row) (ref : ReferenceData)
    (k : entity_kind) (max_minutes : Z) :
  Forall positive (_check_continuous_for_entity_type schedule_rows ref k max_minutes).
Proof.
  apply (per_entity_per_day_Forall positive (fun _ => True)
           (fun id d dm => continuous_scan
              (max_block_check (capitalize k) (entity_name_of ref k id) d max_minutes) dm)).
  - apply group_by_entity_merged_Forall. by apply Forall_true.
  - intros. apply continuous_scan_Forall. intros. apply max_block_check_positive.
Qed.

Lemma check_gap_positive (schedule_rows : list row) (ref : ReferenceData)
    (k : entity_kind) (min_gap_minutes : Z) :
  Forall positive (_check_gap_for_entity_type schedule_rows ref k min_gap_minutes).
Proof.
  apply (per_entity_per_day_Forall positive (fun _ => True)
           (fun id d dm => gap_scan
              (min_gap_check (capitalize k) (entity_name_of ref k id) d min_gap_minutes) dm)).
  - apply group_by_entity_merged_Forall. by apply Forall_true.
  - intros. apply gap_scan_Forall. intros. apply min_gap_check_positive.
Qed.

Lemma check_banned_times_positive (schedule_rows : list row) (ref : ReferenceData) :
  Forall well_timed schedule_rows -> Forall well_timed_ban (banned_times ref) ->
  Forall positive (check_banned_times schedule_rows ref).
Proof.
  intros Hrows Hbans. rewrite Forall_forall in Hrows. rewrite Forall_forall in Hbans.
  apply Forall_flat_map_intro. intros banned Hb.
  apply Forall_flat_map_intro. intros m Hm.
  case_bool_decide; [constructor|].
  destruct (_ && _); [constructor|].
  destruct (check_overlap _ _ _ _) eqn:Ho; [|constructor].
  repeat constructor. unfold positive. simpl.
  apply overlap_positive; [exact (Hrows _ Hm)|exact (Hbans _ Hb)|done].
Qed.

Lemma separation_check_positive (name d : string) (lec_m lab_m : row) :
  Forall positive (separation_check name d lec_m lab_m).
Proof.
  unfold separation_check.
  destruct (negb (is_back_to_back lec_m lab_m)); [by repeat constructor|].
  destruct (negb (same_room lec_m lab_m)); by repeat constructor.
Qed.

Lemma check_lecture_lab_separation_positive (pairs : list LectureLabPair)
    (ref : ReferenceData) :
  Forall positive (check_lecture_lab_separation pairs ref).
Proof.
  apply Forall_flat_map_intro. intros pair _.
  apply Forall_flat_map_intro. intros d _.
  apply Forall_flat_map_intro. intros lec_m _.
  apply Forall_flat_map_intro. intros lab_m _.
  apply separation_check_positive.
Qed.

Lemma check_all_hard_constraints_positive (schedule_rows : list row) (sections : list Section)
    (ref : ReferenceData) (config : Config) (pairs : option (list LectureLabPair)) :
  Forall well_timed schedule_rows -> Forall well_timed_ban (banned_times ref) ->
  Forall positive (check_all_hard_constraints schedule_rows sections ref config pairs).
Proof.
  intros Hrows Hbans. unfold check_all_hard_constraints.
  repeat (apply Forall_app; split).
  - by apply time_conflicts_positive.
  - by apply time_conflicts_positive.
  - by apply time_conflicts_positive.
  - apply check_room_capacity_positive.
  - apply check_continuous_positive.
  - apply check_continuous_positive.
  - apply check_gap_positive.
  - apply check_gap_positive.
  - by apply check_banned_times_positive.
  - destruct pairs; [apply check_lecture_lab_separation_positive|constructor].
Qed.

(** ** The soft checker *)

Lemma faculty_get_hours_absent (ref : ReferenceData) (fid : Z) :
  faculty_get ref fid "max_hours_per_week" = None /\
  faculty_get ref fid "min_hours_per_week" = None.
Proof. unfold faculty_get. destruct (dict_get (faculty_by_id ref) fid); split; reflexivity. Qed.

(** The loader stores a faculty's load under ['min_load'] and ['max_load'];
    the key the overload check reads is never there, the limit is the
    default [0] and the test [max_minutes > 0] fails for every faculty. *)
Lemma check_faculty_overload_silent (schedule_rows : list row) (ref : ReferenceData)
    (config : Config) :
  check_faculty_overload schedule_rows ref config = Ok [].
Proof.
  unfold check_faculty_overload.
  induction (faculty_minutes schedule_rows) as [|[fid total] rest IH]; simpl; [done|].
  rewrite (proj1 (faculty_get_hours_absent ref fid)). exact IH.
Qed.

Lemma check_faculty_underfill_silent (schedule_rows : list row) (ref : ReferenceData)
    (config : Config) :
  check_faculty_underfill schedule_rows ref config = Ok [].
Proof.
  unfold check_faculty_underfill.
  induction (faculty_by_id ref) as [|[fid fdata] rest IH]; simpl; [done|]. exact IH.
Qed.

Lemma optimal_capacity_of_int (ref : ReferenceData) (rid : Z) :
  optimal_capacity_of ref rid =
  RInt (match dict_get (rooms_by_id ref) rid with Some d => rd_capacity d | None => 0 end).
Proof.
  unfold optimal_capacity_of, room_get. by destruct (dict_get (rooms_by_id ref) rid).
Qed.

Lemma min_capacity_of_zero (ref : ReferenceData) (rid : Z) : min_capacity_of ref rid = RInt 0.
Proof.
  unfold min_capacity_of, room_get. by destruct (dict_get (rooms_by_id ref) rid).
Qed.

(** *** Loops that can raise *)

Lemma collect_cons_Ok {A B : Type} (body : A -> result (list B)) (x : A) (l : list A)
    (vs : list B) :
  collect body (x :: l) = Ok vs ->
  exists ws us, body x = Ok ws /\ collect body l = Ok us /\ vs = ws ++ us.
Proof.
  simpl. destruct (body x) as [ws|]; simpl; [|done].
  destruct (collect body l) as [us|]; simpl; [|done]. intros [= <-]. by exists ws, us.
Qed.

Lemma collect_Forall {A B : Type} (P : B -> Prop) (body : A -> result (list B)) (l : list A)
    (vs : list B) :
  (forall x ws, x ∈ l -> body x = Ok ws -> Forall P ws) ->
  collect body l = Ok vs -> Forall P vs.
Proof.
  revert vs. induction l as [|x l IH]; intros vs Hbody.
  - intros [= <-]. constructor.
  - intros (ws & us & Hx & Hl & ->)%collect_cons_Ok. apply Forall_app. split.
    + apply (Hbody x); [left|done].
    + apply IH; [|done]. intros y ys Hy. apply Hbody. by right.
Qed.

Lemma collect_map {A B C : Type} (h : B -> C) (g : A -> list C)
    (body : A -> result (list B)) (l : list A) (vs : list B) :
  (forall x ws, x ∈ l -> body x = Ok ws -> map h ws = g x) ->
  collect body l = Ok vs -> map h vs = flat_map g l.
Proof.
  revert vs. induction l as [|x l IH]; intros vs Hbody.
  - by intros [= <-].
  - intros (ws & us & Hx & Hl & ->)%collect_cons_Ok. rewrite map_app. simpl. f_equal.
    + apply (Hbody x); [left|done].
    + apply IH; [|done]. intros y ys Hy. apply Hbody. by right.
Qed.

Lemma collect_Raise {A B : Type} (body : A -> result (list B)) (l : list A) (e : exn) :
  collect body l = Raise e -> exists x, x ∈ l /\ body x = Raise e.
Proof.
  induction l as [|x l IH]; simpl; [done|].
  destruct (body x) as [ws|e'] eqn:Hx; simpl.
  - destruct (collect body l) as [us|e'']; simpl; [done|]. intros [= ->].
    destruct IH as (y & Hy & Hr); [done|]. exists y. split; [by right|done].
  - intros [= ->]. exists x. split; [left|done].
Qed.

Lemma collect_returns {A B : Type} (body : A -> result (list B)) (l : list A) :
  (forall x, x ∈ l -> exists ws, body x = Ok ws) -> exists vs, collect body l = Ok vs.
Proof.
  induction l as [|x l IH]; intros Hbody; simpl; [by eexists|].
  destruct (Hbody x) as [ws ->]; [left|].
  destruct IH as [us ->]; [intros y Hy; apply Hbody; by right|]. simpl. by eexists.
Qed.

Lemma collect_ext {A B : Type} (body body' : A -> result (list B)) (l : list A) :
  (forall x, x ∈ l -> body x = body' x) -> collect body l = collect body' l.
Proof.
  induction l as [|x l IH]; intros Hbody; simpl; [done|].
  rewrite (Hbody x) by left. rewrite IH; [done|]. intros y Hy. apply Hbody. by right.
Qed.

Lemma collect_fmap {A A' B : Type} (f : A' -> A) (body : A -> result (list B)) (l : list A') :
  collect body (f <$> l) = collect (fun x => body (f x)) l.
Proof. induction l as [|x l IH]; [done|]. rewrite fmap_cons. simpl. by rewrite IH. Qed.

(** The index loop over the gaps is a loop over the consecutive pairs. *)
Lemma gap_loop_from {A : Type} (g : row -> row -> result (list A)) (pre suf : list row) :
  collect (fun i =>
    match (pre ++ suf) !! i, (pre ++ suf) !! (S i) with
    | Some cur, Some next => g cur next
    | _, _ => Ok []
    end) (seq (length pre) (length suf - 1)) =
  collect (fun p => g p.1 p.2) (consecutive suf).
Proof.
  revert pre. induction suf as [|x suf IH]; intros pre; [done|].
  destruct suf as [|y suf]; [done|].
  replace (length (x :: y :: suf) - 1)%nat with (S (length (y :: suf) - 1)) by (simpl; lia).
  cbn [seq collect]. rewrite list_lookup_middle by done. rewrite lookup_after_prefix.
  unfold consecutive. cbn [tail zip zip_with collect fst snd].
  specialize (IH (pre ++ [x])). rewrite <-(assoc_L (++)) in IH. simpl in IH.
  rewrite length_app in IH. simpl in IH.
  replace (length pre + 1)%nat with (S (length pre)) in IH by lia.
  replace (length (y :: suf) - 1)%nat with (length suf - 0)%nat by (simpl; lia).
  rewrite IH. done.
Qed.

Lemma gap_loop_consecutive {A : Type} (body : Z -> result (list A)) (day_meetings : list row) :
  gap_loop body day_meetings =
  collect (fun p => body (start_minutes p.2 - end_minutes p.1)) (consecutive day_meetings).
Proof.
  unfold gap_loop.
  exact (gap_loop_from (fun cur next => body (start_minutes next - end_minutes cur))
           [] day_meetings).
Qed.

(** *** Penalties *)

(** [apply_penalty] raises nothing but [OverflowError]. *)
Lemma apply_penalty_Raise (config : Config) (raw_count : Z) (w : number) (e : exn) :
  apply_penalty config raw_count w = Raise e -> e = OverflowError.
Proof.
  unfold apply_penalty, power, times_weight.
  repeat (case_bool_decide || case_match || simpl); congruence.
Qed.

(** With a non-negative [int] exponent and an [int] weight the penalty is
    computed in exact integer arithmetic, and [apply_penalty] returns. *)
Lemma apply_penalty_exact (config : Config) (raw_count n w : Z) :
  PENALTY_EXPONENT config = PyInt n -> 0 <= n ->
  exists p, apply_penalty config raw_count (PyInt w) = Ok p.
Proof.
  intros Hexp Hn. unfold apply_penalty, power. rewrite Hexp.
  case_bool_decide; [by eexists|]. rewrite bool_decide_eq_true_2 by done. simpl. by eexists.
Qed.

(** A body of the form [penalty <- apply_penalty ...; Ok [v penalty]]. *)
Lemma priced_Ok (config : Config) (raw_count : Z) (w : number)
    (v : penalty_term -> violation) (ws : list violation) :
  (penalty ← apply_penalty config raw_count w; Ok [v penalty]) = Ok ws ->
  exists penalty, ws = [v penalty].
Proof.
  destruct (apply_penalty config raw_count w) as [penalty|]; simpl; [|done].
  intros [= <-]. by exists penalty.
Qed.

Lemma priced_Raise (config : Config) (raw_count : Z) (w : number)
    (v : penalty_term -> violation) (e : exn) :
  (penalty ← apply_penalty config raw_count w; Ok [v penalty]) = Raise e ->
  e = OverflowError.
Proof.
  destruct (apply_penalty config raw_count w) as [penalty|e'] eqn:Hp; simpl; [done|].
  intros [= <-]. by eapply apply_penalty_Raise.
Qed.

(** *** The rules of the soft checker *)

Lemma section_overfill_Ok (ref : ReferenceData) (config : Config) (s : Section)
    (ws : list violation) :
  section_overfill ref config s = Ok ws ->
  map magnitude ws =
    match sec_room_id s with
    | None => []
    | Some rid =>
        match dict_get (rooms_by_id ref) rid with
        | None => []
        | Some room =>
            if bool_decide (rd_capacity room = 0) then []
            else excess_over (rd_capacity room) (sec_total_students s)
        end
    end.
Proof.
  unfold section_overfill, excess_over. destruct (sec_room_id s) as [rid|]; [|by intros [= <-]].
  rewrite optimal_capacity_of_int.
  destruct (dict_get (rooms_by_id ref) rid) as [room|].
  - destruct (decide (rd_capacity room = 0)) as [Hz|Hz].
    + rewrite (bool_decide_eq_false_2 (_ ≠ 0)) by tauto.
      rewrite (bool_decide_eq_true_2 (_ = 0)) by done. by intros [= <-].
    + rewrite (bool_decide_eq_true_2 (_ ≠ 0)) by done.
      rewrite (bool_decide_eq_false_2 (_ = 0)) by done. simpl.
      case_bool_decide; [|by intros [= <-]].
      intros (penalty & ->)%priced_Ok. done.
  - rewrite (bool_decide_eq_false_2 (0 ≠ 0)) by tauto. by intros [= <-].
Qed.

Lemma section_overfill_Raise (ref : ReferenceData) (config : Config) (s : Section) (e : exn) :
  section_overfill ref config s = Raise e -> e = OverflowError.
Proof.
  unfold section_overfill. destruct (sec_room_id s) as [rid|]; [|done].
  rewrite optimal_capacity_of_int. destruct (_ && _); [|done]. apply priced_Raise.
Qed.

Lemma check_section_overfill_positive (sections : list Section) (ref : ReferenceData)
    (config : Config) (vs : list violation) :
  check_section_overfill sections ref config = Ok vs -> Forall positive vs.
Proof.
  apply collect_Forall. intros s ws _. unfold section_overfill.
  destruct (sec_room_id s) as [rid|]; [|intros [= <-]; constructor].
  rewrite optimal_capacity_of_int.
  destruct (bool_decide _ && bool_decide _) eqn:E; [|intros [= <-]; constructor].
  apply andb_true_iff in E as [_ E]. apply bool_decide_eq_true in E.
  intros (penalty & ->)%priced_Ok. repeat constructor. unfold positive. simpl. lia.
Qed.

Lemma check_section_underfill_silent (sections : list Section) (ref : ReferenceData)
    (config : Config) :
  check_section_underfill sections ref config = Ok [].
Proof.
  unfold check_section_underfill.
  induction sections as [|s l IH]; simpl; [done|]. rewrite IH.
  unfold section_underfill. destruct (sec_room_id s); [|done].
  by rewrite min_capacity_of_zero.
Qed.

Lemma min_block_check_Ok (config : Config) (ety name d : string) (min_minutes : Z)
    (b : Z * Z) (ws : list violation) :
  min_block_check config ety name d min_minutes b = Ok ws ->
  map magnitude ws = shortfall min_minutes (b.2 - b.1).
Proof.
  destruct b as [bs be]. unfold min_block_check, shortfall. cbn [fst snd].
  destruct (decide (0 < be - bs < min_minutes)) as [Hin|Hout].
  - rewrite !bool_decide_eq_true_2 by lia. simpl. intros (penalty & ->)%priced_Ok. done.
  - rewrite (bool_decide_eq_false_2 (0 < _ < _)) by done.
    destruct (bool_decide (be - bs > 0)) eqn:E1; [|by intros [= <-]].
    apply bool_decide_eq_true in E1. rewrite bool_decide_eq_false_2 by lia. by intros [= <-].
Qed.

Lemma min_block_check_Raise (config : Config) (ety name d : string) (min_minutes : Z)
    (b : Z * Z) (e : exn) :
  min_block_check config ety name d min_minutes b = Raise e -> e = OverflowError.
Proof.
  destruct b as [bs be]. unfold min_block_check. destruct (_ && _); [|done]. apply priced_Raise.
Qed.

Lemma excess_gap_check_Ok (config : Config) (ety name d : string) (threshold gap : Z)
    (ws : list violation) :
  excess_gap_check config ety name d threshold gap = Ok ws ->
  map magnitude ws = excess_over threshold gap.
Proof.
  unfold excess_gap_check, excess_over. case_bool_decide; [|by intros [= <-]].
  intros (penalty & ->)%priced_Ok. done.
Qed.

Lemma excess_gap_check_Raise (config : Config) (ety name d : string) (threshold gap : Z)
    (e : exn) :
  excess_gap_check config ety name d threshold gap = Raise e -> e = OverflowError.
Proof. unfold excess_gap_check. case_bool_decide; [|done]. apply priced_Raise. Qed.

Lemma shortfall_positive (limit x : Z) : Forall (fun m => 0 < m) (shortfall limit x).
Proof. unfold shortfall. case_bool_decide; repeat constructor. lia. Qed.

Lemma excess_over_positive (limit x : Z) : Forall (fun m => 0 < m) (excess_over limit x).
Proof. unfold excess_over. case_bool_decide; repeat constructor. lia. Qed.

Lemma positive_of_magnitudes (vs : list violation) :
  Forall (fun m => 0 < m) (map magnitude vs) -> Forall positive vs.
Proof.
  induction vs as [|v vs IH]; simpl; [constructor|].
  intros [Hv Hvs]%Forall_cons. constructor; [exact Hv|auto].
Qed.

Lemma check_min_continuous_positive (schedule_rows : list row) (ref : ReferenceData)
    (config : Config) (k : entity_kind) (min_minutes : Z) (vs : list violation) :
  _check_min_continuous_for_entity schedule_rows ref config k min_minutes = Ok vs ->
  Forall positive vs.
Proof.
  apply collect_Forall. intros [id meetings] ws _.
  apply collect_Forall. intros [d dm] ws' _.
  apply collect_Forall. intros b ws'' _ Hb.
  apply positive_of_magnitudes. rewrite (min_block_check_Ok _ _ _ _ _ _ _ Hb).
  apply shortfall_positive.
Qed.

Lemma check_excess_gap_positive (schedule_rows : list row) (ref : ReferenceData)
    (config : Config) (k : entity_kind) (threshold : Z) (vs : list violation) :
  _check_excess_gap_for_entity schedule_rows ref config k threshold = Ok vs ->
  Forall positive vs.
Proof.
  apply collect_Forall. intros [id meetings] ws _.
  apply collect_Forall. intros [d dm] ws' _.
  rewrite gap_loop_consecutive. apply collect_Forall. intros p ws'' _ Hp.
  apply positive_of_magnitudes. rewrite (excess_gap_check_Ok _ _ _ _ _ _ _ Hp).
  apply excess_over_positive.
Qed.

Lemma faculty_subject_sections_group_by (schedule_rows : list row) (ref : ReferenceData) :
  faculty_subject_sections schedule_rows ref = group_by (non_preferred_key ref) schedule_rows.
Proof.
  unfold faculty_subject_sections, group_by. apply foldl_ext_all. intros d r.
  unfold non_preferred_key. destruct (faculty_id r); [|done].
  destruct (subject_id r); [|done]. by destruct (_ && _).
Qed.


Lemma check_non_preferred_subject_positive (schedule_rows : list row) (ref : ReferenceData)
    (config : Config) :
  Forall positive (check_non_preferred_subject schedule_rows ref config).
Proof.
  unfold check_non_preferred_subject. rewrite faculty_subject_sections_group_by.
  apply Forall_map.
  eapply Forall_impl; [apply group_by_nonempty|].
  intros [[fid sid] g] Hg. unfold positive. simpl in *. destruct g; [done|simpl; lia].
Qed.

Lemma check_friday_late_classes_positive (schedule_rows : list row) (ref : ReferenceData)
    (config : Config) (vs : list violation) :
  check_friday_late_classes schedule_rows ref config = Ok vs -> Forall positive vs.
Proof.
  apply collect_Forall. intros r ws _.
  destruct (_ || _); [|intros [= <-]; constructor].
  case_bool_decide; [|intros [= <-]; constructor].
  intros (penalty & ->)%priced_Ok. repeat constructor. unfold positive. simpl. lia.
Qed.

Lemma check_excess_subjects_positive (schedule_rows : list row) (ref : ReferenceData)
    (config : Config) (vs : list violation) :
  check_excess_subjects schedule_rows ref config = Ok vs -> Forall positive vs.
Proof.
  apply collect_Forall. intros [fid base] ws _. cbv zeta.
  case_bool_decide; [|intros [= <-]; constructor].
  intros (penalty & ->)%priced_Ok. repeat constructor. unfold positive. simpl. lia.
Qed.

Lemma check_external_meeting_conflicts_positive (schedule_rows : list row)
    (ref : ReferenceData) (config : Config) (vs : list violation) :
  Forall well_timed schedule_rows ->
  Forall well_timed_ext (default [] (external_meetings ref)) ->
  check_external_meeting_conflicts schedule_rows ref config = Ok vs ->
  Forall positive vs.
Proof.
  intros Hrows Hexts. unfold check_external_meeting_conflicts.
  destruct (external_meetings ref) as [exts|]; [|intros [= <-]; constructor]. simpl in Hexts.
  rewrite Forall_forall in Hrows. rewrite Forall_forall in Hexts.
  apply collect_Forall. intros ext ws He.
  apply collect_Forall. intros m ws' Hm.
  case_bool_decide; [intros [= <-]; constructor|].
  case_bool_decide; [intros [= <-]; constructor|].
  destruct (bool_decide _ && bool_decide _) eqn:E; [|intros [= <-]; constructor].
  apply andb_true_iff in E as [E1 E2]. apply bool_decide_eq_true in E1, E2.
  specialize (Hrows _ Hm). specialize (Hexts _ He).
  unfold well_timed, well_timed_ext in *.
  intros (penalty & ->)%priced_Ok. repeat constructor. unfold positive. simpl. lia.
Qed.

Lemma check_external_meeting_conflicts_type (schedule_rows : list row)
    (ref : ReferenceData) (config : Config) (vs : list violation) :
  check_external_meeting_conflicts schedule_rows ref config = Ok vs ->
  Forall (fun v => vtype v = "External Meeting Conflict"%string) vs.
Proof.
  unfold check_external_meeting_conflicts.
  destruct (external_meetings ref) as [exts|]; [|intros [= <-]; constructor].
  apply collect_Forall. intros ext ws _.
  apply collect_Forall. intros m ws' _.
  case_bool_decide; [intros [= <-]; constructor|].
  case_bool_decide; [intros [= <-]; constructor|].
  destruct (bool_decide _ && bool_decide _); [|intros [= <-]; constructor].
  intros (penalty & ->)%priced_Ok. by repeat constructor.
Qed.

(** What [check_all_soft_constraints] returns is the lists of its rules,
    one after the other. *)
Lemma check_all_soft_constraints_Ok (schedule_rows : list row) (sections : list Section)
    (ref : ReferenceData) (config : Config) (soft : list violation) :
  check_all_soft_constraints schedule_rows sections ref config = Ok soft ->
  exists overfill min_continuous excess_gap friday_late excess_subjects external,
    check_section_overfill sections ref config = Ok overfill /\
    check_min_continuous_class schedule_rows ref config = Ok min_continuous /\
    check_excess_gap schedule_rows ref config = Ok excess_gap /\
    check_friday_late_classes schedule_rows ref config = Ok friday_late /\
    check_excess_subjects schedule_rows ref config = Ok excess_subjects /\
    check_external_meeting_conflicts schedule_rows ref config = Ok external /\
    soft = overfill ++ min_continuous ++ excess_gap ++
           check_non_preferred_subject schedule_rows ref config ++
           friday_late ++ excess_subjects ++ external.
Proof.
  unfold check_all_soft_constraints.
  rewrite check_faculty_overload_silent, check_faculty_underfill_silent.
  rewrite check_section_underfill_silent. cbn [mbind result_bind].
  destruct (check_section_overfill sections ref config) as [overfill|]; [|done].
  cbn [mbind result_bind].
  destruct (check_min_continuous_class schedule_rows ref config) as [mc|]; [|done].
  cbn [mbind result_bind].
  destruct (check_excess_gap schedule_rows ref config) as [eg|]; [|done].
  cbn [mbind result_bind]. cbv zeta.
  destruct (check_friday_late_classes schedule_rows ref config) as [fl|]; [|done].
  cbn [mbind result_bind].
  destruct (check_excess_subjects schedule_rows ref config) as [es|]; [|done].
  cbn [mbind result_bind].
  destruct (check_external_meeting_conflicts schedule_rows ref config) as [ex|]; [|done].
  cbn [mbind result_bind]. intros [= <-].
  exists overfill, mc, eg, fl, es, ex. split_and!; done.
Qed.

Lemma two_entities_Ok (faculty batch : result (list violation)) (vs : list violation) :
  (f ← faculty; b ← batch; Ok (f ++ b)) = Ok vs ->
  exists f b, faculty = Ok f /\ batch = Ok b /\ vs = f ++ b.
Proof.
  destruct faculty as [f|]; [|done]. destruct batch as [b|]; [|done].
  simpl. intros [= <-]. by exists f, b.
Qed.

Lemma check_all_soft_constraints_positive (schedule_rows : list row) (sections : list Section)
    (ref : ReferenceData) (config : Config) (soft : list violation) :
  check_all_soft_constraints schedule_rows sections ref config = Ok soft ->
  Forall (fun v => vtype v <> "External Meeting Conflict"%string -> positive v) soft /\
  (Forall well_timed schedule_rows ->
   Forall well_timed_ext (default [] (external_meetings ref)) ->
   Forall positive soft) /\
  (external_meetings ref = None -> Forall positive soft).
Proof.
  intros (overfill & mc & eg & fl & es & ex & Hover & Hmc & Heg & Hfl & Hes & Hex & ->)
    %check_all_soft_constraints_Ok.
  apply two_entities_Ok in Hmc as (mcf & mcb & Hmcf & Hmcb & ->).
  apply two_entities_Ok in Heg as (egf & egb & Hegf & Hegb & ->).
  assert (Hrest : Forall positive
            (overfill ++ (mcf ++ mcb) ++ (egf ++ egb) ++
             check_non_preferred_subject schedule_rows ref config ++ fl ++ es)).
  { repeat (apply Forall_app; split).
    - by eapply check_section_overfill_positive.
    - by eapply check_min_continuous_positive.
    - by eapply check_min_continuous_positive.
    - by eapply check_excess_gap_positive.
    - by eapply check_excess_gap_positive.
    - apply check_non_preferred_subject_positive.
    - by eapply check_friday_late_classes_positive.
    - by eapply check_excess_subjects_positive. }
  assert (Hshape :
    overfill ++ (mcf ++ mcb) ++ (egf ++ egb) ++
      check_non_preferred_subject schedule_rows ref config ++ fl ++ es ++ ex =
    (overfill ++ (mcf ++ mcb) ++ (egf ++ egb) ++
      check_non_preferred_subject schedule_rows ref config ++ fl ++ es) ++ ex).
  { by rewrite <-!(assoc_L (++)). }
  rewrite Hshape. split_and!.
  - apply Forall_app. split.
    + eapply Forall_impl; [exact Hrest|]. auto.
    + eapply Forall_impl; [by eapply check_external_meeting_conflicts_type|].
      intros v Hv Hne. done.
  - intros Hrows Hexts. apply Forall_app. split; [done|].
    by eapply check_external_meeting_conflicts_positive.
  - intros Hnone. apply Forall_app. split; [done|].
    unfold check_external_meeting_conflicts in Hex. rewrite Hnone in Hex.
    injection Hex as <-. constructor.
Qed.

(** ** Magnitudes are positive *)

Lemma time_conflicts_type (k : entity_kind) (ty : string) (schedule_rows : list row)
    (ref : ReferenceData) :
  Forall (fun v => vtype v = ty) (time_conflicts k ty schedule_rows ref).
Proof.
  apply Forall_flat_map_intro. intros [id meetings] _.
  apply Forall_flat_map_intro. intros [d dm] _.
  apply Forall_flat_map_intro. intros i _.
  apply Forall_flat_map_intro. intros j _.
  destruct (_ !! i); [|constructor]. destruct (_ !! j); [|constructor].
  destruct (check_overlap _ _ _ _); by repeat constructor.
Qed.

Lemma check_banned_times_type (schedule_rows : list row) (ref : ReferenceData) :
  Forall (fun v => vtype v = "Banned Time Violation"%string)
         (check_banned_times schedule_rows ref).
Proof.
  apply Forall_flat_map_intro. intros banned _.
  apply Forall_flat_map_intro. intros m _.
  case_bool_decide; [constructor|].
  destruct (_ && _); [constructor|].
  destruct (check_overlap _ _ _ _); by repeat constructor.
Qed.

(** The hard checks other than the time conflicts and the banned times
    need nothing of the rows. *)
Lemma hard_rest_positive (schedule_rows : list row) (sections : list Section)
    (ref : ReferenceData) (config : Config) (pairs : option (list LectureLabPair))
    (P : violation -> Prop) :
  (forall v, positive v -> P v) ->
  Forall P (time_conflicts Faculty "Faculty Time Conflict" schedule_rows ref) ->
  Forall P (time_conflicts Batch "Batch Time Conflict" schedule_rows ref) ->
  Forall P (time_conflicts Room "Room Time Conflict" schedule_rows ref) ->
  Forall P (check_banned_times schedule_rows ref) ->
  Forall P (check_all_hard_constraints schedule_rows sections ref config pairs).
Proof.
  intros HP Hf Hb Hr Hbanned. unfold check_all_hard_constraints.
  repeat (apply Forall_app; split); try done.
  - eapply Forall_impl; [apply check_room_capacity_positive|done].
  - eapply Forall_impl; [apply check_continuous_positive|done].
  - eapply Forall_impl; [apply check_continuous_positive|done].
  - eapply Forall_impl; [apply check_gap_positive|done].
  - eapply Forall_impl; [apply check_gap_positive|done].
  - destruct pairs; [|constructor].
    eapply Forall_impl; [apply check_lecture_lab_separation_positive|done].
Qed.

(** C9 (as amended).  A violation of [check_all_hard_constraints] for a
    rule other than the overlap rules (time conflicts, banned times) has a
    strictly positive magnitude, whatever the schedule; the time conflicts
    have one when every schedule row starts before it ends, and the banned
    time violations when every banned slot does so as well.  When
    [check_all_soft_constraints] returns, its violations other than the
    External Meeting Conflicts have a strictly positive magnitude, and
    these have one when every schedule row and every external meeting
    starts before it ends; without an [external_meetings] attribute there
    are none. *)
Theorem violations_positive_when_well_timed (schedule_rows : list row)
    (sections : list Section) (ref : ReferenceData) (config : Config)
    (pairs : option (list LectureLabPair)) :
  let hard := check_all_hard_constraints schedule_rows sections ref config pairs in
  Forall (fun v => measures_overlap v = false -> positive v) hard /\
  (Forall well_timed schedule_rows ->
   Forall (fun v => vtype v <> "Banned Time Violation"%string -> positive v) hard) /\
  (Forall well_timed schedule_rows -> Forall well_timed_ban (banned_times ref) ->
   Forall positive hard) /\
  (forall soft, check_all_soft_constraints schedule_rows sections ref config = Ok soft ->
     Forall (fun v => vtype v <> "External Meeting Conflict"%string -> positive v) soft /\
     (Forall well_timed schedule_rows ->
      Forall well_timed_ext (default [] (external_meetings ref)) ->
      Forall positive soft) /\
     (external_meetings ref = None -> Forall positive soft)).
Proof.
  cbv zeta. split_and!.
  - apply hard_rest_positive; [by intros v Hv _| | | |].
    + eapply Forall_impl; [apply time_conflicts_type|].
      intros v Hty Hm. unfold measures_overlap in Hm. rewrite Hty in Hm. discriminate Hm.
    + eapply Forall_impl; [apply time_conflicts_type|].
      intros v Hty Hm. unfold measures_overlap in Hm. rewrite Hty in Hm. discriminate Hm.
    + eapply Forall_impl; [apply time_conflicts_type|].
      intros v Hty Hm. unfold measures_overlap in Hm. rewrite Hty in Hm. discriminate Hm.
    + eapply Forall_impl; [apply check_banned_times_type|].
      intros v Hty Hm. unfold measures_overlap in Hm. rewrite Hty in Hm. discriminate Hm.
  - intros Hrows. apply hard_rest_positive; [by intros v Hv _| | | |].
    + eapply Forall_impl; [by apply time_conflicts_positive|]. by intros v Hv _.
    + eapply Forall_impl; [by apply time_conflicts_positive|]. by intros v Hv _.
    + eapply Forall_impl; [by apply time_conflicts_positive|]. by intros v Hv _.
    + eapply Forall_impl; [apply check_banned_times_type|]. by intros v Hty Hne.
  - intros Hrows Hbans. by apply check_all_hard_constraints_positive.
  - intros soft Hsoft.
    exact (check_all_soft_constraints_positive schedule_rows sections ref config soft Hsoft).
Qed.

Lemma violations_positive_when_well_timed_witness :
  Forall well_timed shared_class /\
  exists soft,
    check_all_soft_constraints shared_class (build_sections shared_class sample_campus)
      sample_campus default_config = Ok soft /\
    map (fun v => (vtype v, magnitude v))
      (check_all_hard_constraints shared_class (build_sections shared_class sample_campus)
         sample_campus default_config (Some []))
      = [("Batch Time Conflict", 60); ("Room Capacity Exceeded", 6)]%string /\
    Forall positive
      (check_all_hard_constraints shared_class (build_sections shared_class sample_campus)
         sample_campus default_config (Some [])) /\
    map magnitude soft = [6; 30; 30; 30; 30; 2] /\
    Forall positive soft.
Proof.
  assert (Hrows : Forall well_timed shared_class).
  { repeat constructor; unfold well_timed; simpl; lia. }
  split; [exact Hrows|].
  destruct (check_all_soft_constraints shared_class
              (build_sections shared_class sample_campus) sample_campus default_config)
    as [soft|] eqn:Hsoft; [|vm_compute in Hsoft; discriminate].
  destruct (violations_positive_when_well_timed shared_class
              (build_sections shared_class sample_campus) sample_campus default_config
              (Some [])) as (_ & _ & Hhard & Hs).
  destruct (Hs soft Hsoft) as (_ & Hpos & _).
  exists soft. split; [reflexivity|]. split; [vm_compute; reflexivity|].
  split; [apply Hhard; [exact Hrows|constructor]|].
  split; [vm_compute in Hsoft; injection Hsoft as <-; reflexivity|].
  apply Hpos; [exact Hrows|constructor].
Defined.

(** C9, the claim as stated fails: a meeting entered with its end before
    its start passes the overlap test with a meeting around it, and the
    Faculty Time Conflict that is emitted has magnitude [0]. *)
Lemma time_conflict_of_magnitude_zero :
  map (fun v => (vtype v, magnitude v))
      (check_all_hard_constraints inverted_inside [] empty_reference default_config (Some []))
    = [("Faculty Time Conflict"%string, 0)] /\
  ~ Forall positive
      (check_all_hard_constraints inverted_inside [] empty_reference default_config (Some [])).
Proof.
  split; [reflexivity|].
  intros H. vm_compute in H. inversion H as [|v l Hp _]. discriminate Hp.
Qed.

(** ** The evaluation result *)

(** C7.  Whenever [main] returns a result, whatever the report step does,
    its hard violations are the list returned by
    [check_all_hard_constraints], a list that is computed without the soft
    violations, and [feasible] is [len(hard_violations) == 0]: [feasible]
    is [true] exactly when that list is empty.  [main] returns a result on
    a schedule that is not empty when the soft checker, the report
    generation and the summary return. *)
Theorem feasible_iff_no_hard_violation
    (generate_reports : list violation -> list violation -> Config -> list row ->
                        ReferenceData -> list Section -> list LectureLabPair ->
                        list LectureLabPair -> result unit)
    (print_quick_summary : list violation -> list violation -> result unit)
    (schedule_rows : list row) (ref : ReferenceData) (config : Config) :
  let sections := build_sections schedule_rows ref in
  let pairs := find_lecture_lab_pairs sections ref in
  let hard := check_all_hard_constraints schedule_rows sections ref config (Some pairs.1) in
  (forall ev,
     main generate_reports print_quick_summary schedule_rows ref config = Ok (Some ev) ->
     hard_violations ev = hard /\
     check_all_soft_constraints schedule_rows sections ref config = Ok (soft_violations ev) /\
     feasible ev = bool_decide (length hard = 0%nat) /\
     (feasible ev = true <-> hard_violations ev = [])) /\
  (forall soft,
     schedule_rows <> [] ->
     check_all_soft_constraints schedule_rows sections ref config = Ok soft ->
     generate_reports hard soft config schedule_rows ref sections pairs.1 pairs.2 = Ok tt ->
     print_quick_summary hard soft = Ok tt ->
     exists ev,
       main generate_reports print_quick_summary schedule_rows ref config = Ok (Some ev) /\
       soft_violations ev = soft).
Proof.
  cbv zeta. unfold main.
  destruct (find_lecture_lab_pairs (build_sections schedule_rows ref) ref)
    as [valid_pairs error_pairs] eqn:Hpairs. cbn [fst snd].
  destruct schedule_rows as [|r rows]; [split; [intros ev [= ?]|intros soft Hne; done]|].
  split.
  - intros ev.
    destruct (check_all_soft_constraints _ _ _ _) as [soft|]; [|done].
    cbn [mbind result_bind].
    destruct (generate_reports _ _ _ _ _ _ _ _) as [[]|]; [|done].
    cbn [mbind result_bind].
    destruct (print_quick_summary _ _) as [[]|]; [|done].
    cbn [mbind result_bind]. intros [= <-]. cbn [hard_violations soft_violations feasible].
    split_and!; try done.
    rewrite bool_decide_eq_true. apply length_zero_iff_nil.
  - intros soft _ -> Hreports Hsummary. cbn [mbind result_bind].
    rewrite Hreports. cbn [mbind result_bind]. rewrite Hsummary. cbn [mbind result_bind].
    by eexists.
Qed.

Lemma feasible_iff_no_hard_violation_witness :
  exists ev,
    main reports_written summary_printed small_class sample_campus default_config
      = Ok (Some ev) /\
    hard_violations ev = [] /\
    map magnitude (soft_violations ev) = [30; 30; 1] /\
    feasible ev = true.
Proof.
  destruct (main reports_written summary_printed small_class sample_campus default_config)
    as [[ev|]|] eqn:Hmain; try (vm_compute in Hmain; discriminate).
  destruct (feasible_iff_no_hard_violation reports_written summary_printed small_class
              sample_campus default_config) as [Hresult _].
  destruct (Hresult ev Hmain) as (Hhard & Hsoft & _ & Hfeasible).
  assert (Hnone : hard_violations ev = []) by (rewrite Hhard; vm_compute; reflexivity).
  exists ev. split; [reflexivity|]. split; [exact Hnone|].
  split; [|by apply Hfeasible].
  assert (Hmag : map magnitude <$>
                   check_all_soft_constraints small_class
                     (build_sections small_class sample_campus) sample_campus default_config
                 = Ok [30; 30; 1]) by (vm_compute; reflexivity).
  rewrite Hsoft in Hmag. by injection Hmag.
Defined.

(** The early [return] of [main]: an empty schedule gives no result. *)
Lemma main_empty_schedule
    (generate_reports : list violation -> list violation -> Config -> list row ->
                        ReferenceData -> list Section -> list LectureLabPair ->
                        list LectureLabPair -> result unit)
    (print_quick_summary : list violation -> list violation -> result unit)
    (ref : ReferenceData) (config : Config) :
  main generate_reports print_quick_summary [] ref config = Ok None.
Proof. reflexivity. Qed.

(** ** Faculty load *)

(** C2, the code at a failing input.  Cruz has a maximum load of 1 and is
    scheduled for 3600 minutes; Reyes has a minimum load of 6 and is not
    scheduled at all.  The summed minutes are computed, and neither
    [check_faculty_overload] nor [check_faculty_underfill] emits a
    violation: the limits are read from keys that the faculty dictionary
    does not hold. *)
Theorem faculty_load_checks_emit_nothing :
  faculty_minutes full_week = [(1, 3600)] /\
  faculty_get sample_reference 1 "max_hours_per_week" = None /\
  faculty_get sample_reference 1 "max_load" = Some (FFloat 1) /\
  check_faculty_overload full_week sample_reference default_config = Ok [] /\
  faculty_get sample_reference 2 "min_hours_per_week" = None /\
  faculty_get sample_reference 2 "min_load" = Some (FFloat 6) /\
  check_faculty_underfill full_week sample_reference default_config = Ok [].
Proof. split_and!; reflexivity. Qed.

(** ** Non-preferred subjects *)

(** C3, the code at a failing input.  Cruz prefers subject 7 and teaches
    one section of subject 9 that meets three times a week:
    [build_sections] finds one section, and the Non-Preferred Subject
    violation has magnitude 3, the number of meetings. *)
Theorem non_preferred_counts_meetings_not_sections :
  length (build_sections one_section_three_meetings sample_reference) = 1%nat /\
  length one_section_three_meetings = 3%nat /\
  map magnitude
      (check_non_preferred_subject one_section_three_meetings sample_reference default_config)
    = [3].
Proof. split_and!; reflexivity. Qed.

(** ** Merged meetings in the per-entity checks *)

Lemma in_group_upd_same (d : list (Z * list row)) (id : Z) (r : row) :
  in_group (dict_upd (append_to r) id d) id r.
Proof.
  unfold in_group. rewrite dict_get_upd, decide_True by done.
  eexists. split; [done|]. unfold append_to. apply elem_of_app. right. left.
Qed.

Lemma in_group_upd_mono (d : list (Z * list row)) (id id' : Z) (r r' : row) :
  in_group d id' r' -> in_group (dict_upd (append_to r) id d) id' r'.
Proof.
  intros (g & Hg & Hin). unfold in_group. rewrite dict_get_upd.
  destruct (decide (id' = id)) as [->|]; [|by exists g].
  rewrite Hg. eexists. split; [done|]. unfold append_to. simpl.
  apply elem_of_app. by left.
Qed.

Lemma group_rows_step_mono (k : entity_kind) (d : list (Z * list row)) (r : row) (id' : Z)
    (r' : row) :
  in_group d id' r' -> in_group (group_rows_step k d r) id' r'.
Proof.
  intros Hin. unfold group_rows_step.
  destruct (all_ids_field k r) as [[|id0 ids]|].
  - destruct (id_field k r); [by apply in_group_upd_mono|done].
  - generalize (id0 :: ids). intros l. revert d Hin.
    induction l as [|i l IH]; intros d Hin; simpl; [done|].
    apply IH. by apply in_group_upd_mono.
  - destruct (id_field k r); [by apply in_group_upd_mono|done].
Qed.

Lemma group_rows_step_all_ids (k : entity_kind) (d : list (Z * list row)) (r : row)
    (ids : list Z) (id : Z) :
  all_ids_field k r = Some ids -> id ∈ ids -> in_group (group_rows_step k d r) id r.
Proof.
  intros Hall Hid. unfold group_rows_step. rewrite Hall.
  destruct ids as [|id0 ids]; [by apply elem_of_nil in Hid|].
  revert Hid. generalize (id0 :: ids). clear. intros l. revert d.
  induction l as [|i l IH]; intros d Hid; simpl; [by apply elem_of_nil in Hid|].
  apply elem_of_cons in Hid as [->|Hid]; [|by apply IH].
  assert (Hmono : forall l d, in_group d i r ->
            in_group (foldl (fun d id => dict_upd (append_to r) id d) d l) i r).
  { clear. induction l as [|j l IH]; intros d Hin; simpl; [done|].
    apply IH. by apply in_group_upd_mono. }
  apply Hmono. apply in_group_upd_same.
Qed.

(** The hard checker files a merged meeting under every id of its list. *)
Lemma hard_grouping_fans_out (k : entity_kind) (schedule_rows : list row) (r : row)
    (ids : list Z) (id : Z) :
  r ∈ schedule_rows -> all_ids_field k r = Some ids -> id ∈ ids ->
  in_group (group_by_entity_merged k schedule_rows) id r.
Proof.
  intros Hr Hall Hid. unfold group_by_entity_merged.
  induction schedule_rows as [|x l IH] using rev_ind; [by apply elem_of_nil in Hr|].
  rewrite foldl_app. simpl.
  apply elem_of_app in Hr as [Hr|Hr].
  - apply group_rows_step_mono. by apply IH.
  - apply list_elem_of_singleton in Hr as <-. by eapply group_rows_step_all_ids.
Qed.

(** The soft checker files a meeting under its single [id_field] only. *)
Lemma soft_grouping_single_id (k : entity_kind) (schedule_rows : list row) (id : Z) (r : row) :
  in_group (group_by_entity_single k schedule_rows) id r -> id_field k r = Some id.
Proof.
  intros (g & Hg & Hin). rewrite group_by_entity_single_group_by in Hg.
  apply dict_get_Some_elem in Hg.
  pose proof (group_by_keys_agree (id_field k) schedule_rows) as Hk.
  rewrite Forall_forall in Hk. specialize (Hk _ Hg). simpl in Hk.
  rewrite Forall_forall in Hk. by apply Hk.
Qed.

(** C1, the code at a failing input.  A meeting merged for faculty 1 and 2
    (08:00-09:00) and a meeting of faculty 2 alone the same day.  The hard
    grouping puts both under faculty 2, the soft grouping only the second.
    With the second meeting at 13:00-14:00 the soft Excess Gap check is
    silent about the four-hour gap of faculty 2; with it at 09:00-10:00 the
    soft Min Continuous check reports a 60-minute block for faculty 2,
    whose block is 08:00-10:00; the hard Min Gap check, at 09:20-10:00,
    does see the 20-minute gap of faculty 2. *)
Theorem soft_checks_drop_merged_faculty :
  dict_get (group_by_entity_merged Faculty (merged_then_alone 780 840)) 2
    = Some (merged_then_alone 780 840) /\
  dict_get (group_by_entity_single Faculty (merged_then_alone 780 840)) 2
    = Some (drop 1 (merged_then_alone 780 840)) /\
  check_excess_gap (merged_then_alone 780 840) sample_reference default_config = Ok [] /\
  map magnitude <$>
      gap_loop (excess_gap_check default_config "Faculty" "Reyes" "MONDAY" 30)
               (sort_by_start (merged_then_alone 780 840)) = Ok [210] /\
  map (fun v => (entity_name v, magnitude v)) <$>
      check_min_continuous_class (merged_then_alone 540 600) sample_reference default_config
    = Ok [("Cruz"%string, 30); ("Reyes"%string, 30)] /\
  continuous_blocks (sort_by_start (merged_then_alone 540 600)) = [(480, 600)] /\
  map (fun v => (entity_name v, magnitude v))
      (check_min_gap (merged_then_alone 560 600) sample_reference default_config)
    = [("Reyes"%string, 10)].
Proof. split_and!; vm_compute; reflexivity. Qed.

(** * Further properties *)

(** ** Sections *)

Lemma make_section_steps (ref : ReferenceData) (sid : Z) (fid : option Z) (bs : gset Z)
    (meetings : list row) (index : nat) :
  make_section ref (sid, fid, bs) meetings index =
  foldl add_meeting_step
        (foldl (add_batch_step ref) (section_start ref sid fid index) (elements bs))
        meetings.
Proof. reflexivity. Qed.

Lemma add_batches_fields (ref : ReferenceData) (l : list Z) (s : Section) :
  NoDup l -> (forall b, b ∈ l -> b ∉ sec_batch_ids s) ->
  let s' := foldl (add_batch_step ref) s l in
  sec_batch_ids s' = list_to_set l ∪ sec_batch_ids s /\
  sec_total_students s' = sec_total_students s + Zsum (map (population_of ref) l) /\
  sec_subject_id s' = sec_subject_id s /\ sec_faculty_id s' = sec_faculty_id s /\
  sec_section_index s' = sec_section_index s /\ sec_room_id s' = sec_room_id s /\
  sec_room_capacity s' = sec_room_capacity s /\ sec_room_name s' = sec_room_name s.
Proof.
  revert s. induction l as [|b l IH]; intros s Hnd Hfresh; cbn [foldl]; cbv zeta.
  - split_and!; try done. { set_solver. } unfold Zsum. simpl. lia.
  - apply NoDup_cons in Hnd as [Hb Hnd].
    assert (Hnew : b ∉ sec_batch_ids s) by (apply Hfresh; left).
    assert (Hstep : add_batch_step ref s b =
      add_batch s b (batch_name_of ref b) (population_of ref b)) by done.
    destruct (IH (add_batch_step ref s b) Hnd) as (H1 & H2 & H3 & H4 & H5 & H6 & H7 & H8).
    { intros b' Hb'. rewrite Hstep. unfold add_batch.
      rewrite bool_decide_eq_false_2 by done. simpl.
      assert (b' ∉ sec_batch_ids s) by (apply Hfresh; by right).
      set_solver. }
    rewrite H1, H2, H3, H4, H5, H6, H7, H8, Hstep.
    unfold add_batch. rewrite bool_decide_eq_false_2 by done. simpl.
    split_and!; try done. { set_solver. }
    unfold Zsum. simpl. fold (Zsum (map (population_of ref) l)). lia.
Qed.

Lemma add_meetings_fields (meetings : list row) (s : Section) :
  let s' := foldl add_meeting_step s meetings in
  sec_batch_ids s' = sec_batch_ids s /\ sec_total_students s' = sec_total_students s /\
  sec_subject_id s' = sec_subject_id s /\ sec_faculty_id s' = sec_faculty_id s /\
  sec_section_index s' = sec_section_index s /\
  (sec_room_id s = None ->
   sec_room_id s' = first_roomed meetings ≫= room_id /\
   sec_room_capacity s' = match first_roomed meetings with
                          | Some m => room_capacity m
                          | None => sec_room_capacity s
                          end /\
   sec_room_name s' = match first_roomed meetings with
                      | Some m => room_name m
                      | None => sec_room_name s
                      end) /\
  (forall r, sec_room_id s = Some r ->
   sec_room_id s' = Some r /\ sec_room_capacity s' = sec_room_capacity s /\
   sec_room_name s' = sec_room_name s).
Proof.
  revert s. induction meetings as [|m meetings IH]; intros s; cbn [foldl first_roomed]; cbv zeta.
  - split_and!; done.
  - destruct (IH (add_meeting_step s m)) as (H1 & H2 & H3 & H4 & H5 & Hnone & Hsome).
    rewrite H1, H2, H3, H4, H5. clear IH H1 H2 H3 H4 H5.
    unfold add_meeting_step in *. destruct (room_id m) as [r|] eqn:Hm; simpl in *.
    + split_and!; try done.
      * intros Hs. destruct (Hsome r) as (Hr1 & Hr2 & Hr3).
        { by rewrite bool_decide_eq_true_2. }
        rewrite Hr1, Hr2, Hr3, bool_decide_eq_true_2 by done. done.
      * intros r' Hr'. destruct (Hsome r') as (Hr1 & Hr2 & Hr3).
        { rewrite bool_decide_eq_false_2 by congruence. done. }
        rewrite Hr1, Hr2, Hr3, bool_decide_eq_false_2 by congruence. done.
    + split_and!; done.
Qed.

(** The fields of the section built from one group. *)
Lemma make_section_fields (ref : ReferenceData) (sid : Z) (fid : option Z) (bs : gset Z)
    (meetings : list row) (index : nat) :
  let s := make_section ref (sid, fid, bs) meetings index in
  section_triple s = (sid, fid, bs) /\
  sec_section_index s = index /\
  sec_total_students s = Zsum (map (population_of ref) (elements bs)) /\
  sec_room_id s = first_roomed meetings ≫= room_id /\
  sec_room_capacity s = first_roomed meetings ≫= room_capacity /\
  sec_room_name s = first_roomed meetings ≫= room_name.
Proof.
  rewrite make_section_steps. cbv zeta.
  assert (H0 : let s0 := section_start ref sid fid index in
               sec_batch_ids s0 = ∅ /\ sec_total_students s0 = 0 /\
               sec_subject_id s0 = sid /\ sec_faculty_id s0 = fid /\
               sec_section_index s0 = index /\ sec_room_id s0 = None /\
               sec_room_capacity s0 = None /\ sec_room_name s0 = None).
  { unfold section_start. by destruct fid. }
  destruct H0 as (B0 & T0 & S0 & F0 & I0 & R0 & C0 & N0).
  destruct (add_batches_fields ref (elements bs) (section_start ref sid fid index))
    as (B1 & T1 & S1 & F1 & I1 & R1 & C1 & N1).
  { apply NoDup_elements. }
  { intros b _. rewrite B0. set_solver. }
  destruct (add_meetings_fields meetings
              (foldl (add_batch_step ref) (section_start ref sid fid index) (elements bs)))
    as (B2 & T2 & S2 & F2 & I2 & Hnone & _).
  destruct Hnone as (R2 & C2 & N2); [congruence|].
  unfold section_triple.
  rewrite B2, T2, S2, F2, I2, R2, C2, N2, B1, T1, S1, F1, I1, C1, N1, B0, T0, S0, F0, I0, C0, N0.
  split_and!; try done; try lia; try (by destruct (first_roomed meetings)).
  f_equal. rewrite list_to_set_elements_L. set_solver.
Qed.

Lemma classified_section_key (m : row) : classified m <-> is_Some (section_key_of m).
Proof.
  unfold classified, section_key_of.
  destruct (subject_id m) as [sid|]; simpl.
  - destruct (faculty_id m) as [f|]; simpl.
    + split; [by eexists|intros _; split; [done|by left]].
    + case_bool_decide as Hb; simpl.
      * split; [intros (_ & [?|?]); done|intros [? [=]]].
      * split; [by eexists|intros _; split; [done|by right]].
  - split; [intros (? & _); done|intros [? [=]]].
Qed.

(** The state of the second loop of [build_sections] after the groups
    [groups]: the sections are the groups in order, and the counter of a
    subject is the number of its sections so far. *)
Lemma build_sections_invariant (ref : ReferenceData) (groups : list (section_key * list row)) :
  let st := foldl (build_sections_step ref) ([], []) groups in
  Forall2 (fun s g => s = make_section ref g.1 g.2 (sec_section_index s)) st.2 groups /\
  (forall sid, default 0%nat (dict_get st.1 sid) =
               length (filter (fun s => sec_subject_id s = sid) st.2)) /\
  (forall i s, st.2 !! i = Some s ->
     sec_section_index s =
     length (filter (fun s' => sec_subject_id s' = sec_subject_id s) (take i st.2))).
Proof.
  induction groups as [|[[[sid fid] bs] meetings] groups IH] using rev_ind.
  - simpl. split_and!; [constructor|done|]. intros i s. by rewrite lookup_nil.
  - rewrite foldl_app. cbn [foldl]. cbv zeta in IH.
    destruct (foldl (build_sections_step ref) ([], []) groups) as [counts secs].
    destruct IH as (Hall & Hcount & Hindex). cbn [fst snd] in *.
    unfold build_sections_step. cbn [fst snd].
    destruct (make_section_fields ref sid fid bs meetings
                (default 0%nat (dict_get counts sid))) as (Htri & Hidx & _).
    set (new := make_section ref (sid, fid, bs) meetings
                  (default 0%nat (dict_get counts sid))) in *.
    assert (Hsid : sec_subject_id new = sid).
    { change (sec_subject_id new) with ((section_triple new).1.1). by rewrite Htri. }
    clear Htri.
    split_and!.
    + apply Forall2_app; [done|]. constructor; [|constructor]. simpl.
      unfold new at 1. by rewrite Hidx.
    + intros sid'. rewrite dict_get_upd, filter_app, length_app.
      destruct (decide (sid' = sid)) as [->|Hne].
      * rewrite filter_cons_True by done. simpl. rewrite <-Hcount. lia.
      * rewrite filter_cons_False by congruence. simpl. rewrite <-Hcount. lia.
    + intros i s Hs. destruct (decide (i < length secs)%nat) as [Hlt|Hge].
      * rewrite lookup_app_l in Hs by done. rewrite take_app_le by lia. by apply Hindex.
      * assert (i = length secs) as ->.
        { apply lookup_lt_Some in Hs. rewrite length_app in Hs. simpl in Hs. lia. }
        rewrite list_lookup_middle in Hs by done. injection Hs as <-.
        rewrite take_app_length. rewrite Hidx, Hsid. apply Hcount.
Qed.

(** Each section is built from one group of [meeting_groups], in order. *)
Lemma build_sections_groups (schedule_rows : list row) (ref : ReferenceData) :
  Forall2 (fun s g => section_triple s = g.1 /\ sec_meetings s = g.2 /\
                      s = make_section ref g.1 g.2 (sec_section_index s))
          (build_sections schedule_rows ref) (meeting_groups schedule_rows).
Proof.
  unfold build_sections.
  destruct (build_sections_invariant ref (meeting_groups schedule_rows)) as (Hall & _ & _).
  eapply Forall2_impl; [exact Hall|].
  intros s [[[sid fid] bs] meetings] Hs. cbn [fst snd] in *.
  split_and!; [| |done].
  - rewrite Hs. apply make_section_fields.
  - rewrite Hs. apply make_section_meetings.
Qed.

Lemma build_sections_elem (schedule_rows : list row) (ref : ReferenceData) (s : Section) :
  s ∈ build_sections schedule_rows ref ->
  (section_triple s, sec_meetings s) ∈ meeting_groups schedule_rows /\
  s = make_section ref (section_triple s) (sec_meetings s) (sec_section_index s).
Proof.
  intros Hs. apply list_elem_of_lookup in Hs as [i Hi].
  destruct (Forall2_lookup_l _ _ _ _ _ (build_sections_groups schedule_rows ref) Hi)
    as ([key meetings] & Hg & Hk & Hm & Hmake).
  cbn [fst snd] in *. subst key meetings. split; [|done].
  apply list_elem_of_lookup. by exists i.
Qed.

(** X1.  The sections partition the classified rows: the meetings of all
    sections together are the classified rows, each as often as it occurs
    in the schedule; no section is empty. *)
Theorem sections_partition_classified_rows (schedule_rows : list row) (ref : ReferenceData) :
  flat_map sec_meetings (build_sections schedule_rows ref) ≡ₚ filter classified schedule_rows /\
  Forall (fun s => sec_meetings s <> []) (build_sections schedule_rows ref) /\
  (length (build_sections schedule_rows ref) <= length (filter classified schedule_rows))%nat.
Proof.
  assert (Hperm : flat_map sec_meetings (build_sections schedule_rows ref)
                  ≡ₚ filter classified schedule_rows).
  { rewrite flat_map_concat_map, build_sections_meetings, <-flat_map_concat_map.
    rewrite meeting_groups_group_by, group_by_Permutation.
    erewrite list_filter_iff; [done|]. intros m. symmetry. apply classified_section_key. }
  assert (Hne : Forall (fun s => sec_meetings s <> []) (build_sections schedule_rows ref)).
  { apply Forall_forall. intros s Hs.
    destruct (build_sections_elem _ _ _ Hs) as [Hg _].
    rewrite meeting_groups_group_by in Hg.
    pose proof (group_by_nonempty section_key_of schedule_rows) as Hall.
    rewrite Forall_forall in Hall. exact (Hall _ Hg). }
  split_and!; [done|done|].
  rewrite <-Hperm. clear Hperm.
  induction Hne as [|s l Hs _ IH]; simpl; [done|].
  rewrite length_app. destruct (sec_meetings s); [done|]. simpl. lia.
Qed.

(** X2.  Two classified rows are in one section exactly when their
    [(subject_id, faculty_id, frozenset(batch_ids))] triples are equal; the
    triple is the section's, and no two sections share a triple. *)
Theorem same_section_iff_same_triple (schedule_rows : list row) (ref : ReferenceData)
    (m1 m2 : row) (k1 k2 : section_key) :
  m1 ∈ schedule_rows -> m2 ∈ schedule_rows ->
  section_key_of m1 = Some k1 -> section_key_of m2 = Some k2 ->
  ((exists s, s ∈ build_sections schedule_rows ref /\
              m1 ∈ sec_meetings s /\ m2 ∈ sec_meetings s) <-> k1 = k2) /\
  (forall s, s ∈ build_sections schedule_rows ref -> m1 ∈ sec_meetings s ->
             section_triple s = k1) /\
  NoDup (map section_triple (build_sections schedule_rows ref)).
Proof.
  intros Hm1 Hm2 Hk1 Hk2.
  assert (Hkey : forall s m k, s ∈ build_sections schedule_rows ref -> m ∈ sec_meetings s ->
                   section_key_of m = Some k -> section_triple s = k).
  { intros s m k Hs Hm Hk. destruct (build_sections_elem _ _ _ Hs) as [Hg _].
    rewrite meeting_groups_group_by in Hg.
    pose proof (group_by_keys_agree section_key_of schedule_rows) as Hall.
    rewrite Forall_forall in Hall. specialize (Hall _ Hg). cbn [fst snd] in Hall.
    rewrite Forall_forall in Hall. specialize (Hall _ Hm). congruence. }
  split_and!.
  - split.
    + intros (s & Hs & H1 & H2). rewrite <-(Hkey s m1 k1), <-(Hkey s m2 k2); done.
    + intros <-.
      pose proof (group_by_get section_key_of schedule_rows k1) as Hget.
      assert (Hin1 : m1 ∈ filter (fun x => section_key_of x = Some k1) schedule_rows)
        by (by apply list_elem_of_filter).
      assert (Hin2 : m2 ∈ filter (fun x => section_key_of x = Some k1) schedule_rows)
        by (by apply list_elem_of_filter).
      rewrite <-Hget in Hin1, Hin2.
      destruct (dict_get (group_by section_key_of schedule_rows) k1) as [g|] eqn:Hg;
        [|by apply elem_of_nil in Hin1].
      simpl in Hin1, Hin2. apply dict_get_Some_elem in Hg.
      rewrite <-meeting_groups_group_by in Hg.
      apply list_elem_of_lookup in Hg as [i Hi].
      destruct (Forall2_lookup_r _ _ _ _ _ (build_sections_groups schedule_rows ref) Hi)
        as (s & Hs & _ & Hmeet & _).
      cbn [snd] in Hmeet. exists s. rewrite Hmeet. split_and!; [|done|done].
      apply list_elem_of_lookup. by exists i.
  - intros s Hs Hm. by apply (Hkey s m1 k1).
  - assert (Hmap : map section_triple (build_sections schedule_rows ref)
                   = dict_keys (meeting_groups schedule_rows)).
    { unfold dict_keys. pose proof (build_sections_groups schedule_rows ref) as Hall.
      clear Hkey. induction Hall as [|s g l1 l2 (Hk & _) _ IH]; [done|].
      cbn [map]. rewrite fmap_cons. by rewrite Hk, IH. }
    rewrite Hmap, meeting_groups_group_by. apply group_by_NoDup.
Qed.

Lemma same_section_iff_same_triple_witness :
  let rows := one_section_three_meetings ++ full_week in
  let m1 := plain_row (Some 9) "ICS 103" (Some 1) (Some "Cruz") (Some 5) None "MONDAY" 480 540 in
  let m2 := plain_row (Some 9) "ICS 103" (Some 1) (Some "Cruz") (Some 5) None "FRIDAY" 480 540 in
  m1 ∈ rows /\ m2 ∈ rows /\
  section_key_of m1 = Some (9, Some 1, {[5]}) /\
  exists s, s ∈ build_sections rows sample_reference /\
            m1 ∈ sec_meetings s /\ m2 ∈ sec_meetings s.
Proof.
  intros rows m1 m2.
  assert (H1 : m1 ∈ rows) by (apply list_elem_of_In; vm_compute; tauto).
  assert (H2 : m2 ∈ rows) by (apply list_elem_of_In; vm_compute; tauto).
  assert (K1 : section_key_of m1 = Some (9, Some 1, list_to_set [5])) by reflexivity.
  assert (K2 : section_key_of m2 = Some (9, Some 1, list_to_set [5])) by reflexivity.
  split; [exact H1|]. split; [exact H2|].
  split; [rewrite K1; f_equal; f_equal; set_solver|].
  apply (same_section_iff_same_triple rows sample_reference m1 m2 _ _ H1 H2 K1 K2).
  reflexivity.
Defined.

(** X3.  The enrollment of a section is the sum of the populations of its
    distinct batch ids, each counted once, and that batch set is the set
    of batch ids of every one of its meetings. *)
Theorem section_students_count_each_batch_once (schedule_rows : list row)
    (ref : ReferenceData) (s : Section) :
  s ∈ build_sections schedule_rows ref ->
  sec_total_students s = Zsum (map (population_of ref) (elements (sec_batch_ids s))) /\
  (forall m, m ∈ sec_meetings s ->
     (list_to_set (row_batch_ids m) : gset Z) = sec_batch_ids s /\
     subject_id m = Some (sec_subject_id s) /\ faculty_id m = sec_faculty_id s).
Proof.
  intros Hs. destruct (build_sections_elem _ _ _ Hs) as [Hg Hmake]. split.
  - destruct (make_section_fields ref (sec_subject_id s) (sec_faculty_id s) (sec_batch_ids s)
                (sec_meetings s) (sec_section_index s)) as (_ & _ & Htot & _).
    unfold section_triple in Hmake. by rewrite <-Hmake in Htot.
  - intros m Hm. rewrite meeting_groups_group_by in Hg.
    pose proof (group_by_keys_agree section_key_of schedule_rows) as Hall.
    rewrite Forall_forall in Hall. specialize (Hall _ Hg). cbn [fst snd] in Hall.
    rewrite Forall_forall in Hall. specialize (Hall _ Hm).
    unfold section_key_of, section_triple in Hall.
    destruct (subject_id m); [|done]. destruct (_ && _); [done|].
    injection Hall as -> -> ->. done.
Qed.

Lemma section_students_count_each_batch_once_witness :
  exists s, build_sections shared_class sample_campus = [s] /\
    length (sec_meetings s) = 2%nat /\
    map (population_of sample_campus) (elements (sec_batch_ids s)) = [20; 16] /\
    sec_total_students s = 36 /\
    (forall m, m ∈ sec_meetings s ->
       (list_to_set (row_batch_ids m) : gset Z) = sec_batch_ids s).
Proof.
  destruct (build_sections shared_class sample_campus) as [|s [|]] eqn:Hb;
    try (vm_compute in Hb; discriminate).
  assert (Hs : s ∈ build_sections shared_class sample_campus) by (rewrite Hb; left).
  destruct (section_students_count_each_batch_once shared_class sample_campus s Hs)
    as [Htotal Hmeetings].
  assert (Hfields : length (sec_meetings s) = 2%nat /\
            map (population_of sample_campus) (elements (sec_batch_ids s)) = [20; 16]).
  { vm_compute in Hb. injection Hb as <-. split; vm_compute; reflexivity. }
  destruct Hfields as [Hlen Hpop].
  exists s. split; [reflexivity|]. split; [exact Hlen|]. split; [exact Hpop|].
  split; [by rewrite Htotal, Hpop|].
  intros m Hm. apply (Hmeetings m Hm).
Defined.

Lemma add_batches_section_id (ref : ReferenceData) (l : list Z) (s : Section) :
  sec_section_id (foldl (add_batch_step ref) s l) = sec_section_id s.
Proof.
  revert s. induction l as [|b l IH]; intros s; cbn [foldl]; [done|].
  rewrite IH. unfold add_batch_step, add_batch. by case_bool_decide.
Qed.

Lemma add_meetings_section_id (meetings : list row) (s : Section) :
  sec_section_id (foldl add_meeting_step s meetings) = sec_section_id s.
Proof.
  revert s. induction meetings as [|m l IH]; intros s; cbn [foldl]; [done|].
  rewrite IH. unfold add_meeting_step. by destruct (room_id m).
Qed.

(** X4.  Sections are numbered per subject from [0] in the order in which
    they are built: the index of a section is the number of sections of
    the same subject before it, and its id is the subject's name, a dash
    and that index. *)
Theorem section_index_counts_earlier_sections (schedule_rows : list row)
    (ref : ReferenceData) (i : nat) (s : Section) :
  build_sections schedule_rows ref !! i = Some s ->
  sec_section_index s =
    length (filter (fun s' => sec_subject_id s' = sec_subject_id s)
                   (take i (build_sections schedule_rows ref))) /\
  sec_section_id s =
    (subject_name_of ref (sec_subject_id s) +:+ "-" +:+ pretty (sec_section_index s))%string.
Proof.
  intros Hi. split.
  - unfold build_sections in *.
    destruct (build_sections_invariant ref (meeting_groups schedule_rows)) as (_ & _ & Hidx).
    by apply Hidx.
  - assert (Hs : s ∈ build_sections schedule_rows ref)
      by (apply list_elem_of_lookup; by exists i).
    destruct (build_sections_elem _ _ _ Hs) as [_ Hmake].
    rewrite Hmake at 1. unfold section_triple. rewrite make_section_steps.
    rewrite add_meetings_section_id, add_batches_section_id.
    unfold section_start. by destruct (sec_faculty_id s).
Qed.

Lemma section_index_counts_earlier_sections_witness :
  let rows :=
    [ plain_row (Some 9) "ICS 103" (Some 1) None (Some 5) None "MONDAY" 480 540;
      plain_row (Some 7) "ICS 101" (Some 1) None (Some 5) None "MONDAY" 540 600;
      plain_row (Some 9) "ICS 103" (Some 2) None (Some 6) None "MONDAY" 480 540 ] in
  exists s, build_sections rows sample_reference !! 2%nat = Some s /\
            sec_section_index s = 1%nat /\ sec_section_id s = "9-1"%string.
Proof.
  intros rows.
  assert (Hs : build_sections rows sample_reference !! 2%nat =
               Some (make_section sample_reference (9, Some 2, list_to_set [6])
                       [plain_row (Some 9) "ICS 103" (Some 2) None (Some 6) None
                          "MONDAY" 480 540] 1)) by reflexivity.
  eexists. split; [exact Hs|].
  destruct (section_index_counts_earlier_sections rows sample_reference 2 _ Hs) as [H1 H2].
  split; [rewrite H1; reflexivity|rewrite H2; reflexivity].
Defined.

Lemma first_roomed_None (meetings : list row) :
  first_roomed meetings = None <-> Forall (fun m => room_id m = None) meetings.
Proof.
  induction meetings as [|m l IH]; simpl; [split; [constructor|done]|].
  destruct (room_id m) eqn:E.
  - split; [done|]. intros [H _]%Forall_cons. congruence.
  - rewrite IH. split; [by constructor|by intros [_ ?]%Forall_cons].
Qed.

(** X5.  The primary room of a section, and the capacity the hard
    capacity check compares with, are those of the first of its meetings
    that has a room; later meetings in other rooms do not change them.  A
    section has no primary room only when none of its meetings has a
    room. *)
Theorem section_primary_room_is_first_room (schedule_rows : list row) (ref : ReferenceData)
    (s : Section) :
  s ∈ build_sections schedule_rows ref ->
  sec_room_id s = first_roomed (sec_meetings s) ≫= room_id /\
  sec_room_capacity s = first_roomed (sec_meetings s) ≫= room_capacity /\
  sec_room_name s = first_roomed (sec_meetings s) ≫= room_name /\
  (sec_room_id s = None <-> Forall (fun m => room_id m = None) (sec_meetings s)).
Proof.
  intros Hs. destruct (build_sections_elem _ _ _ Hs) as [_ Hmake].
  destruct (make_section_fields ref (sec_subject_id s) (sec_faculty_id s) (sec_batch_ids s)
              (sec_meetings s) (sec_section_index s)) as (_ & _ & _ & Hr & Hc & Hn).
  unfold section_triple in Hmake. rewrite <-Hmake in Hr, Hc, Hn.
  split_and!; [done|done|done|].
  rewrite Hr, <-first_roomed_None.
  clear. induction (sec_meetings s) as [|m l IH]; simpl; [done|].
  destruct (room_id m) eqn:E; simpl; [by rewrite E|done].
Qed.

Lemma section_primary_room_is_first_room_witness :
  let rows :=
    [ plain_row (Some 9) "ICS 103" (Some 1) None (Some 5) None "MONDAY" 480 540;
      plain_row (Some 9) "ICS 103" (Some 1) None (Some 5) (Some 12) "TUESDAY" 480 540;
      plain_row (Some 9) "ICS 103" (Some 1) None (Some 5) (Some 11) "FRIDAY" 480 540 ] in
  exists s, s ∈ build_sections rows sample_reference /\ sec_room_id s = Some 12.
Proof.
  intros rows.
  assert (Hs : make_section sample_reference (9, Some 1, list_to_set [5]) rows 0
               ∈ build_sections rows sample_reference).
  { apply list_elem_of_In. left. reflexivity. }
  eexists. split; [exact Hs|].
  destruct (section_primary_room_is_first_room _ _ _ Hs) as (Hr & _).
  rewrite Hr. reflexivity.
Defined.

(** ** Lecture-lab pairing *)

Lemma dict_get_app {K V : Type} `{EqDecision K} (d1 d2 : list (K * V)) (k : K) :
  dict_get (d1 ++ d2) k =
  match dict_get d1 k with Some v => Some v | None => dict_get d2 k end.
Proof.
  induction d1 as [|[k0 v0] d1 IH]; simpl; [done|]. by destruct (decide (k = k0)).
Qed.

Lemma lab_to_lecture_snoc (l : list (Z * subject_data)) (sid : Z)
    (sdata : subject_data) :
  foldl (fun d '(sid, sdata) =>
           match truthy_linked_id sdata with
           | Some linked_id => dict_upd (fun _ => linked_id) sid d
           | None => d
           end) [] (l ++ [(sid, sdata)]) =
  let d := foldl (fun d '(sid, sdata) =>
                    match truthy_linked_id sdata with
                    | Some linked_id => dict_upd (fun _ => linked_id) sid d
                    | None => d
                    end) [] l in
  match truthy_linked_id sdata with
  | Some linked_id => dict_upd (fun _ => linked_id) sid d
  | None => d
  end.
Proof. by rewrite foldl_app. Qed.

(** An entry of [lab_to_lecture] comes from a catalog subject with a
    non-zero link. *)
Lemma lab_to_lecture_sound (ref : ReferenceData) (sid linked : Z) :
  dict_get (lab_to_lecture ref) sid = Some linked ->
  exists sdata, (sid, sdata) ∈ subjects_by_id ref /\ truthy_linked_id sdata = Some linked.
Proof.
  unfold lab_to_lecture.
  induction (subjects_by_id ref) as [|[k sd] l IH] using rev_ind; [done|].
  rewrite lab_to_lecture_snoc. cbv zeta. intros Hget.
  assert (Hold : dict_get (foldl (fun d '(sid, sdata) =>
                    match truthy_linked_id sdata with
                    | Some linked_id => dict_upd (fun _ => linked_id) sid d
                    | None => d
                    end) [] l) sid = Some linked ->
          exists sdata, (sid, sdata) ∈ l ++ [(k, sd)] /\ truthy_linked_id sdata = Some linked).
  { intros H. destruct (IH H) as (sdata & Hin & Ht). exists sdata.
    split; [|done]. apply elem_of_app. by left. }
  destruct (truthy_linked_id sd) as [v|] eqn:Ht; [|by apply Hold].
  rewrite dict_get_upd in Hget. destruct (decide (sid = k)) as [->|]; [|by apply Hold].
  injection Hget as <-. exists sd. split; [|done]. apply elem_of_app. right. left.
Qed.

(** With one entry per subject id, [lab_to_lecture] is the catalog's link. *)
Lemma lab_to_lecture_get (ref : ReferenceData) (sid : Z) :
  NoDup (dict_keys (subjects_by_id ref)) ->
  dict_get (lab_to_lecture ref) sid = dict_get (subjects_by_id ref) sid ≫= truthy_linked_id.
Proof.
  unfold lab_to_lecture, dict_keys.
  induction (subjects_by_id ref) as [|[k sd] l IH] using rev_ind; [done|].
  rewrite fmap_app. intros [Hl [Hk _]]%NoDup_app.
  rewrite lab_to_lecture_snoc, dict_get_app. cbv zeta. simpl.
  assert (Hfresh : dict_get l k = None).
  { apply dict_get_None. intros Hin. apply (Hk k Hin). left. }
  destruct (decide (sid = k)) as [->|Hne].
  - rewrite Hfresh. simpl. destruct (truthy_linked_id sd) as [v|].
    + by rewrite dict_get_upd, decide_True.
    + rewrite IH by done. by rewrite Hfresh.
  - assert (Hrest : match dict_get l sid with Some v => Some v | None => None end
                    = dict_get l sid) by (by destruct (dict_get l sid)).
    rewrite Hrest. destruct (truthy_linked_id sd) as [v|].
    + rewrite dict_get_upd, decide_False by done. by apply IH.
    + by apply IH.
Qed.

Lemma sections_by_subject_get (sections : list Section) (sid : Z) :
  default [] (dict_get (sections_by_subject sections) sid) =
  filter (fun s => sec_subject_id s = sid) sections.
Proof.
  change (sections_by_subject sections)
    with (group_by (fun s => Some (sec_subject_id s)) sections).
  rewrite group_by_get. apply list_filter_iff. intros s. split; congruence.
Qed.

(** The couples [pairs_of_lab] builds for one lab section. *)
Lemma pairs_of_lab_elem (ref : ReferenceData) (sections : list Section) (lab : Section)
    (p : LectureLabPair) :
  p ∈ pairs_of_lab ref sections lab <->
  lab_section p = lab /\ lecture_section p ∈ sections /\
  dict_get (lab_to_lecture ref) (sec_subject_id lab) = Some (sec_subject_id (lecture_section p)) /\
  sec_batch_ids lab = sec_batch_ids (lecture_section p) /\
  p = {| lecture_section := lecture_section p; lab_section := lab;
         is_valid := bool_decide (sec_faculty_id lab = sec_faculty_id (lecture_section p));
         error := if bool_decide (sec_faculty_id lab = sec_faculty_id (lecture_section p))
                  then None
                  else Some ("Different faculty: Lecture="
                             +:+ default "None" (sec_faculty_name (lecture_section p))
                             +:+ ", Lab=" +:+ default "None" (sec_faculty_name lab))%string |}.
Proof.
  unfold pairs_of_lab.
  destruct (dict_get (lab_to_lecture ref) (sec_subject_id lab)) as [lsid|] eqn:Hl.
  - rewrite sections_by_subject_get, list_elem_of_In, in_flat_map. split.
    + intros (lec & Hlec%list_elem_of_In & Hp).
      apply list_elem_of_filter in Hlec as [Hsid Hlec].
      case_bool_decide as Hb; [done|]. try apply dec_stable in Hb.
      case_bool_decide as Hf.
      * destruct Hp as [<-|[]]. simpl. rewrite bool_decide_eq_false_2 by done.
        split_and!; try done. by rewrite Hsid.
      * try apply dec_stable in Hf. destruct Hp as [<-|[]]. simpl.
        rewrite bool_decide_eq_true_2 by done. split_and!; try done. by rewrite Hsid.
    + intros (Hlab & Hlec & Hsid & Hb & Hp). exists (lecture_section p). split.
      * apply list_elem_of_In, list_elem_of_filter. split; [congruence|done].
      * rewrite bool_decide_eq_false_2 by (intros ?; done).
        destruct p as [lec lab' v e]. simpl in *. subst lab'.
        destruct (decide (sec_faculty_id lab = sec_faculty_id lec)) as [Hf|Hf].
        -- rewrite !(bool_decide_eq_true_2 _ Hf) in Hp. injection Hp as -> ->.
           rewrite bool_decide_eq_false_2 by (intros ?; done). by left.
        -- rewrite !(bool_decide_eq_false_2 _ Hf) in Hp. injection Hp as -> ->.
           rewrite bool_decide_eq_true_2 by done. by left.
  - rewrite elem_of_nil. split; [done|]. intros (_ & _ & ? & _). done.
Qed.

(** X6.  Every couple returned by [find_lecture_lab_pairs] joins two of
    the given sections with equal batch sets, the lab's subject being a
    catalog subject whose non-zero [linked_subject_id] is the lecture's
    subject.  A valid couple has equal faculty ids and no error; an error
    couple has different faculty ids and carries an error text. *)
Theorem lecture_lab_pairs_sound (sections : list Section) (ref : ReferenceData)
    (p : LectureLabPair) :
  p ∈ (find_lecture_lab_pairs sections ref).1 ++ (find_lecture_lab_pairs sections ref).2 ->
  lecture_section p ∈ sections /\ lab_section p ∈ sections /\
  sec_batch_ids (lab_section p) = sec_batch_ids (lecture_section p) /\
  (exists sdata, (sec_subject_id (lab_section p), sdata) ∈ subjects_by_id ref /\
     truthy_linked_id sdata = Some (sec_subject_id (lecture_section p))) /\
  (p ∈ (find_lecture_lab_pairs sections ref).1 <->
   sec_faculty_id (lab_section p) = sec_faculty_id (lecture_section p)) /\
  (p ∈ (find_lecture_lab_pairs sections ref).1 -> is_valid p = true /\ error p = None) /\
  (p ∈ (find_lecture_lab_pairs sections ref).2 -> is_valid p = false /\ is_Some (error p)).
Proof.
  unfold find_lecture_lab_pairs. cbn [fst snd].
  rewrite elem_of_app, !list_elem_of_filter.
  intros Hp.
  assert (Hin : p ∈ flat_map (pairs_of_lab ref sections) sections) by tauto.
  apply list_elem_of_In, in_flat_map in Hin as (lab & Hlab%list_elem_of_In & Hin%list_elem_of_In).
  pose proof Hin as Hin'.
  apply pairs_of_lab_elem in Hin as (Hl & Hlec & Hlink & Hb & Hrec).
  subst lab. apply lab_to_lecture_sound in Hlink.
  assert (Hv : is_valid p = bool_decide (sec_faculty_id (lab_section p)
                                         = sec_faculty_id (lecture_section p)))
    by (by rewrite Hrec at 1).
  assert (He : error p = if bool_decide (sec_faculty_id (lab_section p)
                                         = sec_faculty_id (lecture_section p))
                         then None
                         else Some ("Different faculty: Lecture="
                             +:+ default "None" (sec_faculty_name (lecture_section p))
                             +:+ ", Lab="
                             +:+ default "None" (sec_faculty_name (lab_section p)))%string)
    by (by rewrite Hrec at 1).
  split_and!; try done.
  - rewrite Hv, bool_decide_eq_true.
    split; [tauto|]. intros Hf. split; [done|]. apply list_elem_of_In, in_flat_map.
    exists (lab_section p). by rewrite <-!list_elem_of_In.
  - intros [Ht _]. split; [done|]. rewrite He. rewrite Hv in Ht. by rewrite Ht.
  - intros [Hf _]. split; [done|]. rewrite He. rewrite Hv in Hf. rewrite Hf. by eexists.
Qed.

Lemma lecture_lab_pairs_sound_witness :
  let ref := {| faculty_by_id := []; rooms_by_id := []; batches_by_id := [];
                banned_times := []; external_meetings := None;
                subjects_by_id :=
                  [ (1, {| sd_subject_id := 1; sd_subject_name := "ICS 103";
                           sd_linked_subject_id := None |});
                    (2, {| sd_subject_id := 2; sd_subject_name := "ICS 103 Lab";
                           sd_linked_subject_id := Some 1 |}) ] |} in
  let rows :=
    [ plain_row (Some 1) "ICS 103" (Some 1) None (Some 5) (Some 11) "MONDAY" 480 540;
      plain_row (Some 2) "ICS 103 Lab" (Some 1) None (Some 5) (Some 12) "MONDAY" 540 630 ] in
  exists p, (find_lecture_lab_pairs (build_sections rows ref) ref).1 = [p] /\
            is_valid p = true /\ error p = None /\
            sec_section_id (lecture_section p) = "ICS 103-0"%string /\
            sec_section_id (lab_section p) = "ICS 103 Lab-0"%string.
Proof.
  intros ref rows.
  assert (Hp : exists p, (find_lecture_lab_pairs (build_sections rows ref) ref).1 = [p] /\
            sec_section_id (lecture_section p) = "ICS 103-0"%string /\
            sec_section_id (lab_section p) = "ICS 103 Lab-0"%string).
  { eexists. split; [reflexivity|]. split; reflexivity. }
  destruct Hp as (p & Hp & Hlec & Hlab). exists p.
  destruct (lecture_lab_pairs_sound (build_sections rows ref) ref p) as (_ & _ & _ & _ & _ & Hv & _).
  { rewrite Hp. left. }
  destruct Hv as [Hv He]; [rewrite Hp; left|]. done.
Defined.

(** X7.  When the catalog has one entry per subject id, every lab section
    whose subject links to the subject of a lecture section with the same
    batch set is paired with it, as a valid or as an error couple. *)
Theorem lecture_lab_pairs_complete (sections : list Section) (ref : ReferenceData)
    (lab lecture : Section) (sdata : subject_data) :
  NoDup (dict_keys (subjects_by_id ref)) ->
  lab ∈ sections -> lecture ∈ sections ->
  dict_get (subjects_by_id ref) (sec_subject_id lab) = Some sdata ->
  truthy_linked_id sdata = Some (sec_subject_id lecture) ->
  sec_batch_ids lab = sec_batch_ids lecture ->
  exists p, lecture_section p = lecture /\ lab_section p = lab /\
    p ∈ (find_lecture_lab_pairs sections ref).1 ++ (find_lecture_lab_pairs sections ref).2.
Proof.
  intros Hnd Hlab Hlec Hget Hlink Hb.
  set (valid := bool_decide (sec_faculty_id lab = sec_faculty_id lecture)).
  exists {| lecture_section := lecture; lab_section := lab; is_valid := valid;
            error := if valid then None
                     else Some ("Different faculty: Lecture="
                                +:+ default "None" (sec_faculty_name lecture)
                                +:+ ", Lab=" +:+ default "None" (sec_faculty_name lab))%string |}.
  split; [done|]. split; [done|].
  unfold find_lecture_lab_pairs. cbn [fst snd].
  rewrite elem_of_app, !list_elem_of_filter.
  assert (Hin : {| lecture_section := lecture; lab_section := lab; is_valid := valid;
            error := if valid then None
                     else Some ("Different faculty: Lecture="
                                +:+ default "None" (sec_faculty_name lecture)
                                +:+ ", Lab=" +:+ default "None" (sec_faculty_name lab))%string |}
          ∈ flat_map (pairs_of_lab ref sections) sections).
  { apply list_elem_of_In, in_flat_map. exists lab. split; [by apply list_elem_of_In|].
    apply list_elem_of_In, pairs_of_lab_elem. simpl.
    rewrite lab_to_lecture_get, Hget by done. simpl. split_and!; done. }
  simpl. destruct valid; [left|right]; done.
Qed.

Lemma lecture_lab_pairs_complete_witness :
  let sections := build_sections lecture_and_lab linked_reference in
  exists lecture lab p,
    sections = [lecture; lab] /\
    lecture_section p = lecture /\ lab_section p = lab /\
    p ∈ (find_lecture_lab_pairs sections linked_reference).1
        ++ (find_lecture_lab_pairs sections linked_reference).2.
Proof.
  intros sections.
  set (lecture := make_section linked_reference (1, Some 1, list_to_set [5])
                    (take 1 lecture_and_lab) 0).
  set (lab := make_section linked_reference (2, Some 1, list_to_set [5])
                (drop 1 lecture_and_lab) 0).
  assert (Hsec : sections = [lecture; lab]) by reflexivity.
  destruct (lecture_lab_pairs_complete sections linked_reference lab lecture
              {| sd_subject_id := 2; sd_subject_name := "ICS 103 Lab";
                 sd_linked_subject_id := Some 1 |}) as (p & Hlec & Hlab & Hp).
  - apply (bool_decide_unpack _). vm_compute. exact I.
  - rewrite Hsec. right. left.
  - rewrite Hsec. left.
  - reflexivity.
  - reflexivity.
  - reflexivity.
  - exists lecture, lab, p. done.
Defined.

(** ** Hard checks *)

Lemma overlap_non_negative (s1 e1 s2 e2 : Z) : 0 <= calculate_overlap_duration s1 e1 s2 e2.
Proof. unfold calculate_overlap_duration. lia. Qed.

Lemma positive_non_negative (l : list violation) : Forall positive l -> Forall non_negative l.
Proof.
  intros H. eapply Forall_impl; [exact H|]. unfold positive, non_negative. intros; lia.
Qed.

Lemma conflict_pairs_non_negative (ty ety name d : string) (dm : list row) :
  Forall non_negative (conflict_pairs ty ety name d dm).
Proof.
  unfold conflict_pairs.
  apply Forall_flat_map_intro. intros i _. apply Forall_flat_map_intro. intros j _.
  destruct (dm !! i) as [m1|]; [|constructor].
  destruct (dm !! j) as [m2|]; [|constructor].
  destruct (check_overlap _ _ _ _); [|constructor].
  repeat constructor. apply overlap_non_negative.
Qed.

Lemma time_conflicts_non_negative (k : entity_kind) (ty : string) (schedule_rows : list row)
    (ref : ReferenceData) :
  Forall non_negative (time_conflicts k ty schedule_rows ref).
Proof.
  apply (per_entity_per_day_Forall non_negative (fun _ => True)
           (fun id d dm => conflict_pairs ty (capitalize k) (entity_name_of ref k id) d dm)).
  - apply group_by_entity_merged_Forall. by apply Forall_true.
  - intros. apply conflict_pairs_non_negative.
Qed.

Lemma check_banned_times_non_negative (schedule_rows : list row) (ref : ReferenceData) :
  Forall non_negative (check_banned_times schedule_rows ref).
Proof.
  apply Forall_flat_map_intro. intros banned _.
  apply Forall_flat_map_intro. intros m _.
  case_bool_decide; [constructor|].
  destruct (_ && _); [constructor|].
  destruct (check_overlap _ _ _ _); [|constructor].
  repeat constructor. apply overlap_non_negative.
Qed.

(** X8.  No hard violation has a negative magnitude, whatever the rows,
    the sections and the reference data: overlaps are clamped at [0] and
    every other rule emits only on a positive excess or shortfall. *)
Theorem hard_magnitudes_never_negative (schedule_rows : list row) (sections : list Section)
    (ref : ReferenceData) (config : Config) (pairs : option (list LectureLabPair)) :
  Forall non_negative (check_all_hard_constraints schedule_rows sections ref config pairs).
Proof.
  unfold check_all_hard_constraints.
  repeat (apply Forall_app; split).
  - apply time_conflicts_non_negative.
  - apply time_conflicts_non_negative.
  - apply time_conflicts_non_negative.
  - apply positive_non_negative, check_room_capacity_positive.
  - apply positive_non_negative, check_continuous_positive.
  - apply positive_non_negative, check_continuous_positive.
  - apply positive_non_negative, check_gap_positive.
  - apply positive_non_negative, check_gap_positive.
  - apply check_banned_times_non_negative.
  - destruct pairs; [|constructor].
    apply positive_non_negative, check_lecture_lab_separation_positive.
Qed.

Lemma flat_map_lookup_from {A B : Type} (h : A -> list B) (pre suf : list A) :
  flat_map (fun j => match (pre ++ suf) !! j with Some b => h b | None => [] end)
           (seq (length pre) (length suf)) = flat_map h suf.
Proof.
  revert pre. induction suf as [|x suf IH]; intros pre; [done|].
  cbn [length seq flat_map]. rewrite list_lookup_middle by done. f_equal.
  specialize (IH (pre ++ [x])). rewrite <-(assoc_L (++)) in IH.
  rewrite length_app in IH. cbn [length app] in IH.
  replace (length pre + 1)%nat with (S (length pre)) in IH by lia. exact IH.
Qed.

Lemma conflict_pairs_from {B : Type} (g : row -> row -> list B) (pre suf : list row) :
  flat_map (fun i =>
    flat_map (fun j =>
      match (pre ++ suf) !! i, (pre ++ suf) !! j with
      | Some m1, Some m2 => g m1 m2
      | _, _ => []
      end) (seq (S i) (length (pre ++ suf) - S i)))
    (seq (length pre) (length suf)) =
  flat_map (fun p => g p.1 p.2) (ordered_pairs suf).
Proof.
  revert pre. induction suf as [|x suf IH]; intros pre; [done|].
  cbn [length seq flat_map ordered_pairs]. rewrite flat_map_app. f_equal.
  - rewrite list_lookup_middle by done.
    replace (length (pre ++ x :: suf) - S (length pre))%nat with (length suf)
      by (rewrite length_app; simpl; lia).
    pose proof (flat_map_lookup_from (g x) (pre ++ [x]) suf) as H.
    rewrite <-(assoc_L (++)) in H. rewrite length_app in H. cbn [length app] in H.
    replace (length pre + 1)%nat with (S (length pre)) in H by lia.
    rewrite H. clear. induction suf as [|y suf IH]; simpl; [done|]. by rewrite IH.
  - replace (pre ++ x :: suf) with ((pre ++ [x]) ++ suf) by (by rewrite <-(assoc_L (++))).
    replace (S (length pre)) with (length (pre ++ [x]))
      by (rewrite length_app; simpl; lia).
    apply IH.
Qed.

Lemma ordered_pairs_length {A : Type} (l : list A) :
  (2 * length (ordered_pairs l) = length l * (length l - 1))%nat.
Proof.
  induction l as [|x l IH]; simpl; [done|].
  rewrite length_app, length_map. nia.
Qed.

(** X9.  On a day list a time-conflict check tests every couple of
    meetings exactly once, [n * (n - 1) / 2] tests for [n] meetings, and
    emits one violation, with the overlap as magnitude, for each couple
    that passes [check_overlap]; the test and the magnitude do not depend
    on which meeting of the couple comes first. *)
Theorem time_conflict_tests_each_couple_once (ty ety name d : string)
    (day_meetings : list row) :
  conflict_pairs ty ety name d day_meetings =
    flat_map (fun p => conflict_of ty ety name d p.1 p.2) (ordered_pairs day_meetings) /\
  (2 * length (ordered_pairs day_meetings)
   = length day_meetings * (length day_meetings - 1))%nat /\
  (forall m1 m2, conflict_of ty ety name d m1 m2 = conflict_of ty ety name d m2 m1).
Proof.
  split_and!.
  - unfold conflict_pairs.
    exact (conflict_pairs_from (conflict_of ty ety name d) [] day_meetings).
  - apply ordered_pairs_length.
  - intros m1 m2. unfold conflict_of, check_overlap, calculate_overlap_duration.
    rewrite (andb_comm (bool_decide (start_minutes m2 < _))).
    rewrite (Z.max_comm (start_minutes m2)), (Z.min_comm (end_minutes m2)). done.
Qed.

Lemma hard_and_soft_blocks_agree_aux (day_meetings : list row) :
  continuous_scan (fun block_start block_end => [(block_start, block_end)]) day_meetings
  = continuous_blocks day_meetings /\
  forall (ety name d : string) (max_minutes : Z),
    continuous_scan (max_block_check ety name d max_minutes) day_meetings =
    flat_map (fun b => max_block_check ety name d max_minutes b.1 b.2)
             (continuous_blocks day_meetings).
Proof.
  destruct day_meetings as [|m0 rest]; [done|].
  rewrite !continuous_scan_cons, continuous_blocks_cons.
  split.
  - by apply hard_blocks_soft_blocks.
  - intros. rewrite continuous_scan_cons, hard_blocks_emit.
    by rewrite hard_blocks_soft_blocks.
Qed.

(** ** Continuous blocks, once more *)

Lemma soft_blocks_length (bs : Z) (cur : row) (rest : list row) :
  length (soft_blocks_from bs (end_minutes cur) rest) =
  S (length (filter is_break (consecutive (cur :: rest)))).
Proof.
  revert bs cur. induction rest as [|next rest IH]; intros bs cur; [done|].
  cbn [soft_blocks_from]. unfold consecutive in *. cbn [tail zip zip_with] in *.
  case_bool_decide as Hc.
  - rewrite filter_cons_False by (unfold is_break; simpl; intros ?; congruence).
    apply IH.
  - rewrite filter_cons_True by (unfold is_break; simpl; congruence).
    simpl. f_equal. apply IH.
Qed.

Lemma soft_blocks_head (bs be : Z) (rest : list row) :
  fst <$> head (soft_blocks_from bs be rest) = Some bs.
Proof.
  revert be. induction rest as [|next rest IH]; intros be; [done|].
  cbn [soft_blocks_from]. case_bool_decide; [apply IH|done].
Qed.

Lemma soft_blocks_last (bs : Z) (cur : row) (rest : list row) :
  snd <$> last (soft_blocks_from bs (end_minutes cur) rest)
  = end_minutes <$> last (cur :: rest).
Proof.
  revert bs cur. induction rest as [|next rest IH]; intros bs cur; [done|].
  cbn [soft_blocks_from]. rewrite last_cons_cons. case_bool_decide.
  - apply IH.
  - rewrite <-(IH (start_minutes next) next).
    pose proof (soft_blocks_head (start_minutes next) (end_minutes next) rest) as Hh.
    destruct (soft_blocks_from (start_minutes next) (end_minutes next) rest) eqn:E;
      [done|]. by rewrite last_cons_cons.
Qed.

(** X10.  A day with meetings is cut into one block more than there are
    consecutive meetings that do not touch; the first block starts with
    the first meeting and the last block ends with the last meeting.  A
    day without meetings has no block. *)
Theorem continuous_blocks_shape (day_meetings : list row) :
  length (continuous_blocks day_meetings) =
    match day_meetings with
    | [] => 0%nat
    | _ :: _ => S (length (filter is_break (consecutive day_meetings)))
    end /\
  fst <$> head (continuous_blocks day_meetings) = start_minutes <$> head day_meetings /\
  snd <$> last (continuous_blocks day_meetings) = end_minutes <$> last day_meetings.
Proof.
  destruct day_meetings as [|m0 rest]; [done|].
  rewrite continuous_blocks_cons. split_and!.
  - apply soft_blocks_length.
  - apply soft_blocks_head.
  - apply soft_blocks_last.
Qed.

Lemma max_block_check_magnitude (ety name d : string) (max_minutes bs be : Z) :
  map magnitude (max_block_check ety name d max_minutes bs be) = excess_over max_minutes (be - bs).
Proof. unfold max_block_check, excess_over. by case_bool_decide. Qed.

(** X11.  The magnitudes of the hard Max Continuous check are those of
    the rule run for every entity under which a row is filed (a merged
    meeting under each of the ids of its [all_..._ids] list, any other row
    under its single id), for every day on which the entity has a meeting,
    and for every continuous block of that day sorted by start: the
    minutes by which the block exceeds the maximum, and nothing for a
    block within it.  The entities, the days and the meetings of an entity
    on a day are read from the schedule by [distinct] and [filter]. *)
Theorem max_continuous_excess_per_block (schedule_rows : list row) (ref : ReferenceData)
    (k : entity_kind) (max_minutes : Z) :
  map magnitude (_check_continuous_for_entity_type schedule_rows ref k max_minutes) =
  per_entity_per_day (distinct (flat_map (filed_ids k) schedule_rows))
    (fun id => meetings_of k id schedule_rows)
    (fun day_meetings =>
       flat_map (fun b => excess_over max_minutes (b.2 - b.1))
                (continuous_blocks day_meetings)).
Proof.
  unfold _check_continuous_for_entity_type.
  apply (hard_per_entity_per_day k schedule_rows
           (fun id d dm => continuous_scan
              (max_block_check (capitalize k) (entity_name_of ref k id) d max_minutes) dm)).
  intros id d dm.
  rewrite (proj2 (hard_and_soft_blocks_agree_aux dm)), map_flat_map.
  apply flat_map_ext. intros b. apply max_block_check_magnitude.
Qed.

(** A per-entity soft check is its body run per entity and per day. *)
Lemma soft_per_entity_per_day {B : Type} (k : entity_kind) (schedule_rows : list row)
    (body : Z -> string -> list row -> result (list violation)) (g : list row -> list B)
    (h : violation -> B) (vs : list violation) :
  (forall id d dm ws, body id d dm = Ok ws -> map h ws = g dm) ->
  collect (fun '(id, meetings) =>
    collect (fun '(d, day_meetings) => body id d (sort_by_start day_meetings))
            (group_by_day meetings))
    (group_by_entity_single k schedule_rows) = Ok vs ->
  map h vs =
  per_entity_per_day (distinct (omap (single_id k) schedule_rows))
    (fun id => meetings_of_single k id schedule_rows) g.
Proof.
  intros Hbody. unfold per_entity_per_day.
  rewrite group_by_entity_single_reference, collect_fmap.
  apply collect_map. intros id ws _.
  rewrite group_by_day_reference, collect_fmap.
  apply collect_map. intros d ws' _. apply Hbody.
Qed.

Lemma soft_per_entity_per_day_Raise (k : entity_kind) (schedule_rows : list row)
    (body : Z -> string -> list row -> result (list violation)) (e : exn) :
  collect (fun '(id, meetings) =>
    collect (fun '(d, day_meetings) => body id d (sort_by_start day_meetings))
            (group_by_day meetings))
    (group_by_entity_single k schedule_rows) = Raise e ->
  exists id d dm, body id d dm = Raise e.
Proof.
  intros ([id meetings] & _ & ([d dm] & _ & Hr)%collect_Raise)%collect_Raise.
  by exists id, d, (sort_by_start dm).
Qed.

Lemma soft_per_entity_per_day_returns (k : entity_kind) (schedule_rows : list row)
    (body : Z -> string -> list row -> result (list violation)) :
  (forall id d dm, exists ws, body id d dm = Ok ws) ->
  exists vs,
    collect (fun '(id, meetings) =>
      collect (fun '(d, day_meetings) => body id d (sort_by_start day_meetings))
              (group_by_day meetings))
      (group_by_entity_single k schedule_rows) = Ok vs.
Proof.
  intros Hbody. apply collect_returns. intros [id meetings] _.
  apply collect_returns. intros [d dm] _. apply Hbody.
Qed.

Lemma min_continuous_for_entity_Raise (schedule_rows : list row) (ref : ReferenceData)
    (config : Config) (k : entity_kind) (min_minutes : Z) (e : exn) :
  _check_min_continuous_for_entity schedule_rows ref config k min_minutes = Raise e ->
  e = OverflowError.
Proof.
  unfold _check_min_continuous_for_entity. intros Hr.
  apply (soft_per_entity_per_day_Raise k schedule_rows
           (fun id d dm => collect (min_block_check config (capitalize k)
                                      (entity_name_of ref k id) d min_minutes)
                                   (continuous_blocks dm))) in Hr
    as (id & d & dm & (b & _ & Hb)%collect_Raise).
  by eapply min_block_check_Raise.
Qed.

Lemma excess_gap_for_entity_Raise (schedule_rows : list row) (ref : ReferenceData)
    (config : Config) (k : entity_kind) (threshold : Z) (e : exn) :
  _check_excess_gap_for_entity schedule_rows ref config k threshold = Raise e ->
  e = OverflowError.
Proof.
  unfold _check_excess_gap_for_entity. intros Hr.
  apply (soft_per_entity_per_day_Raise k schedule_rows
           (fun id d dm => gap_loop (excess_gap_check config (capitalize k)
                                       (entity_name_of ref k id) d threshold) dm)) in Hr
    as (id & d & dm & Hr).
  rewrite gap_loop_consecutive in Hr. apply collect_Raise in Hr as (p & _ & Hp).
  by eapply excess_gap_check_Raise.
Qed.

Lemma check_section_overfill_Raise (sections : list Section) (ref : ReferenceData)
    (config : Config) (e : exn) :
  check_section_overfill sections ref config = Raise e -> e = OverflowError.
Proof. intros (s & _ & Hs)%collect_Raise. by eapply section_overfill_Raise. Qed.

(** X12.  When the soft Min Continuous check returns, its magnitudes are
    those of the rule run for every entity that is the single id of a row
    (a merged meeting counts for its canonical id only), for every day on
    which the entity has a meeting, and for every continuous block of
    that day sorted by start: the minutes by which a block of positive
    length falls short of the minimum, and nothing for a block of zero or
    negative length.  The entities, the days and the meetings of an entity
    on a day are read from the schedule by [distinct] and [filter].  The
    check raises nothing but the [OverflowError] of a penalty. *)
Theorem min_continuous_shortfall_per_block (schedule_rows : list row) (ref : ReferenceData)
    (config : Config) (k : entity_kind) (min_minutes : Z) :
  (forall vs,
     _check_min_continuous_for_entity schedule_rows ref config k min_minutes = Ok vs ->
     map magnitude vs =
     per_entity_per_day (distinct (omap (single_id k) schedule_rows))
       (fun id => meetings_of_single k id schedule_rows)
       (fun day_meetings =>
          flat_map (fun b => shortfall min_minutes (b.2 - b.1))
                   (continuous_blocks day_meetings))) /\
  (forall e,
     _check_min_continuous_for_entity schedule_rows ref config k min_minutes = Raise e ->
     e = OverflowError).
Proof.
  split; [unfold _check_min_continuous_for_entity|].
  - intros vs.
    apply (soft_per_entity_per_day k schedule_rows
             (fun id d dm => collect (min_block_check config (capitalize k)
                                        (entity_name_of ref k id) d min_minutes)
                                     (continuous_blocks dm))).
    intros id d dm ws. apply collect_map. intros b ws' _. apply min_block_check_Ok.
  - apply min_continuous_for_entity_Raise.
Qed.

Lemma min_continuous_shortfall_per_block_witness :
  exists vs,
    _check_min_continuous_for_entity merged_then_two_days sample_reference default_config
      Faculty 90 = Ok vs /\
    distinct (omap (single_id Faculty) merged_then_two_days) = [1; 2] /\
    meetings_of_single Faculty 2 merged_then_two_days = drop 1 merged_then_two_days /\
    map magnitude vs = [30; 50; 40].
Proof.
  destruct (_check_min_continuous_for_entity merged_then_two_days sample_reference
              default_config Faculty 90) as [vs|] eqn:Hvs; [|vm_compute in Hvs; discriminate].
  exists vs. split; [reflexivity|]. split; [reflexivity|]. split; [reflexivity|].
  rewrite (proj1 (min_continuous_shortfall_per_block merged_then_two_days sample_reference
                    default_config Faculty 90) vs Hvs).
  reflexivity.
Defined.

(** X13.  When the soft Excess Gap check returns, its magnitudes are those
    of the rule run for every entity that is the single id of a row, for
    every day on which the entity has a meeting, and for every two
    consecutive meetings of that day sorted by start: the minutes by which
    the gap [next.start - current.end] exceeds the threshold, and nothing
    for a gap within it.  The entities, the days and the meetings of an
    entity on a day are read from the schedule by [distinct] and
    [filter].  The check raises nothing but the [OverflowError] of a
    penalty. *)
Theorem excess_gap_per_long_gap (schedule_rows : list row) (ref : ReferenceData)
    (config : Config) (k : entity_kind) (threshold : Z) :
  (forall vs,
     _check_excess_gap_for_entity schedule_rows ref config k threshold = Ok vs ->
     map magnitude vs =
     per_entity_per_day (distinct (omap (single_id k) schedule_rows))
       (fun id => meetings_of_single k id schedule_rows)
       (fun day_meetings =>
          flat_map (fun p => excess_over threshold (start_minutes p.2 - end_minutes p.1))
                   (consecutive day_meetings))) /\
  (forall e,
     _check_excess_gap_for_entity schedule_rows ref config k threshold = Raise e ->
     e = OverflowError).
Proof.
  split; [unfold _check_excess_gap_for_entity|].
  - intros vs.
    apply (soft_per_entity_per_day k schedule_rows
             (fun id d dm => gap_loop (excess_gap_check config (capitalize k)
                                         (entity_name_of ref k id) d threshold) dm)).
    intros id d dm ws. rewrite gap_loop_consecutive.
    apply collect_map. intros p ws' _. apply excess_gap_check_Ok.
  - apply excess_gap_for_entity_Raise.
Qed.

Lemma excess_gap_per_long_gap_witness :
  exists vs,
    _check_excess_gap_for_entity an_hour_apart sample_reference default_config Faculty 30
      = Ok vs /\
    map magnitude vs = [30].
Proof.
  destruct (_check_excess_gap_for_entity an_hour_apart sample_reference default_config
              Faculty 30) as [vs|] eqn:Hvs; [|vm_compute in Hvs; discriminate].
  exists vs. split; [reflexivity|].
  rewrite (proj1 (excess_gap_per_long_gap an_hour_apart sample_reference default_config
                    Faculty 30) vs Hvs).
  reflexivity.
Defined.

(** ** Soft checks *)

(** X14.  [check_faculty_overload] and [check_faculty_underfill] return
    the empty list on every schedule, reference data and configuration:
    the hour limits are read under keys that [_load_faculty] never stores,
    so the limit is [0] and the guard [limit > 0] never passes. *)
Theorem faculty_load_checks_always_silent (schedule_rows : list row) (ref : ReferenceData)
    (config : Config) :
  check_faculty_overload schedule_rows ref config = Ok [] /\
  check_faculty_underfill schedule_rows ref config = Ok [] /\
  (forall d, dict_get (faculty_dict d) "max_hours_per_week"%string = None /\
             dict_get (faculty_dict d) "min_hours_per_week"%string = None).
Proof.
  split_and!.
  - apply check_faculty_overload_silent.
  - apply check_faculty_underfill_silent.
  - intros d. split; reflexivity.
Qed.

(** X15.  The soft Section Overfill check compares a section's enrollment
    with the plain [capacity] of its primary room in the catalog (no
    ['optimal_capacity'] is ever stored): when it returns, it has emitted
    the excess over that capacity, and nothing for a section without a
    room, a room absent from the catalog or a capacity of [0].  It raises
    nothing but the [OverflowError] of a penalty.  The soft Section
    Underfill check returns the empty list: no ['min_capacity'] is ever
    stored. *)
Theorem section_fill_checks_use_plain_capacity (sections : list Section) (ref : ReferenceData)
    (config : Config) :
  (forall vs, check_section_overfill sections ref config = Ok vs ->
     map magnitude vs =
       flat_map (fun s =>
         match sec_room_id s with
         | None => []
         | Some rid =>
             match dict_get (rooms_by_id ref) rid with
             | None => []
             | Some room =>
                 if bool_decide (rd_capacity room = 0) then []
                 else excess_over (rd_capacity room) (sec_total_students s)
             end
         end) sections) /\
  (forall e, check_section_overfill sections ref config = Raise e -> e = OverflowError) /\
  check_section_underfill sections ref config = Ok [].
Proof.
  split_and!; [| |apply check_section_underfill_silent].
  - intros vs. unfold check_section_overfill.
    apply collect_map. intros s ws _. apply section_overfill_Ok.
  - apply check_section_overfill_Raise.
Qed.

Lemma section_fill_checks_use_plain_capacity_witness :
  exists vs,
    check_section_overfill (build_sections shared_class sample_campus) sample_campus
      default_config = Ok vs /\
    map sec_total_students (build_sections shared_class sample_campus) = [36] /\
    map magnitude vs = [6].
Proof.
  destruct (check_section_overfill (build_sections shared_class sample_campus) sample_campus
              default_config) as [vs|] eqn:Hvs; [|vm_compute in Hvs; discriminate].
  exists vs. split; [reflexivity|]. split; [reflexivity|].
  rewrite (proj1 (section_fill_checks_use_plain_capacity
                    (build_sections shared_class sample_campus) sample_campus
                    default_config) vs Hvs).
  reflexivity.
Defined.

(** *** What the soft checker raises *)

Lemma bind_Raise {A B : Type} (m : result A) (f : A -> result B) (e : exn) :
  m ≫= f = Raise e -> m = Raise e \/ exists a, m = Ok a /\ f a = Raise e.
Proof. destruct m as [a|e']; simpl; [right; by exists a|left; congruence]. Qed.

Lemma two_entities_Raise (faculty batch : result (list violation)) (e : exn) :
  (f ← faculty; b ← batch; Ok (f ++ b)) = Raise e -> faculty = Raise e \/ batch = Raise e.
Proof.
  destruct faculty as [f|]; [|left; simpl in *; congruence].
  destruct batch as [b|]; [done|right; simpl in *; congruence].
Qed.

Lemma check_friday_late_classes_Raise (schedule_rows : list row) (ref : ReferenceData)
    (config : Config) (e : exn) :
  check_friday_late_classes schedule_rows ref config = Raise e -> e = OverflowError.
Proof.
  intros (r & _ & Hr)%collect_Raise. revert Hr.
  destruct (_ || _); [|done]. case_bool_decide; [|done]. apply priced_Raise.
Qed.

Lemma check_excess_subjects_Raise (schedule_rows : list row) (ref : ReferenceData)
    (config : Config) (e : exn) :
  check_excess_subjects schedule_rows ref config = Raise e -> e = OverflowError.
Proof.
  intros ([fid base] & _ & Hr)%collect_Raise. revert Hr. cbv zeta.
  case_bool_decide; [|done]. apply priced_Raise.
Qed.

Lemma check_external_meeting_conflicts_Raise (schedule_rows : list row)
    (ref : ReferenceData) (config : Config) (e : exn) :
  check_external_meeting_conflicts schedule_rows ref config = Raise e -> e = OverflowError.
Proof.
  unfold check_external_meeting_conflicts.
  destruct (external_meetings ref) as [exts|]; [|done].
  intros (ext & _ & (m & _ & Hr)%collect_Raise)%collect_Raise. revert Hr.
  case_bool_decide; [done|]. case_bool_decide; [done|].
  destruct (_ && _); [|done]. apply priced_Raise.
Qed.

Lemma priced_returns (config : Config) (raw_count : Z) (w : number)
    (v : penalty_term -> violation) :
  (exists n, PENALTY_EXPONENT config = PyInt n /\ 0 <= n) -> is_int w ->
  exists ws, (penalty ← apply_penalty config raw_count w; Ok [v penalty]) = Ok ws.
Proof.
  intros (n & Hexp & Hn) Hw. destruct w as [w|q]; [|done].
  destruct (apply_penalty_exact config raw_count n w Hexp Hn) as [p ->]. simpl. by eexists.
Qed.

(** X16.  [check_all_soft_constraints] raises nothing but [OverflowError],
    the one that [apply_penalty] raises when a power or a product is out
    of the range of a float.  With a non-negative [int] exponent and
    [int] weights the penalties are computed in exact integer arithmetic,
    and the soft checker returns on every schedule.  When it returns and
    the reference data has no [external_meetings] attribute (as
    [ReferenceData] leaves it), every soft violation has a strictly
    positive magnitude, whatever the schedule rows. *)
Theorem soft_checker_raises_only_overflow (schedule_rows : list row)
    (sections : list Section) (ref : ReferenceData) (config : Config) :
  (forall e, check_all_soft_constraints schedule_rows sections ref config = Raise e ->
             e = OverflowError) /\
  (exact_penalties config ->
   exists soft, check_all_soft_constraints schedule_rows sections ref config = Ok soft) /\
  (forall soft, check_all_soft_constraints schedule_rows sections ref config = Ok soft ->
     external_meetings ref = None -> Forall positive soft).
Proof.
  assert (Hpositive : forall soft,
            check_all_soft_constraints schedule_rows sections ref config = Ok soft ->
            external_meetings ref = None -> Forall positive soft).
  { intros soft Hsoft.
    by destruct (check_all_soft_constraints_positive schedule_rows sections ref config soft
                   Hsoft) as (_ & _ & ?). }
  cut ((forall e, check_all_soft_constraints schedule_rows sections ref config = Raise e ->
                  e = OverflowError) /\
       (exact_penalties config ->
        exists soft, check_all_soft_constraints schedule_rows sections ref config = Ok soft)).
  { intros [? ?]. by split_and!. }
  clear Hpositive. unfold check_all_soft_constraints.
  rewrite check_faculty_overload_silent, check_faculty_underfill_silent.
  rewrite check_section_underfill_silent. cbn [mbind result_bind]. split.
  - intros e He.
    apply bind_Raise in He as [He|(overfill & _ & He)];
      [by eapply check_section_overfill_Raise|].
    cbn [mbind result_bind] in He.
    apply bind_Raise in He as [He|(mc & _ & He)].
    { apply two_entities_Raise in He as [He|He];
        by eapply min_continuous_for_entity_Raise. }
    apply bind_Raise in He as [He|(eg & _ & He)].
    { apply two_entities_Raise in He as [He|He];
        by eapply excess_gap_for_entity_Raise. }
    cbv zeta in He.
    apply bind_Raise in He as [He|(fl & _ & He)];
      [by eapply check_friday_late_classes_Raise|].
    apply bind_Raise in He as [He|(es & _ & He)];
      [by eapply check_excess_subjects_Raise|].
    apply bind_Raise in He as [He|(ex & _ & He)];
      [by eapply check_external_meeting_conflicts_Raise|done].
  - intros (Hexp & Hover & Hmc & Heg & Hfl & Hes & Hex).
    assert (H1 : exists vs, check_section_overfill sections ref config = Ok vs).
    { apply collect_returns. intros s _. unfold section_overfill.
      destruct (sec_room_id s); [|by eexists]. rewrite optimal_capacity_of_int.
      destruct (_ && _); [|by eexists]. by apply priced_returns. }
    assert (H2 : forall k, exists vs,
              _check_min_continuous_for_entity schedule_rows ref config k
                (MIN_CONTINUOUS_CLASS_MINUTES config) = Ok vs).
    { intros k.
      apply (soft_per_entity_per_day_returns k schedule_rows
               (fun id d dm => collect (min_block_check config (capitalize k)
                                          (entity_name_of ref k id) d _)
                                       (continuous_blocks dm))).
      intros id d dm. apply collect_returns. intros [bs be] _. unfold min_block_check.
      destruct (_ && _); [|by eexists]. by apply priced_returns. }
    assert (H3 : forall k, exists vs,
              _check_excess_gap_for_entity schedule_rows ref config k
                (EXCESS_GAP_MINUTES config) = Ok vs).
    { intros k.
      apply (soft_per_entity_per_day_returns k schedule_rows
               (fun id d dm => gap_loop (excess_gap_check config (capitalize k)
                                           (entity_name_of ref k id) d _) dm)).
      intros id d dm. rewrite gap_loop_consecutive. apply collect_returns. intros p _.
      unfold excess_gap_check. case_bool_decide; [|by eexists]. by apply priced_returns. }
    assert (H4 : exists vs, check_friday_late_classes schedule_rows ref config = Ok vs).
    { apply collect_returns. intros r _. destruct (_ || _); [|by eexists].
      case_bool_decide; [|by eexists]. by apply priced_returns. }
    assert (H5 : exists vs, check_excess_subjects schedule_rows ref config = Ok vs).
    { apply collect_returns. intros [fid base] _. cbv zeta.
      case_bool_decide; [|by eexists]. by apply priced_returns. }
    assert (H6 : exists vs, check_external_meeting_conflicts schedule_rows ref config = Ok vs).
    { unfold check_external_meeting_conflicts.
      destruct (external_meetings ref); [|by eexists].
      apply collect_returns. intros ext _. apply collect_returns. intros m _.
      case_bool_decide; [by eexists|]. case_bool_decide; [by eexists|].
      destruct (_ && _); [|by eexists]. by apply priced_returns. }
    unfold check_min_continuous_class, check_excess_gap. cbv zeta.
    destruct H1 as [v1 ->]. destruct (H2 Faculty) as [v2 ->]. destruct (H2 Batch) as [v3 ->].
    destruct (H3 Faculty) as [v4 ->]. destruct (H3 Batch) as [v5 ->].
    destruct H4 as [v6 ->]. destruct H5 as [v7 ->]. destruct H6 as [v8 ->].
    cbn [mbind result_bind]. by eexists.
Qed.

Lemma soft_checker_raises_only_overflow_witness :
  exact_penalties squared_config /\
  exists soft,
    check_all_soft_constraints shared_class (build_sections shared_class sample_campus)
      sample_campus squared_config = Ok soft /\
    map magnitude soft = [6; 30; 30; 30; 30; 2] /\
    Forall positive soft.
Proof.
  assert (Hexact : exact_penalties squared_config).
  { split; [exists 2; split; [reflexivity|lia]|]. by repeat split. }
  split; [exact Hexact|].
  destruct (soft_checker_raises_only_overflow shared_class
              (build_sections shared_class sample_campus) sample_campus squared_config)
    as (_ & Hreturns & Hpositive).
  destruct (Hreturns Hexact) as [soft Hsoft].
  exists soft. split; [exact Hsoft|].
  split; [|by apply Hpositive].
  vm_compute in Hsoft. injection Hsoft as <-. reflexivity.
Defined.


(** ** Loader helpers *)

Lemma ascii_upper_facts (c : ascii) :
  ascii_upper (ascii_upper c) = ascii_upper c /\
  (ascii_upper c = " "%char <-> c = " "%char) /\
  (ascii_upper c = "."%char <-> c = "."%char).
Proof.
  destruct c as [[] [] [] [] [] [] [] []]; vm_compute; (split; [reflexivity|]);
    split; split; congruence.
Qed.

Lemma normalize_subject_name_chars (name : string) :
  Forall normalized_char (list_ascii_of_string (normalize_subject_name name)).
Proof.
  unfold normalize_subject_name.
  induction name as [|c name IH]; simpl; [constructor|].
  destruct (decide (c = " "%char)) as [->|Hs]; [exact IH|].
  cbn [remove_char]. destruct (decide (c = "."%char)) as [->|Hp]; [exact IH|].
  simpl. constructor; [|exact IH].
  destruct (ascii_upper_facts c) as (H1 & H2 & H3). unfold normalized_char. tauto.
Qed.

Lemma normalize_subject_name_fixed (name : string) :
  Forall normalized_char (list_ascii_of_string name) ->
  normalize_subject_name name = name.
Proof.
  unfold normalize_subject_name.
  induction name as [|c name IH]; simpl; [done|].
  intros [(Hs & Hp & Hu) Hrest]%Forall_cons.
  destruct (decide (c = " "%char)); [done|]. cbn [remove_char].
  destruct (decide (c = "."%char)); [done|]. simpl. by rewrite Hu, IH.
Qed.

Lemma normalize_subject_name_app (a b : string) :
  normalize_subject_name (a +:+ b) =
  (normalize_subject_name a +:+ normalize_subject_name b)%string.
Proof.
  unfold normalize_subject_name.
  induction a as [|c a IH]; simpl; [done|].
  destruct (decide (c = " "%char)); [exact IH|]. cbn [remove_char].
  destruct (decide (c = "."%char)); [exact IH|]. simpl. by rewrite IH.
Qed.

(** X18.  [normalize_subject_name] is idempotent and works character by
    character: the result of a concatenation is the concatenation of the
    results, a space and a period vanish, and the result holds no space,
    no period and no letter that [upper] would change.  So two spellings
    of a subject that differ only in spaces, periods and the case of their
    letters get the same normalized name. *)
Theorem normalize_subject_name_canonical (a b : string) :
  normalize_subject_name (normalize_subject_name a) = normalize_subject_name a /\
  normalize_subject_name (a +:+ b) =
    (normalize_subject_name a +:+ normalize_subject_name b)%string /\
  normalize_subject_name (a +:+ " " +:+ b) = normalize_subject_name (a +:+ b) /\
  normalize_subject_name (a +:+ "." +:+ b) = normalize_subject_name (a +:+ b) /\
  normalize_subject_name (upper a) = normalize_subject_name a /\
  Forall normalized_char (list_ascii_of_string (normalize_subject_name a)).
Proof.
  split_and!.
  - apply normalize_subject_name_fixed, normalize_subject_name_chars.
  - apply normalize_subject_name_app.
  - by rewrite !normalize_subject_name_app.
  - by rewrite !normalize_subject_name_app.
  - unfold normalize_subject_name. induction a as [|c a IH]; simpl; [done|].
    destruct (ascii_upper_facts c) as (H1 & H2 & H3).
    destruct (decide (c = " "%char)) as [->|Hs].
    + rewrite decide_True by (by vm_compute). exact IH.
    + rewrite decide_False by tauto. cbn [remove_char].
      destruct (decide (c = "."%char)) as [->|Hp].
      * rewrite decide_True by (by vm_compute). exact IH.
      * rewrite decide_False by tauto. simpl. by rewrite H1, IH.
  - apply normalize_subject_name_chars.
Qed.

Lemma digit_value_range (c : ascii) : is_digit c = true -> 0 <= digit_value c <= 9.
Proof.
  unfold is_digit, digit_value. intros H%bool_decide_eq_true. lia.
Qed.

Lemma hour_matches_range (s : list ascii) :
  Forall (fun hr => 0 <= hr.1 <= 23) (hour_matches s).
Proof.
  unfold hour_matches. apply Forall_app. split.
  - destruct s as [|d1 [|d2 r]]; [constructor..|]. apply Forall_app. split.
    + destruct (bool_decide (d1 = "2"%char) && is_digit d2 &&
                bool_decide (digit_value d2 <= 3)) eqn:E; [|constructor].
      apply andb_true_iff in E as [[_ Hd]%andb_true_iff H3%bool_decide_eq_true].
      apply digit_value_range in Hd. constructor; [simpl; lia|constructor].
    + destruct ((bool_decide (d1 = "0"%char) || bool_decide (d1 = "1"%char)) &&
                is_digit d2) eqn:E; [|constructor].
      apply andb_true_iff in E as [H01 Hd]. apply digit_value_range in Hd.
      constructor; [|constructor]. simpl.
      apply orb_true_iff in H01 as [->%bool_decide_eq_true| ->%bool_decide_eq_true];
        change (digit_value "0") with 0; change (digit_value "1") with 1; lia.
  - destruct s as [|d1 r]; [constructor|].
    destruct (is_digit d1) eqn:E; [|constructor].
    apply digit_value_range in E. constructor; [simpl; lia|constructor].
Qed.

Lemma minute_matches_range (s : list ascii) :
  Forall (fun mr => 0 <= mr.1 <= 59) (minute_matches s).
Proof.
  unfold minute_matches. apply Forall_app. split.
  - destruct s as [|d1 [|d2 r]]; [constructor..|].
    destruct (is_digit d1 && bool_decide (digit_value d1 <= 5) && is_digit d2) eqn:E;
      [|constructor].
    apply andb_true_iff in E as [[H1 H5%bool_decide_eq_true]%andb_true_iff H2].
    apply digit_value_range in H1, H2. constructor; [simpl; lia|constructor].
  - destruct s as [|d1 r]; [constructor|].
    destruct (is_digit d1) eqn:E; [|constructor].
    apply digit_value_range in E. constructor; [simpl; lia|constructor].
Qed.

Lemma strptime_HM_range (s : list ascii) (h m : Z) :
  strptime_HM s = Some (h, m) -> 0 <= h <= 23 /\ 0 <= m <= 59.
Proof.
  unfold strptime_HM.
  set (found := flat_map _ _).
  assert (Hall : Forall (fun x => 0 <= x.1.1 <= 23 /\ 0 <= x.1.2 <= 59) found).
  { subst found. apply Forall_flat_map.
    eapply Forall_impl; [apply hour_matches_range|]. intros [h0 r1] Hh. simpl in Hh.
    apply Forall_flat_map, Forall_forall. intros r2 _.
    apply Forall_fmap. eapply Forall_impl; [apply minute_matches_range|].
    intros [m0 r3] Hm. simpl in *. done. }
  destruct found as [|[[h0 m0] [|c r]] found']; [done| |done].
  intros [= <- <-]. apply Forall_cons in Hall as [Hx _]. exact Hx.
Qed.

(** X19.  Whatever the string, [time_to_minutes] returns a minute of the
    day, between [0] (midnight, also the value of a string that does not
    parse, such as an hour of 24) and [1439] (23:59). *)
Theorem time_to_minutes_within_day (time_str : string) :
  0 <= time_to_minutes time_str <= 1439.
Proof.
  unfold time_to_minutes.
  destruct (strptime_HM _) as [[h m]|] eqn:E; [|lia].
  apply strptime_HM_range in E. lia.
Qed.

(** X20.  Formatting a minute of the day with [minutes_to_time_str] and
    reading the string back with [time_to_minutes] gives the minute
    again. *)
Theorem time_string_round_trip (minutes : Z) :
  0 <= minutes < 1440 ->
  time_to_minutes (minutes_to_time_str minutes) = minutes.
Proof.
  intros Hm.
  assert (Hall : forallb (fun n => time_to_minutes (minutes_to_time_str (Z.of_nat n))
                                   =? Z.of_nat n) (seq 0 1440) = true)
    by (vm_compute; reflexivity).
  rewrite forallb_forall in Hall.
  specialize (Hall (Z.to_nat minutes)).
  rewrite Z2Nat.id in Hall by lia. apply Z.eqb_eq, Hall.
  apply in_seq. lia.
Qed.

Lemma time_string_round_trip_witness :
  0 <= 485 < 1440 /\ time_to_minutes (minutes_to_time_str 485) = 485.
Proof. split; [lia|apply (time_string_round_trip 485); lia]. Defined.

(** ** Excess subjects *)

Lemma group_by_elem_filter {A K : Type} `{EqDecision K} (key : A -> option K) (l : list A)
    (k : K) (g : list A) :
  (k, g) ∈ group_by key l -> g = filter (fun x => key x = Some k) l.
Proof.
  intros Hin. rewrite <-group_by_get.
  by rewrite (dict_elem_get _ _ _ (group_by_NoDup key l) Hin).
Qed.






(** ** Meeting unification *)

Lemma dict_upd_fresh {K V : Type} `{EqDecision K} (f : option V -> V) (k : K)
    (d : list (K * V)) :
  k ∉ dict_keys d -> dict_upd f k d = d ++ [(k, f None)].
Proof.
  unfold dict_keys. induction d as [|[k0 v0] d IH]; [done|].
  rewrite fmap_cons. cbn [fst dict_upd]. intros [Hne Hd]%not_elem_of_cons.
  rewrite decide_False by done. by rewrite IH.
Qed.

Lemma meeting_groups_by_key_group_by (rows : list mapped_row) :
  meeting_groups_by_key rows = group_by (fun r => Some (key_of r)) rows.
Proof. reflexivity. Qed.

Lemma meeting_groups_distinct (rows : list mapped_row) :
  NoDup (map key_of rows) ->
  meeting_groups_by_key rows = map (fun r => (key_of r, [r])) rows.
Proof.
  rewrite meeting_groups_by_key_group_by.
  induction rows as [|r l IH] using rev_ind; [done|].
  rewrite map_app. intros (Hl & Hfresh & _)%NoDup_app.
  rewrite group_by_snoc, IH, map_app by done. simpl.
  apply dict_upd_fresh. unfold dict_keys.
  rewrite <-list_fmap_compose. intros Hin. apply (Hfresh (key_of r)); [|left].
  apply list_elem_of_fmap in Hin as (x & -> & Hx). apply list_elem_of_fmap. by exists x.
Qed.

Lemma mapM_fmap_total {A B C : Type} (f : B -> option C) (h : A -> B) (g : A -> C)
    (l : list A) :
  (forall x, f (h x) = Some (g x)) -> mapM f (h <$> l) = Some (g <$> l).
Proof.
  intros Hf. apply mapM_Some_2. induction l as [|x l IH]; [constructor|].
  rewrite !fmap_cons. by constructor.
Qed.

(** X22.  Rows with pairwise different meeting keys pass through
    [_unify_meetings] unchanged: the result is the input, row by row and
    in the same order, and no conflict is recorded. *)
Theorem unify_keeps_distinct_meetings (o : set_iteration) (ref : ReferenceData)
    (rows : list mapped_row) :
  NoDup (map key_of rows) ->
  _unify_meetings o ref rows = Some (map Unmerged rows, []).
Proof.
  intros Hnd. unfold _unify_meetings. rewrite meeting_groups_distinct by done.
  change (map (fun r => (key_of r, [r])) rows) with ((fun r => (key_of r, [r])) <$> rows).
  rewrite (mapM_fmap_total _ _ (fun r => (Unmerged r, []))) by done.
  simpl. f_equal. f_equal.
  - rewrite <-list_fmap_compose. done.
  - rewrite <-list_fmap_compose. induction rows as [|r l IH]; [done|].
    rewrite fmap_cons. simpl. apply IH. by apply NoDup_cons in Hnd as [_ ?].
Qed.

Lemma unify_keeps_distinct_meetings_witness :
  let rows := [sample_mapped 0 1 "ICS 103" 1 "Cruz" 5 "A" None "MONDAY" "08:00" "09:00";
               sample_mapped 1 1 "ICS 103" 1 "Cruz" 5 "A" None "TUESDAY" "08:00" "09:00"] in
  NoDup (map key_of rows) /\
  _unify_meetings insertion_order empty_reference rows = Some (map Unmerged rows, []).
Proof.
  cbv zeta.
  assert (Hnd : NoDup (map key_of
            [sample_mapped 0 1 "ICS 103" 1 "Cruz" 5 "A" None "MONDAY" "08:00" "09:00";
             sample_mapped 1 1 "ICS 103" 1 "Cruz" 5 "A" None "TUESDAY" "08:00" "09:00"])).
  { apply (bool_decide_unpack _). vm_compute. exact I. }
  split; [exact Hnd|].
  apply (unify_keeps_distinct_meetings insertion_order empty_reference _ Hnd).
Defined.

Lemma set_len_gt_1 {A : Type} `{EqDecision A} (adds : list A) :
  set_len adds > 1 <-> exists x y, x ∈ adds /\ y ∈ adds /\ x <> y.
Proof.
  unfold set_len. pose proof (NoDup_remove_dups adds) as Hnd.
  assert (Hel : forall x, x ∈ remove_dups adds <-> x ∈ adds)
    by (intros x; apply elem_of_remove_dups).
  destruct (remove_dups adds) as [|x [|y l]]; simpl.
  - split; [lia|]. intros (x & _ & Hx & _). apply Hel in Hx. by apply elem_of_nil in Hx.
  - split; [lia|]. intros (a & b & Ha%Hel & Hb%Hel & Hne).
    apply list_elem_of_singleton in Ha, Hb. congruence.
  - split; [intros _|lia]. exists x, y. split_and!.
    + apply Hel. left.
    + apply Hel. right. left.
    + apply NoDup_cons in Hnd as [Hx _]. intros ->. apply Hx. left.
Qed.

Lemma first_of_head {A : Type} (listing : list A -> list A) (adds : list A) :
  enumerates listing -> first_of adds (listing adds) = head (listing adds).
Proof.
  intros Hen. destruct adds as [|a adds]; [|done]. simpl.
  destruct (Hen []) as [_ Hel]. destruct (listing []) as [|x l]; [done|].
  exfalso. apply (elem_of_nil x), Hel. left.
Qed.

Lemma merge_meeting_rows_inv (o : set_iteration) (ref : ReferenceData)
    (rows : list mapped_row) (key : meeting_key) (m : merged_meeting)
    (cs : list data_conflict) :
  _merge_meeting_rows o ref rows key = Some (m, cs) ->
  exists first, head rows = Some first /\
    unified_key (Merged m) = key /\
    mg_start_minutes m = mr_start_minutes first /\
    mg_end_minutes m = mr_end_minutes first /\
    mg_all_faculty_ids m = list_ids o (omap mr_faculty_id rows) /\
    mg_all_room_ids m = list_ids o (omap mr_room_id rows) /\
    mg_all_batch_ids m = list_ids o (omap mr_batch_id rows) /\
    mg_faculty_id m = first_of (omap mr_faculty_id rows) (list_ids o (omap mr_faculty_id rows)) /\
    mg_room_id m = first_of (omap mr_room_id rows) (list_ids o (omap mr_room_id rows)) /\
    mg_batch_id m = first_of (omap mr_batch_id rows) (list_ids o (omap mr_batch_id rows)) /\
    ((exists c, c ∈ cs /\ dc_type c = "Multiple Faculty Conflict"%string) <->
       set_len (omap mr_faculty_id rows) > 1) /\
    ((exists c, c ∈ cs /\ dc_type c = "Multiple Room Conflict"%string) <->
       set_len (omap mr_room_id rows) > 1).
Proof.
  destruct key as [[[sn d] st] et]. unfold _merge_meeting_rows.
  destruct (head rows) as [first|] eqn:Hhead; [|done].
  cbn [mbind option_bind].
  destruct (sorted (map mr_meeting_id rows)) as [sorted_ids|]; [|done].
  cbn [mbind option_bind]. intros [= <- <-]. exists first.
  split_and!; try reflexivity.
  - split.
    + intros (c & [Hc|Hc]%elem_of_app & Hty).
      * case_bool_decide; [done|]. by apply elem_of_nil in Hc.
      * case_bool_decide as Hr; [|by apply elem_of_nil in Hc].
        apply list_elem_of_singleton in Hc as ->. discriminate Hty.
    + intros Hlen. rewrite (bool_decide_eq_true_2 _ Hlen).
      eexists. split; [apply elem_of_app; left; left|done].
  - split.
    + intros (c & [Hc|Hc]%elem_of_app & Hty).
      * case_bool_decide as Hr; [|by apply elem_of_nil in Hc].
        apply list_elem_of_singleton in Hc as ->. discriminate Hty.
      * case_bool_decide; [done|]. by apply elem_of_nil in Hc.
    + intros Hlen. rewrite (bool_decide_eq_true_2 _ Hlen).
      eexists. split; [apply elem_of_app; right; left|done].
Qed.

Lemma listed_ids (listing : list Z -> list Z) (rows : list mapped_row)
    (field : mapped_row -> option Z) :
  enumerates listing ->
  NoDup (listing (omap field rows)) /\
  forall x, x ∈ listing (omap field rows) <-> exists r, r ∈ rows /\ field r = Some x.
Proof.
  intros Hen. destruct (Hen (omap field rows)) as [Hnd Hel]. split; [done|].
  intros x. rewrite Hel, list_elem_of_omap. done.
Qed.

Lemma two_ids (rows : list mapped_row) (field : mapped_row -> option Z) :
  set_len (omap field rows) > 1 <->
  exists r1 r2 x1 x2, r1 ∈ rows /\ r2 ∈ rows /\ field r1 = Some x1 /\ field r2 = Some x2 /\
                      x1 <> x2.
Proof.
  rewrite set_len_gt_1. split.
  - intros (x & y & (r1 & H1 & E1)%list_elem_of_omap & (r2 & H2 & E2)%list_elem_of_omap & Hne).
    by exists r1, r2, x, y.
  - intros (r1 & r2 & x & y & H1 & H2 & E1 & E2 & Hne). exists x, y.
    split_and!; [| |done]; apply list_elem_of_omap; eauto.
Qed.

(** X23.  The meeting that [_merge_meeting_rows] builds from the rows of a
    key lists every faculty id, every room id and every primary batch id
    ([batch_id]) that occurs in one of the rows, each once; the further
    batches that a row lists in [all_batch_ids] are not copied.  Its
    canonical [faculty_id], [room_id] and [batch_id] are the first
    entries of these lists ([None] for an empty list), its key is the key
    of the group and its start and end are those of the first row.  A
    Multiple Faculty (Room) Conflict is recorded exactly when two rows
    name different faculty (rooms). *)
Theorem merged_meeting_collects_ids (o : set_iteration) (ref : ReferenceData)
    (rows : list mapped_row) (key : meeting_key) (m : merged_meeting)
    (cs : list data_conflict) :
  faithful_iteration o ->
  _merge_meeting_rows o ref rows key = Some (m, cs) ->
  (NoDup (mg_all_faculty_ids m) /\
   forall f, f ∈ mg_all_faculty_ids m <-> exists r, r ∈ rows /\ mr_faculty_id r = Some f) /\
  (NoDup (mg_all_room_ids m) /\
   forall x, x ∈ mg_all_room_ids m <-> exists r, r ∈ rows /\ mr_room_id r = Some x) /\
  (NoDup (mg_all_batch_ids m) /\
   forall b, b ∈ mg_all_batch_ids m <-> exists r, r ∈ rows /\ mr_batch_id r = Some b) /\
  mg_faculty_id m = head (mg_all_faculty_ids m) /\
  mg_room_id m = head (mg_all_room_ids m) /\
  mg_batch_id m = head (mg_all_batch_ids m) /\
  unified_key (Merged m) = key /\
  (exists first, head rows = Some first /\
     mg_start_minutes m = mr_start_minutes first /\
     mg_end_minutes m = mr_end_minutes first) /\
  ((exists c, c ∈ cs /\ dc_type c = "Multiple Faculty Conflict"%string) <->
     exists r1 r2 f1 f2, r1 ∈ rows /\ r2 ∈ rows /\
       mr_faculty_id r1 = Some f1 /\ mr_faculty_id r2 = Some f2 /\ f1 <> f2) /\
  ((exists c, c ∈ cs /\ dc_type c = "Multiple Room Conflict"%string) <->
     exists r1 r2 x1 x2, r1 ∈ rows /\ r2 ∈ rows /\
       mr_room_id r1 = Some x1 /\ mr_room_id r2 = Some x2 /\ x1 <> x2).
Proof.
  intros [Hids Hnames] Hmerge.
  apply merge_meeting_rows_inv in Hmerge
    as (first & Hhead & Hkey & Hs & He & Hf & Hr & Hb & Hf1 & Hr1 & Hb1 & Hcf & Hcr).
  rewrite Hf, Hr, Hb, Hf1, Hr1, Hb1, Hcf, Hcr, !two_ids.
  split_and!; try done; try (by apply listed_ids); try (by apply first_of_head).
  by exists first.
Qed.

Lemma insertion_order_faithful : faithful_iteration insertion_order.
Proof.
  assert (Hen : forall (A : Type) `{EqDecision A},
            enumerates (fun adds : list A => reverse (remove_dups (reverse adds)))).
  { intros A ? adds. split.
    - rewrite reverse_Permutation. apply NoDup_remove_dups.
    - intros x. by rewrite elem_of_reverse, elem_of_remove_dups, elem_of_reverse. }
  split; apply Hen.
Qed.

Lemma merged_meeting_collects_ids_witness :
  let rows := [sample_mapped 0 1 "ICS 103" 1 "Cruz" 5 "A" (Some [5; 6]) "MONDAY" "08:00" "09:00";
               sample_mapped 1 1 "ICS 103" 2 "Reyes" 7 "C" None "MONDAY" "08:00" "09:00"] in
  exists m cs,
    faithful_iteration insertion_order /\
    _merge_meeting_rows insertion_order empty_reference rows
      ("ICS 103", "MONDAY", "08:00", "09:00")%string = Some (m, cs) /\
    NoDup (mg_all_batch_ids m) /\
    (forall b, b ∈ mg_all_batch_ids m <-> exists r, r ∈ rows /\ mr_batch_id r = Some b).
Proof.
  cbv zeta. pose proof insertion_order_faithful as Ho.
  destruct (_merge_meeting_rows insertion_order empty_reference
              [sample_mapped 0 1 "ICS 103" 1 "Cruz" 5 "A" (Some [5; 6]) "MONDAY" "08:00" "09:00";
               sample_mapped 1 1 "ICS 103" 2 "Reyes" 7 "C" None "MONDAY" "08:00" "09:00"]
              ("ICS 103", "MONDAY", "08:00", "09:00")%string) as [[m cs]|] eqn:Hm;
    [|vm_compute in Hm; discriminate].
  exists m, cs. split; [exact Ho|]. split; [reflexivity|].
  destruct (merged_meeting_collects_ids _ _ _ _ _ _ Ho Hm) as (_ & _ & Hb & _). exact Hb.
Defined.






Lemma Forall2_with_Forall {A B : Type} (P : A -> Prop) (R Q : A -> B -> Prop)
    (l : list A) (k : list B) :
  (forall x y, P x -> R x y -> Q x y) -> Forall P l -> Forall2 R l k -> Forall2 Q l k.
Proof.
  intros HPQ HP HR. induction HR as [|x y l k Hxy HR IH]; [constructor|].
  apply Forall_cons in HP as [Hx HP]. constructor; auto.
Qed.

Lemma Forall2_fmap_eq {A B C : Type} (f : B -> C) (g : A -> C) (l : list A) (k : list B) :
  Forall2 (fun x y => f y = g x) l k -> f <$> k = g <$> l.
Proof.
  induction 1 as [|x y l k Hxy HR IH]; [done|]. rewrite !fmap_cons. by f_equal.
Qed.

Lemma Forall2_elem_r {A B : Type} (Q : A -> B -> Prop) (l : list A) (k : list B) (y : B) :
  Forall2 Q l k -> y ∈ k -> exists x, x ∈ l /\ Q x y.
Proof.
  induction 1 as [|x0 y0 l k Hxy HR IH]; [by intros ?%elem_of_nil|].
  intros [->|Hy]%elem_of_cons.
  - exists x0. split; [left|done].
  - destruct (IH Hy) as (x & Hx & HQ). exists x. split; [by right|done].
Qed.

(** How a unified meeting stands for a group of rows. *)
Lemma unify_group_inv (o : set_iteration) (ref : ReferenceData)
    (kg : meeting_key * list mapped_row) (res : unified_meeting * list data_conflict) :
  Forall (fun r => key_of r = kg.1) kg.2 ->
  unify_group o ref kg = Some res ->
  unified_key res.1 = kg.1 /\
  match res.1 with
  | Unmerged r => kg.2 = [r]
  | Merged m => (1 < length kg.2)%nat /\
                exists cs, _merge_meeting_rows o ref kg.2 kg.1 = Some (m, cs)
  end.
Proof.
  destruct kg as [k g]. simpl. intros Hkeys. unfold unify_group.
  destruct g as [|r [|r' g]].
  - destruct (_merge_meeting_rows o ref [] k) as [[m cs]|] eqn:Hm; [|done].
    apply merge_meeting_rows_inv in Hm as (first & Hhead & _). done.
  - intros [= <-]. simpl. apply Forall_cons in Hkeys as [? _]. done.
  - destruct (_merge_meeting_rows o ref (r :: r' :: g) k) as [[m cs]|] eqn:Hm; [|done].
    cbn [mbind option_bind]. intros [= <-]. cbn [fst].
    pose proof Hm as Hm'.
    apply merge_meeting_rows_inv in Hm' as (first & _ & Hkey & _).
    split; [done|]. split; [simpl; lia|by exists cs].
Qed.

(** What [_unify_meetings] returns, meeting by meeting. *)
Lemma unify_meetings_inv (o : set_iteration) (ref : ReferenceData) (rows : list mapped_row)
    (out : list unified_meeting) (cs : list data_conflict) :
  _unify_meetings o ref rows = Some (out, cs) ->
  map unified_key out = dict_keys (meeting_groups_by_key rows) /\
  (forall u, u ∈ out ->
     match u with
     | Unmerged r => filter (fun x => key_of x = key_of r) rows = [r]
     | Merged m =>
         (1 < length (filter (fun x => key_of x = unified_key u) rows))%nat /\
         exists cs', _merge_meeting_rows o ref
                       (filter (fun x => key_of x = unified_key u) rows) (unified_key u)
                     = Some (m, cs')
     end).
Proof.
  unfold _unify_meetings. rewrite meeting_groups_by_key_group_by.
  set (key := fun r => Some (key_of r)).
  assert (Hagree : Forall (fun kg : meeting_key * list mapped_row =>
                             Forall (fun r => key_of r = kg.1) kg.2) (group_by key rows)).
  { eapply Forall_impl; [apply (group_by_keys_agree key)|]. intros kg Hkg.
    eapply Forall_impl; [exact Hkg|]. intros r Hr. unfold key in Hr. congruence. }
  destruct (mapM (unify_group o ref) (group_by key rows)) as [results|] eqn:Hres; [|done].
  cbn [mbind option_bind]. intros [= <- <-].
  apply mapM_Some_1 in Hres.
  apply (Forall2_with_Forall _ _ _ _ _ (unify_group_inv o ref) Hagree) in Hres.
  split.
  - unfold dict_keys. change (map unified_key results.*1) with (unified_key <$> results.*1).
    rewrite <-list_fmap_compose. apply Forall2_fmap_eq.
    eapply Forall2_impl; [exact Hres|]. by intros kg res [? _].
  - intros u (res & -> & Hin_res)%list_elem_of_fmap.
    destruct (Forall2_elem_r _ _ _ _ Hres Hin_res) as ([k g] & Hkg & Hk & Hshape).
    apply group_by_elem_filter in Hkg. simpl in *.
    assert (Hg : g = filter (fun x => key_of x = k) rows).
    { rewrite Hkg. apply list_filter_iff. intros x. unfold key.
      split; [intros [= ?]|intros ->]; done. }
    destruct res.1 as [r|m] eqn:Eu.
    + simpl in Hk. rewrite Hk, <-Hg. done.
    + rewrite Hk, <-Hg. done.
Qed.




(** ** From the loader to the hard checks *)

Lemma in_group_upd_inv (d : list (Z * list row)) (id id' : Z) (r r' : row) :
  in_group (dict_upd (append_to r) id d) id' r' ->
  in_group d id' r' \/ (id' = id /\ r' = r).
Proof.
  unfold in_group. rewrite dict_get_upd.
  destruct (decide (id' = id)) as [->|Hne]; [|by left].
  intros (g & [= <-] & Hin). unfold append_to in Hin.
  apply elem_of_app in Hin as [Hin|Hin%list_elem_of_singleton]; [|by right].
  left. destruct (dict_get d id) as [g|]; [by exists g|by apply elem_of_nil in Hin].
Qed.

Lemma group_rows_step_inv (k : entity_kind) (d : list (Z * list row)) (r : row) (id' : Z)
    (r' : row) :
  in_group (group_rows_step k d r) id' r' ->
  in_group d id' r' \/ (r' = r /\ files_under k r id').
Proof.
  unfold group_rows_step, files_under.
  assert (Hsingle : in_group match id_field k r with
                             | Some id => dict_upd (append_to r) id d
                             | None => d
                             end id' r' ->
                    in_group d id' r' \/ (r' = r /\ id_field k r = Some id')).
  { destruct (id_field k r) as [id|]; [|by left].
    intros [?|[-> ->]]%in_group_upd_inv; [by left|by right]. }
  destruct (all_ids_field k r) as [[|id0 ids]|]; [done| |done].
  clear Hsingle. generalize (id0 :: ids). intros l. revert d.
  induction l as [|i l IH]; intros d; simpl; [by left|].
  intros [[?|[-> ->]]%in_group_upd_inv|[-> Hin]]%IH.
  - by left.
  - right. split; [done|left].
  - right. split; [done|by right].
Qed.

Lemma group_rows_step_files (k : entity_kind) (d : list (Z * list row)) (r : row) (id : Z) :
  files_under k r id -> in_group (group_rows_step k d r) id r.
Proof.
  unfold files_under. destruct (all_ids_field k r) as [[|id0 ids]|] eqn:Hall.
  - intros Hid. unfold group_rows_step. rewrite Hall, Hid. apply in_group_upd_same.
  - intros Hid. by eapply group_rows_step_all_ids.
  - intros Hid. unfold group_rows_step. rewrite Hall, Hid. apply in_group_upd_same.
Qed.

(** The rows that the hard checks see under an id. *)
Lemma hard_grouping_in_group (k : entity_kind) (schedule_rows : list row) (id : Z) (r : row) :
  in_group (group_by_entity_merged k schedule_rows) id r <->
  r ∈ schedule_rows /\ files_under k r id.
Proof.
  unfold group_by_entity_merged.
  induction schedule_rows as [|x l IH] using rev_ind.
  - simpl. split; [by intros (g & [=] & _)|by intros [?%elem_of_nil _]].
  - rewrite foldl_app. simpl. split.
    + intros [Hin|[-> Hf]]%group_rows_step_inv.
      * apply IH in Hin as [? ?]. split; [apply elem_of_app; by left|done].
      * split; [apply elem_of_app; right; left|done].
    + intros [[Hr|Hr%list_elem_of_singleton]%elem_of_app Hf].
      * apply group_rows_step_mono, IH. done.
      * subst. by apply group_rows_step_files.
Qed.

(** X25.  A meeting that the loader returns is seen by the per-entity
    hard checks (time conflicts, continuous hours, gaps) under these ids:
    a line of the file that was not merged under its faculty, its room and
    all of its batches; a merged meeting under every faculty, every room
    and every primary batch of the lines it was merged from, so a batch
    that such a line lists after its first one no longer has the
    meeting. *)
Theorem loaded_meeting_entities (o : set_iteration) (ref : ReferenceData)
    (rows : list mapped_row) (out : list unified_meeting) (cs : list data_conflict)
    (u : unified_meeting) (k : entity_kind) (id : Z) :
  faithful_iteration o ->
  _unify_meetings o ref rows = Some (out, cs) ->
  u ∈ out ->
  in_group (group_by_entity_merged k (map schedule_row out)) id (schedule_row u) <->
  match u with
  | Unmerged r => id ∈ mapped_ids k r
  | Merged _ => exists r, r ∈ rows /\ key_of r = unified_key u /\ primary_id k r = Some id
  end.
Proof.
  intros [Hids _] Hun Hu.
  destruct (unify_meetings_inv o ref rows out cs Hun) as (_ & Hshape).
  specialize (Hshape u Hu). rewrite hard_grouping_in_group.
  assert (Hmem : schedule_row u ∈ map schedule_row out)
    by (apply list_elem_of_fmap; by exists u).
  transitivity (files_under k (schedule_row u) id); [tauto|]. clear Hmem.
  destruct u as [r|m].
  - assert (Hopt : forall x : option Z, x = Some id <-> id ∈ option_list x).
    { intros [x|]; simpl.
      - rewrite list_elem_of_singleton. split; congruence.
      - split; [done|by intros ?%elem_of_nil]. }
    unfold files_under, mapped_ids.
    destruct k; simpl; try (destruct (mr_all_batch_ids r) as [[|b bs]|]; simpl);
      try done; apply Hopt.
  - destruct Hshape as [_ [cs' Hm]].
    set (g := filter (fun x => key_of x = unified_key (Merged m)) rows) in *.
    assert (Hg : forall field : mapped_row -> option Z,
              (exists r, r ∈ g /\ field r = Some id) <->
              exists r, r ∈ rows /\ key_of r = unified_key (Merged m) /\ field r = Some id).
    { intros field. subst g. split.
      - intros (r & [? ?]%list_elem_of_filter & ?). by exists r.
      - intros (r & ? & ? & ?). exists r. split; [by apply list_elem_of_filter|done]. }
    apply merge_meeting_rows_inv in Hm
      as (first & _ & _ & _ & _ & Hf & Hr & Hb & Hf1 & Hr1 & Hb1 & _).
    assert (Hfiles : forall (field : mapped_row -> option Z) (all : list Z) (one : option Z),
              all = list_ids o (omap field g) ->
              one = first_of (omap field g) (list_ids o (omap field g)) ->
              match all with
              | id0 :: ids => id ∈ id0 :: ids
              | [] => one = Some id
              end <-> exists r, r ∈ g /\ field r = Some id).
    { intros field all one -> ->. rewrite (first_of_head _ _ Hids).
      destruct (listed_ids (list_ids o) g field Hids) as [_ Hel]. rewrite <-Hel.
      destruct (list_ids o (omap field g)) as [|id0 ids]; [|done].
      simpl. split; [done|by intros ?%elem_of_nil]. }
    unfold files_under. rewrite <-Hg.
    destruct k; simpl.
    + apply (Hfiles mr_faculty_id); done.
    + apply (Hfiles mr_batch_id); done.
    + apply (Hfiles mr_room_id); done.
Qed.

Lemma loaded_meeting_entities_witness :
  let rows := [sample_mapped 0 1 "ICS 103" 1 "Cruz" 5 "A" (Some [5; 6]) "MONDAY" "08:00" "09:00";
               sample_mapped 1 1 "ICS 103" 2 "Reyes" 7 "C" None "MONDAY" "08:00" "09:00"] in
  exists out cs u,
    faithful_iteration insertion_order /\
    _unify_meetings insertion_order empty_reference rows = Some (out, cs) /\
    u ∈ out /\
    (in_group (group_by_entity_merged Batch (map schedule_row out)) 6 (schedule_row u) <->
     match u with
     | Unmerged r => 6 ∈ mapped_ids Batch r
     | Merged _ =>
         exists r, r ∈ rows /\ key_of r = unified_key u /\ primary_id Batch r = Some 6
     end).
Proof.
  cbv zeta. pose proof insertion_order_faithful as Ho.
  destruct (_unify_meetings insertion_order empty_reference
              [sample_mapped 0 1 "ICS 103" 1 "Cruz" 5 "A" (Some [5; 6]) "MONDAY" "08:00" "09:00";
               sample_mapped 1 1 "ICS 103" 2 "Reyes" 7 "C" None "MONDAY" "08:00" "09:00"])
    as [[[|u out] cs]|] eqn:Hun; [vm_compute in Hun; discriminate| |vm_compute in Hun; discriminate].
  assert (Hu : u ∈ u :: out) by left.
  exists (u :: out), cs, u. split; [exact Ho|]. split; [reflexivity|]. split; [exact Hu|].
  apply (loaded_meeting_entities _ _ _ _ _ _ Batch 6 Ho Hun Hu).
Defined.
